(** * FastAPI_WEB: a shallow embedding of the book-catalogue service

    The development follows [src/main.py], [src/schemes.py],
    [src/models.py] and [src/database.py].

    - Python [str] values are lists of Unicode code points ([pystr]);
      [bytes] values are lists of integers in 0..255.
    - An operation that can raise returns a value of [raises A].
    - Request handlers run in a small state-and-exception monad over a
      SQLAlchemy session: the session works on a [view] of the tables and
      [commit] copies the view to the [store]; what is not committed when the
      request ends is lost.
    - The clock ([datetime.utcnow], [func.now()]) and the salt drawn by
      [bcrypt.gensalt] are explicit inputs.
    - The third-party primitives ([bcrypt.hashpw], [bcrypt.checkpw], the JWS
      signing layer of [jose], pydantic's [EmailStr]) are section variables;
      what is assumed of them is stated as [bcrypt_contract] and
      [jws_contract] and is a premise of the theorems that need it.
    - Identifiers, years, offsets, limits and times are Python integers,
      hence [Z]; times are whole seconds.
    - The store is SQLite: an integer bound as a parameter of a statement
      has to fit in 64 bits ([OverflowError] otherwise), and LIKE reads its
      operands up to the first U+0000 and refuses a pattern of more than
      50000 bytes ([OperationalError]). *)

From Stdlib Require Import ZArith List Bool Lia String Ascii Permutation Sorted.
Import ListNotations.
Open Scope Z_scope.

Set Implicit Arguments.
Set Default Proof Using "Type".

(** ** Strings and bytes *)

Definition pystr := list Z.
Definition bytes := list Z.

Definition str (s : string) : pystr :=
  map (fun a => Z.of_N (N_of_ascii a)) (list_ascii_of_string s).

Fixpoint str_eqb (a b : list Z) : bool :=
  match a, b with
  | [], [] => true
  | x :: a', y :: b' => (x =? y) && str_eqb a' b'
  | _, _ => false
  end.

Definition opt_str_eqb (a b : option pystr) : bool :=
  match a, b with
  | Some x, Some y => str_eqb x y
  | None, None => true
  | _, _ => false
  end.

(** Python's [len] as an integer. *)
Definition len {A} (l : list A) : Z := Z.of_nat (List.length l).

(** Truthiness of a [str]: the empty string is falsy. *)
Definition truthy (s : pystr) : bool :=
  match s with [] => false | _ => true end.

Definition opt_truthy (s : option pystr) : bool :=
  match s with Some s => truthy s | None => false end.

Definition is_ascii (c : Z) : bool := (0 <=? c) && (c <? 128).

Definition is_byte (b : Z) : bool := (0 <=? b) && (b <? 256).



(** ** Exceptions *)

Inductive jws_reason := BadSignature | Malformed | AlgorithmNotAllowed.

(** Instances of Python's [Exception] that the program meets. *)
Inductive exn :=
| HTTPException (status_code : Z) (detail : string)
| RequestValidationError
| JWTError
| ExpiredSignatureError
| JWTClaimsError
| JWSError (r : jws_reason)
| UnicodeEncodeError
| UnicodeDecodeError
| ValueError
| TypeError
| MultipleResultsFound
| InvalidRequestError
| IntegrityError
| OverflowError
| OperationalError.

(** [jose.exceptions]: [ExpiredSignatureError] and [JWTClaimsError] derive
    from [JWTError]; [JWSError] does not. *)
Definition isinstance_JWTError (e : exn) : bool :=
  match e with
  | JWTError | ExpiredSignatureError | JWTClaimsError => true
  | _ => false
  end.

Inductive raises (A : Type) :=
| Returns (a : A)
| Raises (e : exn).
Arguments Returns {A} a.
Arguments Raises {A} e.

Definition rbind {A B} (r : raises A) (k : A -> raises B) : raises B :=
  match r with
  | Returns a => k a
  | Raises e => Raises e
  end.

Definition rmap {A B} (f : A -> B) (r : raises A) : raises B :=
  rbind r (fun a => Returns (f a)).

(** ** UTF-8: [str.encode('utf-8')] and [bytes.decode('utf-8')] *)

Definition is_surrogate (c : Z) : bool := (0xD800 <=? c) && (c <=? 0xDFFF).

Definition cont (c : Z) (shift : Z) : Z :=
  Z.lor 0x80 (Z.land (Z.shiftr c shift) 0x3F).

Definition utf8_encode_cp (c : Z) : raises bytes :=
  if c <? 0 then Raises UnicodeEncodeError
  else if c <? 0x80 then Returns [c]
  else if c <? 0x800 then Returns [Z.lor 0xC0 (Z.shiftr c 6); cont c 0]
  else if c <? 0x10000 then
    if is_surrogate c then Raises UnicodeEncodeError
    else Returns [Z.lor 0xE0 (Z.shiftr c 12); cont c 6; cont c 0]
  else if c <? 0x110000 then
    Returns [Z.lor 0xF0 (Z.shiftr c 18); cont c 12; cont c 6; cont c 0]
  else Raises UnicodeEncodeError.

Fixpoint encode_utf8 (s : pystr) : raises bytes :=
  match s with
  | [] => Returns []
  | c :: s' =>
      rbind (utf8_encode_cp c) (fun bs =>
      rbind (encode_utf8 s') (fun rest => Returns (bs ++ rest)))
  end.

Definition is_cont (b : Z) : bool := (0x80 <=? b) && (b <? 0xC0).

Definition low6 (b : Z) : Z := Z.land b 0x3F.

Fixpoint decode_utf8 (bs : bytes) : raises pystr :=
  match bs with
  | [] => Returns []
  | b0 :: r0 =>
      if (0 <=? b0) && (b0 <? 0x80) then rmap (cons b0) (decode_utf8 r0)
      else if (0xC2 <=? b0) && (b0 <? 0xE0) then
        match r0 with
        | b1 :: r1 =>
            if is_cont b1
            then rmap (cons (Z.lor (Z.shiftl (Z.land b0 0x1F) 6) (low6 b1)))
                      (decode_utf8 r1)
            else Raises UnicodeDecodeError
        | _ => Raises UnicodeDecodeError
        end
      else if (0xE0 <=? b0) && (b0 <? 0xF0) then
        match r0 with
        | b1 :: b2 :: r2 =>
            let c := Z.lor (Z.shiftl (Z.land b0 0x0F) 12)
                           (Z.lor (Z.shiftl (low6 b1) 6) (low6 b2)) in
            if is_cont b1 && is_cont b2 && (0x800 <=? c) && negb (is_surrogate c)
            then rmap (cons c) (decode_utf8 r2)
            else Raises UnicodeDecodeError
        | _ => Raises UnicodeDecodeError
        end
      else if (0xF0 <=? b0) && (b0 <? 0xF5) then
        match r0 with
        | b1 :: b2 :: b3 :: r3 =>
            let c := Z.lor (Z.shiftl (Z.land b0 0x07) 18)
                       (Z.lor (Z.shiftl (low6 b1) 12)
                          (Z.lor (Z.shiftl (low6 b2) 6) (low6 b3))) in
            if is_cont b1 && is_cont b2 && is_cont b3
               && (0x10000 <=? c) && (c <? 0x110000)
            then rmap (cons c) (decode_utf8 r3)
            else Raises UnicodeDecodeError
        | _ => Raises UnicodeDecodeError
        end
      else Raises UnicodeDecodeError
  end.

(** A [str] that pydantic takes for a [str] field: every character is a
    Unicode scalar value; a string with a lone surrogate is refused. *)
Definition unicode_scalar (c : Z) : bool :=
  (0 <=? c) && (c <? 0x110000) && negb (is_surrogate c).

Definition pydantic_str (s : pystr) : bool := forallb unicode_scalar s.

Definition opt_pydantic_str (s : option pystr) : bool :=
  match s with Some s => pydantic_str s | None => true end.

(** The number of bytes of the UTF-8 form of a string. *)
Definition utf8_width (c : Z) : Z :=
  if c <? 0x80 then 1
  else if c <? 0x800 then 2
  else if c <? 0x10000 then 3
  else 4.

Definition utf8_len (s : pystr) : Z :=
  fold_right (fun c n => utf8_width c + n) 0 s.

(** ** models.py *)

Module User.
Record t := mk {
  id : Z;
  username : pystr;
  hashed_password : pystr;
  email : option pystr;
  full_name : option pystr;
  created_at : Z
}.

Definition set_email (e : option pystr) (u : t) : t :=
  mk (id u) (username u) (hashed_password u) e (full_name u) (created_at u).
Definition set_full_name (n : option pystr) (u : t) : t :=
  mk (id u) (username u) (hashed_password u) (email u) n (created_at u).
Definition set_hashed_password (h : pystr) (u : t) : t :=
  mk (id u) (username u) h (email u) (full_name u) (created_at u).
End User.

Module Book.
Record t := mk {
  id : Z;
  title : pystr;
  author : pystr;
  year : option Z;
  description : option pystr;
  created_at : Z;
  owner_id : Z
}.
End Book.

(** ** schemes.py *)

Module UserRegister.
Record t := mk {
  username : pystr;
  password : pystr;
  email : option pystr;
  full_name : option pystr
}.
End UserRegister.

Module UserUpdate.
Record t := mk {
  email : option pystr;
  full_name : option pystr;
  password : option pystr
}.
End UserUpdate.

Module BookCreate.
Record t := mk {
  title : pystr;
  author : pystr;
  year : option Z;
  description : option pystr
}.

(** [Field(..., min_length, max_length)] and [Field(None, ge, le)]; the
    [str] fields hold strings that pydantic takes. *)
Definition valid (b : t) : bool :=
  (1 <=? len (title b)) && (len (title b) <=? 200)
  && (1 <=? len (author b)) && (len (author b) <=? 100)
  && match year b with
     | Some y => (1000 <=? y) && (y <=? 2100)
     | None => true
     end
  && pydantic_str (title b) && pydantic_str (author b)
  && opt_pydantic_str (description b).
End BookCreate.

Module TokenResponse.
Record t (Token : Type) := mk {
  access_token : Token;
  token_type : string
}.
End TokenResponse.

Module BookResponse.
Record t := mk {
  id : Z;
  title : pystr;
  author : pystr;
  year : option Z;
  description : option pystr;
  created_at : Z
}.

(** [BookResponse.from_orm]: the attributes the schema names. *)
Definition from_orm (b : Book.t) : t :=
  mk (Book.id b) (Book.title b) (Book.author b) (Book.year b)
     (Book.description b) (Book.created_at b).
End BookResponse.

Module UserResponse.
Record t := mk {
  id : Z;
  username : pystr;
  email : option pystr;
  full_name : option pystr;
  created_at : Z
}.

Definition from_orm (u : User.t) : t :=
  mk (User.id u) (User.username u) (User.email u) (User.full_name u)
     (User.created_at u).
End UserResponse.

(** [UserProfileResponse(UserResponse)]: the inherited fields are kept
    together under [user]. *)
Module UserProfileResponse.
Record t := mk {
  user : UserResponse.t;
  books_count : Z;
  books : list BookResponse.t
}.
End UserProfileResponse.

(** The claim set carried by a token: the keys ["sub"] and ["exp"] of the
    payload dict; [None] is a missing key. *)
Module Claims.
Record t := mk {
  sub : option pystr;
  exp : option Z
}.

(** Truthiness of the dict: the empty dict is falsy. *)
Definition nonempty (c : t) : bool :=
  match sub c, exp c with
  | None, None => false
  | _, _ => true
  end.
End Claims.

Inductive algorithm := HS256 | HS384 | HS512 | OtherAlgorithm.

(** ** The tables and the session *)

Record DB := mkDB {
  users : list User.t;
  books : list Book.t
}.

(** The constraints the schema declares: primary keys, [unique=True] on
    [username] and on the nullable [email]. *)
Definition emails_of (us : list User.t) : list pystr :=
  flat_map (fun u => match User.email u with Some e => [e] | None => [] end) us.

Record db_wf (db : DB) : Prop := {
  wf_user_ids : NoDup (map User.id (users db));
  wf_usernames : NoDup (map User.username (users db));
  wf_emails : NoDup (emails_of (users db));
  wf_book_ids : NoDup (map Book.id (books db))
}.

Record Session := mkSession {
  store : DB;   (* what is committed *)
  view : DB     (* what the session sees: committed rows and pending changes *)
}.

Definition M (A : Type) : Type := Session -> raises A * Session.

Definition ret {A} (a : A) : M A := fun s => (Returns a, s).

Definition raise {A} (e : exn) : M A := fun s => (Raises e, s).

Definition bind {A B} (m : M A) (k : A -> M B) : M B :=
  fun s =>
    match m s with
    | (Returns a, s') => k a s'
    | (Raises e, s') => (Raises e, s')
    end.

Definition lift {A} (r : raises A) : M A := fun s => (r, s).

Notation "x <- m ;; k" := (bind m (fun x => k))
  (at level 61, m at next level, right associativity).
Notation "m ;;; k" := (bind m (fun _ => k))
  (at level 61, right associativity).

(** [db.execute(select(...).where(p))]: the rows of the view that satisfy
    the condition, in table order. *)
Definition select_users (p : User.t -> bool) : M (list User.t) :=
  fun s => (Returns (filter p (users (view s))), s).

Definition select_books (p : Book.t -> bool) : M (list Book.t) :=
  fun s => (Returns (filter p (books (view s))), s).

(** SQLite holds an INTEGER in 64 bits, two's complement. *)
Definition int64 (n : Z) : bool := (- 2 ^ 63 <=? n) && (n <? 2 ^ 63).

(** Binding an integer parameter of a statement: the driver raises
    [OverflowError] for a Python int that SQLite cannot hold. *)
Definition bind_int (n : Z) : M unit :=
  fun s => if int64 n then (Returns tt, s) else (Raises OverflowError, s).

(** The ids a book can be looked up by: the driver binds the integers that
    SQLite can hold.  The ids that the rows of the table hold are such
    integers -- SQLite stored them -- whatever their size here, where ids
    are unbounded: an id that a row holds is bound as well, so that what
    is stated of a stored book needs no side condition on its id. *)
Definition bound_id (db : DB) (n : Z) : bool :=
  int64 n || existsb (fun b => Book.id b =? n) (books db).

Definition bind_book_id (n : Z) : M unit :=
  fun s =>
    if bound_id (view s) n then (Returns tt, s)
    else (Raises OverflowError, s).

(** A WHERE clause that can raise: the rows are visited in table order and
    the first error ends the statement. *)
Fixpoint where_rows {A} (cond : A -> raises bool) (rows : list A)
  : raises (list A) :=
  match rows with
  | [] => Returns []
  | r :: rest =>
      rbind (cond r) (fun keep =>
      rbind (where_rows cond rest) (fun kept =>
      Returns (if keep then r :: kept else kept)))
  end.

Definition select_books_where (cond : Book.t -> raises bool)
  : M (list Book.t) :=
  fun s => (where_rows cond (books (view s)), s).

(** [a AND b]: [b] is evaluated for the rows that pass [a]. *)
Definition sql_and (a b : raises bool) : raises bool :=
  match a with
  | Returns true => b
  | _ => a
  end.

(** [Result.scalar_one_or_none]. *)
Definition scalar_one_or_none {A} (rows : list A) : M (option A) :=
  match rows with
  | [] => ret None
  | [x] => ret (Some x)
  | _ => raise MultipleResultsFound
  end.

Definition commit : M unit :=
  fun s => (Returns tt, mkSession (view s) (view s)).

(** The next integer primary key: one more than the largest in the table. *)
Definition next_id (ids : list Z) : Z := fold_right Z.max 0 ids + 1.

(** INSERT of a user row; the unique constraints are checked by the store. *)
Definition insert_user (username hashed_password : pystr)
    (email full_name : option pystr) (now : Z) : M User.t :=
  fun s =>
    let us := users (view s) in
    if existsb (fun u => str_eqb (User.username u) username) us
       || match email with
          | Some e => existsb (str_eqb e) (emails_of us)
          | None => false
          end
    then (Raises IntegrityError, s)
    else
      let u := User.mk (next_id (map User.id us)) username hashed_password
                       email full_name now in
      (Returns u, mkSession (store s) (mkDB (us ++ [u]) (books (view s)))).

Definition insert_book (title author : pystr) (year : option Z)
    (description : option pystr) (owner_id now : Z) : M Book.t :=
  fun s =>
    let bs := books (view s) in
    let b := Book.mk (next_id (map Book.id bs)) title author year description
                     now owner_id in
    (Returns b, mkSession (store s) (mkDB (users (view s)) (bs ++ [b]))).

(** UPDATE of the row whose primary key is that of the object. *)
Definition update_user_row (u : User.t) : M unit :=
  fun s =>
    (Returns tt,
     mkSession (store s)
       (mkDB (map (fun x => if User.id x =? User.id u then u else x)
                  (users (view s)))
             (books (view s)))).

Definition replace_row (b : Book.t) (bs : list Book.t) : list Book.t :=
  map (fun x => if Book.id x =? Book.id b then b else x) bs.

Definition update_book_row (b : Book.t) : M unit :=
  fun s =>
    (Returns tt,
     mkSession (store s)
       (mkDB (users (view s)) (replace_row b (books (view s))))).

(** DELETE of the row whose primary key is that of the object. *)
Definition delete_book_row (b : Book.t) : M unit :=
  fun s =>
    (Returns tt,
     mkSession (store s)
       (mkDB (users (view s))
             (filter (fun x => negb (Book.id x =? Book.id b))
                     (books (view s))))).

(** [db.refresh(obj)]: the row is read again by primary key. *)
Definition refresh_user (u : User.t) : M User.t :=
  fun s =>
    match filter (fun x => User.id x =? User.id u) (users (view s)) with
    | x :: _ => (Returns x, s)
    | [] => (Raises InvalidRequestError, s)
    end.

Definition refresh_book (b : Book.t) : M Book.t :=
  fun s =>
    match filter (fun x => Book.id x =? Book.id b) (books (view s)) with
    | x :: _ => (Returns x, s)
    | [] => (Raises InvalidRequestError, s)
    end.

(** One request: a fresh session on the store; when the request ends the
    session is closed and only the store remains. *)
Definition run_request {A} (h : M A) (db : DB) : raises A * DB :=
  let (r, s) := h (mkSession db db) in (r, store s).

(** What the client sees. *)
Inductive response (A : Type) :=
| OK200 (body : A)
| Error (status_code : Z) (detail : string).
Arguments OK200 {A} body.
Arguments Error {A} status_code detail.

Definition to_response {A} (r : raises A) : response A :=
  match r with
  | Returns a => OK200 a
  | Raises (HTTPException c d) => Error c d
  | Raises RequestValidationError => Error 422 "Unprocessable Entity"
  | Raises _ => Error 500 "Internal Server Error"
  end.

(** ** SQL as the SQLite store evaluates it *)

(** SQLite's [lower()]: only the ASCII letters are folded. *)
Definition sql_lower (c : Z) : Z :=
  if (65 <=? c) && (c <=? 90) then c + 32 else c.

Definition percent : Z := 37.
Definition underscore : Z := 95.

(** [s LIKE pat] on the texts as the matcher reads them (see [c_string]
    below): [%] matches any run of characters, [_] any one character,
    every other character itself. *)
Fixpoint like_match (pat s : pystr) : bool :=
  match pat with
  | [] => match s with [] => true | _ => false end
  | p :: pat' =>
      if p =? percent then
        (fix skip (s : pystr) : bool :=
           like_match pat' s
           || match s with [] => false | _ :: s' => skip s' end) s
      else
        match s with
        | [] => false
        | c :: s' =>
            ((p =? underscore) || (p =? c)) && like_match pat' s'
        end
  end.

(** The text that LIKE reads of an operand: SQLite's matcher takes it as a
    C string, which ends at the first U+0000. *)
Fixpoint c_string (s : pystr) : pystr :=
  match s with
  | [] => []
  | c :: r => if c =? 0 then [] else c :: c_string r
  end.

(** [column.ilike(pattern)] on the SQLite dialect:
    [lower(column) LIKE lower(pattern)]. *)
Definition ilike (column pattern : pystr) : bool :=
  like_match (c_string (map sql_lower pattern))
             (c_string (map sql_lower column)).

(** SQLite refuses a LIKE pattern of more than this many bytes. *)
Definition SQLITE_MAX_LIKE_PATTERN_LENGTH : Z := 50000.

(** The LIKE of one row: [OperationalError] (LIKE or GLOB pattern too
    complex) when the pattern is over the limit. *)
Definition sql_ilike (column pattern : pystr) : raises bool :=
  if SQLITE_MAX_LIKE_PATTERN_LENGTH <? utf8_len pattern
  then Raises OperationalError
  else Returns (ilike column pattern).

(** The f-string ["%{x}%"]. *)
Definition like_contains (x : pystr) : pystr := percent :: x ++ [percent].

(** [ORDER BY created_at DESC]: rows with equal timestamps keep table order. *)
Fixpoint insert_desc (b : Book.t) (l : list Book.t) : list Book.t :=
  match l with
  | [] => [b]
  | x :: r =>
      if Book.created_at x <=? Book.created_at b then b :: x :: r
      else x :: insert_desc b r
  end.

Definition order_by_created_at_desc (l : list Book.t) : list Book.t :=
  fold_right insert_desc [] l.

(** [OFFSET n], for an [n] that was bound (see [bind_int]): a negative
    offset is no offset. *)
Definition offset {A} (n : Z) (l : list A) : list A := skipn (Z.to_nat n) l.

(** [LIMIT n], for an [n] that was bound: a negative limit is no limit. *)
Definition limit {A} (n : Z) (l : list A) : list A :=
  if n <? 0 then l else firstn (Z.to_nat n) l.

(** ** The schema: database.py, models.py and the startup hook *)

Inductive table := users_table | books_table.

(** The store, table by table; [None] is a table that does not exist. *)
Record Storage := mkStorage {
  users_rows : option (list User.t);
  books_rows : option (list Book.t)
}.

Definition create_table (t : table) (st : Storage) : Storage :=
  match t with
  | users_table =>
      match users_rows st with
      | Some _ => st
      | None => mkStorage (Some []) (books_rows st)
      end
  | books_table =>
      match books_rows st with
      | Some _ => st
      | None => mkStorage (users_rows st) (Some [])
      end
  end.

Definition drop_table (t : table) (st : Storage) : Storage :=
  match t with
  | users_table => mkStorage None (books_rows st)
  | books_table => mkStorage (users_rows st) None
  end.

(** [MetaData.create_all] creates the tables that are missing;
    [MetaData.drop_all] drops the tables of the metadata. *)
Definition create_all (metadata : list table) (st : Storage) : Storage :=
  fold_left (fun st t => create_table t st) metadata st.

Definition drop_all (metadata : list table) (st : Storage) : Storage :=
  fold_left (fun st t => drop_table t st) metadata st.

(** [models.Base]: [Book] and [User] are declared on it. *)
Definition models_Base_metadata : list table := [books_table; users_table].

(** [database.Base]: a second declarative base, with no model on it. *)
Definition database_Base_metadata : list table := [].

(** main.py, [startup]: [Base] is [models.Base], the later star import. *)
Definition startup (st : Storage) : Storage :=
  create_all models_Base_metadata st.

(** database.py, [create_tables]: [Base] is [database.Base]; no caller. *)
Definition create_tables (st : Storage) : Storage :=
  create_all database_Base_metadata (drop_all database_Base_metadata st).

(** The schema in place and no row in it. *)
Definition wiped : Storage := mkStorage (Some []) (Some []).

(** ** A small instance of the third-party primitives

    Used to run the program on concrete requests: a hash of sixty letters
    that writes bytes as two letters each, a token that is the signed
    triple itself, and an address check that looks for [@]. *)

Module Toy.
Fixpoint hex (bs : bytes) : bytes :=
  match bs with
  | [] => []
  | b :: r => (65 + b / 16) :: (65 + b mod 16) :: hex r
  end.

(** Sixty letters: the first thirty bytes of the password, padded with
    zero bytes; as with any hash of bounded length, passwords collide. *)
Definition digest (password : bytes) : bytes :=
  hex (firstn 30 (password ++ repeat 0 30)).

Definition hashpw (password : bytes) (salt : unit) : raises bytes :=
  if (len password <=? 72) && forallb is_byte password
  then Returns (digest password)
  else Raises ValueError.

Definition checkpw (password hashed : bytes) : raises bool :=
  if (len password <=? 72) && forallb is_byte password
  then Returns (str_eqb (digest password) hashed)
  else Raises ValueError.

Definition Token : Type := Claims.t * pystr * algorithm.

Definition algorithm_eqb (a b : algorithm) : bool :=
  match a, b with
  | HS256, HS256 | HS384, HS384 | HS512, HS512
  | OtherAlgorithm, OtherAlgorithm => true
  | _, _ => false
  end.

Definition sign (c : Claims.t) (key : pystr) (alg : algorithm)
  : raises Token := Returns (c, key, alg).

Definition verify (t : Token) (key : pystr) (algs : list algorithm)
  : raises Claims.t :=
  let '(c, k, a) := t in
  if negb (existsb (algorithm_eqb a) algs)
  then Raises (JWSError AlgorithmNotAllowed)
  else if str_eqb k key then Returns c
  else Raises (JWSError BadSignature).

Definition EmailStr (e : pystr) : option pystr :=
  if existsb (Z.eqb 64) e then Some e else None.

Definition SECRET_KEY : pystr := str "k".
End Toy.

(** ** Sample rows *)

Module Sample.
Definition alice : User.t :=
  User.mk 1 (str "alice")
          (str "HDGFGDHCGFHEDBAAAAAAAAAAAAAAAAAAAAAAAAAAAAAAAAAAAAAAAAAAAAAA")
          (Some (str "alice@example.org")) None 1000.

Definition bob : User.t :=
  User.mk 2 (str "bobby")
          (str "HDGFGDHCGFHEDCAAAAAAAAAAAAAAAAAAAAAAAAAAAAAAAAAAAAAAAAAAAAAA")
          (Some (str "bob@example.org")) (Some (str "Bob")) 1001.

Definition dune : Book.t :=
  Book.mk 1 (str "Dune") (str "Herbert") (Some 1965) None 2000 1.

Definition emma : Book.t :=
  Book.mk 2 (str "Emma") (str "Austen") (Some 1815) None 2001 1.

Definition ubik : Book.t :=
  Book.mk 3 (str "Ubik") (str "Dick") (Some 1969) None 2002 2.

Definition db : DB := mkDB [alice; bob] [dune; emma; ubik].

Definition storage : Storage := mkStorage (Some [alice; bob]) (Some [dune]).
End Sample.

(** ** main.py *)

Section App.

(** [bcrypt]: the salt is what [gensalt(rounds=12)] returned. *)
Variable Salt : Type.
Variable bcrypt_hashpw : bytes -> Salt -> raises bytes.
Variable bcrypt_checkpw : bytes -> bytes -> raises bool.

(** [jose.jws]: signing a claim set and checking a token's encoding,
    algorithm and signature. *)
Variable Token : Type.
Variable jws_sign : Claims.t -> pystr -> algorithm -> raises Token.
Variable jws_verify : Token -> pystr -> list algorithm -> raises Claims.t.

(** pydantic's [EmailStr]: the normalised address, or [None] when the
    value is not an address. *)
Variable EmailStr : pystr -> option pystr.

Variable SECRET_KEY : pystr.
Definition ALGORITHM : algorithm := HS256.
Definition ACCESS_TOKEN_EXPIRE_MINUTES : Z := 10.

Definition hash_password (password : pystr) (salt : Salt) : raises pystr :=
  rbind (encode_utf8 password) (fun password_bytes =>
  let password_bytes :=
    if 72 <? len password_bytes then firstn 72 password_bytes
    else password_bytes in
  rbind (bcrypt_hashpw password_bytes salt) (fun hashed =>
  decode_utf8 hashed)).

(** The body of the [try] of [verify_password]. *)
Definition verify_password_body (plain_password hashed_password : pystr)
  : raises bool :=
  rbind (encode_utf8 plain_password) (fun password_bytes =>
  rbind (encode_utf8 hashed_password) (fun hashed_bytes =>
  let password_bytes :=
    if 72 <? len password_bytes then firstn 72 password_bytes
    else password_bytes in
  bcrypt_checkpw password_bytes hashed_bytes)).

Definition verify_password (plain_password hashed_password : pystr) : bool :=
  match verify_password_body plain_password hashed_password with
  | Returns b => b
  | Raises _ => false   (* except Exception: return False *)
  end.

(** The truncation written out in [hash_password] and in
    [verify_password]: [bs[:72]] when [len(bs) > 72]. *)
Definition truncate72 (bs : bytes) : bytes :=
  if 72 <? len bs then firstn 72 bs else bs.

(** What is assumed of [bcrypt] on passwords of at most 72 bytes: hashing
    returns a string of 60 ASCII characters, and [checkpw] hashes the
    password it is given with the salt of the stored hash and compares the
    two hashes.  Nothing is assumed about two passwords having different
    hashes. *)
Definition bcrypt_contract : Prop :=
  (forall pw salt,
      len pw <= 72 -> forallb is_byte pw = true ->
      exists h, bcrypt_hashpw pw salt = Returns h
                /\ forallb is_ascii h = true /\ len h = 60)
  /\ (forall pw pw' salt h h',
         len pw <= 72 -> forallb is_byte pw = true ->
         len pw' <= 72 -> forallb is_byte pw' = true ->
         bcrypt_hashpw pw salt = Returns h ->
         bcrypt_hashpw pw' salt = Returns h' ->
         bcrypt_checkpw pw' h = Returns (str_eqb h' h)).

(** [jose.jwt.encode]: a [datetime] under ["exp"] becomes whole seconds,
    which is how times are kept here, and the claims are signed. *)
Definition jwt_encode (payload : Claims.t) (key : pystr) (alg : algorithm)
  : raises Token := jws_sign payload key alg.

(** [jose.jwt.decode]: a [JWSError] of the signature layer is raised again
    as [JWTError]; a token whose ["exp"] is before [now] is expired. *)
Definition jwt_decode (token : Token) (key : pystr)
    (algorithms : list algorithm) (now : Z) : raises Claims.t :=
  match jws_verify token key algorithms with
  | Raises (JWSError _) => Raises JWTError
  | Raises e => Raises e
  | Returns payload =>
      match Claims.exp payload with
      | Some exp => if exp <? now then Raises ExpiredSignatureError
                    else Returns payload
      | None => Returns payload
      end
  end.

(** What is assumed of the signature layer under the configured key:
    signing returns a token, and verifying that token returns the claims
    that were signed. *)
Definition jws_contract : Prop :=
  forall claims,
    exists token,
      jws_sign claims SECRET_KEY ALGORITHM = Returns token
      /\ jws_verify token SECRET_KEY [ALGORITHM] = Returns claims.

Definition create_access_token (username : pystr) (now : Z) : raises Token :=
  let payload :=
    Claims.mk (Some username) (Some (now + ACCESS_TOKEN_EXPIRE_MINUTES * 60))
  in
  jwt_encode payload SECRET_KEY ALGORITHM.

Definition verify_jwt_token (token : Token) (now : Z)
  : raises (option Claims.t) :=
  match jwt_decode token SECRET_KEY [ALGORITHM] now with
  | Returns payload => Returns (Some payload)
  | Raises e => if isinstance_JWTError e then Returns None else Raises e
  end.

Definition unauthorized {A} : M A :=
  raise (HTTPException 401 "Invalid token").

Definition get_current_user (token : Token) (now : Z) : M User.t :=
  payload <- lift (verify_jwt_token token now);;
  match payload with
  | None => unauthorized
  | Some payload =>
      if negb (Claims.nonempty payload) then unauthorized
      else
        match Claims.sub payload with
        | None => unauthorized
        | Some username =>
            if negb (truthy username) then unauthorized
            else
              result <- select_users
                          (fun u => str_eqb (User.username u) username);;
              user <- scalar_one_or_none result;;
              match user with
              | None => raise (HTTPException 404 "User not found")
              | Some user => ret user
              end
        end
  end.

Definition register (user_data : UserRegister.t) (now : Z) (salt : Salt)
  : M (TokenResponse.t Token) :=
  result <- select_users
              (fun u => str_eqb (User.username u)
                                (UserRegister.username user_data));;
  existing <- scalar_one_or_none result;;
  match existing with
  | Some _ => raise (HTTPException 400 "Username already exists")
  | None =>
      (match UserRegister.email user_data with
       | Some e =>
           if truthy e then
             result <- select_users
                         (fun u => opt_str_eqb (User.email u) (Some e));;
             existing <- scalar_one_or_none result;;
             match existing with
             | Some _ => raise (HTTPException 400 "Email already registered")
             | None => ret tt
             end
           else ret tt
       | None => ret tt
       end);;;
      hashed_password <- lift (hash_password
                                 (UserRegister.password user_data) salt);;
      insert_user (UserRegister.username user_data) hashed_password
                  (UserRegister.email user_data)
                  (UserRegister.full_name user_data) now;;;
      commit;;;
      access_token <- lift (create_access_token
                              (UserRegister.username user_data) now);;
      ret (TokenResponse.mk access_token "bearer")
  end.

Definition login (form_username form_password : pystr) (now : Z)
  : M (TokenResponse.t Token) :=
  result <- select_users (fun u => str_eqb (User.username u) form_username);;
  user <- scalar_one_or_none result;;
  match user with
  | Some user =>
      if verify_password form_password (User.hashed_password user) then
        access_token <- lift (create_access_token form_username now);;
        ret (TokenResponse.mk access_token "bearer")
      else raise (HTTPException 401 "Invalid username or password")
  | None => raise (HTTPException 401 "Invalid username or password")
  end.

Definition get_my_profile (current_user : User.t) : M User.t :=
  ret current_user.

Definition update_my_profile (update_data : UserUpdate.t)
    (current_user : User.t) (salt : Salt) : M User.t :=
  current_user <-
    (match UserUpdate.email update_data with
     | Some e =>
         if truthy e
            && negb (opt_str_eqb (Some e) (User.email current_user))
         then
           result <- select_users
                       (fun u => opt_str_eqb (User.email u) (Some e));;
           existing <- scalar_one_or_none result;;
           match existing with
           | Some _ => raise (HTTPException 400 "Email already registered")
           | None => ret (User.set_email (Some e) current_user)
           end
         else ret current_user
     | None => ret current_user
     end);;
  let current_user :=
    match UserUpdate.full_name update_data with
    | Some n => User.set_full_name (Some n) current_user
    | None => current_user
    end in
  current_user <-
    (match UserUpdate.password update_data with
     | Some p =>
         if truthy p then
           h <- lift (hash_password p salt);;
           ret (User.set_hashed_password h current_user)
         else ret current_user
     | None => ret current_user
     end);;
  update_user_row current_user;;;
  commit;;;
  refresh_user current_user.

Definition add_book (book_data : BookCreate.t) (current_user : User.t)
    (now : Z) : M Book.t :=
  new_book <- insert_book (BookCreate.title book_data)
                (BookCreate.author book_data) (BookCreate.year book_data)
                (BookCreate.description book_data)
                (User.id current_user) now;;
  commit;;;
  refresh_book new_book.

Definition get_my_books (current_user : User.t) (skip limit_ : Z)
    (author title : option pystr) : M (list Book.t) :=
  let owned b := Book.owner_id b =? User.id current_user in
  let by_author b :=
    match author with
    | Some a => if truthy a then sql_ilike (Book.author b) (like_contains a)
                else Returns true
    | None => Returns true
    end in
  let by_title b :=
    match title with
    | Some t => if truthy t then sql_ilike (Book.title b) (like_contains t)
                else Returns true
    | None => Returns true
    end in
  bind_int limit_;;;
  bind_int skip;;;
  rows <- select_books_where
            (fun b => sql_and (Returns (owned b))
                              (sql_and (by_author b) (by_title b)));;
  ret (limit limit_ (offset skip (order_by_created_at_desc rows))).

(** The query shared by the three operations on one book. *)
Definition owned_book (book_id : Z) (current_user : User.t) (b : Book.t)
  : bool :=
  (Book.id b =? book_id) && (Book.owner_id b =? User.id current_user).

Definition not_found {A} : M A :=
  raise (HTTPException 404 "Book not found").

Definition get_book (book_id : Z) (current_user : User.t) : M Book.t :=
  bind_book_id book_id;;;
  result <- select_books (owned_book book_id current_user);;
  book <- scalar_one_or_none result;;
  match book with
  | None => not_found
  | Some book => ret book
  end.

(** [book.title = book_data.title] and the three assignments after it. *)
Definition assign_fields (book : Book.t) (book_data : BookCreate.t)
  : Book.t :=
  Book.mk (Book.id book) (BookCreate.title book_data)
          (BookCreate.author book_data) (BookCreate.year book_data)
          (BookCreate.description book_data)
          (Book.created_at book) (Book.owner_id book).

Definition update_book (book_id : Z) (book_data : BookCreate.t)
    (current_user : User.t) : M Book.t :=
  bind_book_id book_id;;;
  result <- select_books (owned_book book_id current_user);;
  book <- scalar_one_or_none result;;
  match book with
  | None => not_found
  | Some book =>
      let book := assign_fields book book_data in
      update_book_row book;;;
      commit;;;
      refresh_book book
  end.

Definition delete_book (book_id : Z) (current_user : User.t) : M string :=
  bind_book_id book_id;;;
  result <- select_books (owned_book book_id current_user);;
  book <- scalar_one_or_none result;;
  match book with
  | None => not_found
  | Some book =>
      delete_book_row book;;;
      commit;;;
      ret "Book deleted successfully"%string
  end.

(** *** Request validation (schemes.py) and the routes that need it *)

Definition validate_email (e : option pystr) : option (option pystr) :=
  match e with
  | None => Some None
  | Some e =>
      if pydantic_str e then
        match EmailStr e with
        | Some e' => Some (Some e')
        | None => None
        end
      else None
  end.

(** [UserRegister]: the validated model, or [None] for a rejected body. *)
Definition UserRegister_validate (body : UserRegister.t)
  : option UserRegister.t :=
  if (3 <=? len (UserRegister.username body))
     && (len (UserRegister.username body) <=? 50)
     && (6 <=? len (UserRegister.password body))
     && (len (UserRegister.password body) <=? 50)
     && pydantic_str (UserRegister.username body)
     && pydantic_str (UserRegister.password body)
     && opt_pydantic_str (UserRegister.full_name body)
  then
    match validate_email (UserRegister.email body) with
    | Some e =>
        Some (UserRegister.mk (UserRegister.username body)
                (UserRegister.password body) e (UserRegister.full_name body))
    | None => None
    end
  else None.

Definition UserUpdate_validate (body : UserUpdate.t) : option UserUpdate.t :=
  match validate_email (UserUpdate.email body) with
  | Some e =>
      if match UserUpdate.password body with
         | Some p => (6 <=? len p) && pydantic_str p
         | None => true
         end
         && opt_pydantic_str (UserUpdate.full_name body)
      then Some (UserUpdate.mk e (UserUpdate.full_name body)
                               (UserUpdate.password body))
      else None
  | None => None
  end.

(** POST /register. *)
Definition POST_register (body : UserRegister.t) (now : Z) (salt : Salt)
  : M (TokenResponse.t Token) :=
  match UserRegister_validate body with
  | Some user_data => register user_data now salt
  | None => raise RequestValidationError
  end.

(** PUT /me: the dependency [get_current_user] is solved first. *)
Definition PUT_me (token : Token) (body : UserUpdate.t) (now : Z)
    (salt : Salt) : M User.t :=
  current_user <- get_current_user token now;;
  match UserUpdate_validate body with
  | Some update_data => update_my_profile update_data current_user salt
  | None => raise RequestValidationError
  end.

(** *** The claim about GET /books, word for word *)

Fixpoint is_prefix (p s : pystr) : bool :=
  match p, s with
  | [], _ => true
  | x :: p', y :: s' => (x =? y) && is_prefix p' s'
  | _ :: _, [] => false
  end.

Fixpoint is_substring (p s : pystr) : bool :=
  is_prefix p s
  || match s with [] => false | _ :: s' => is_substring p s' end.

(** [p] occurs in [s] when the ASCII letters of both are folded. *)
Definition contains_ci (s p : pystr) : bool :=
  is_substring (map sql_lower p) (map sql_lower s).

(** A parameter with no LIKE wildcard in it. *)
Definition wildcard_free (p : pystr) : bool :=
  forallb (fun c => negb (c =? percent) && negb (c =? underscore)) p.

Definition opt_wildcard_free (p : option pystr) : bool :=
  match p with Some p => wildcard_free p | None => true end.

(** A text with no U+0000 in it. *)
Definition nul_free (p : pystr) : bool :=
  forallb (fun c => negb (c =? 0)) p.

Definition opt_nul_free (p : option pystr) : bool :=
  match p with Some p => nul_free p | None => true end.

(** A parameter whose pattern ["%{p}%"] is within SQLite's limit. *)
Definition pattern_fits (p : pystr) : bool :=
  utf8_len (like_contains p) <=? SQLITE_MAX_LIKE_PATTERN_LENGTH.

Definition opt_pattern_fits (p : option pystr) : bool :=
  match p with Some p => pattern_fits p | None => true end.

(** Newest first. *)
Definition newer_or_same (a b : Book.t) : Prop :=
  Book.created_at b <= Book.created_at a.

(** The listing as the specification words it: the caller's books, those
    whose author (title) contains the parameter when one is supplied,
    newest first, [skip] dropped, at most [limit] kept. *)
Definition spec_matches (current_user : User.t)
    (author title : option pystr) (b : Book.t) : bool :=
  (Book.owner_id b =? User.id current_user)
  && match author with
     | Some a => contains_ci (Book.author b) a
     | None => true
     end
  && match title with
     | Some t => contains_ci (Book.title b) t
     | None => true
     end.

Definition spec_get_my_books (db : DB) (current_user : User.t)
    (skip limit_ : Z) (author title : option pystr) : list Book.t :=
  firstn (Z.to_nat limit_)
    (skipn (Z.to_nat skip)
       (order_by_created_at_desc
          (filter (spec_matches current_user author title) (books db)))).

(** *** The remaining handler and the protected routes *)

(** The WHERE clause of [get_my_books] on one row, and the rows it keeps
    when no LIKE raises. *)
Definition my_books_where (current_user : User.t)
    (author title : option pystr) (b : Book.t) : raises bool :=
  sql_and (Returns (Book.owner_id b =? User.id current_user))
    (sql_and
       match author with
       | Some a => if truthy a then sql_ilike (Book.author b) (like_contains a)
                   else Returns true
       | None => Returns true
       end
       match title with
       | Some t => if truthy t then sql_ilike (Book.title b) (like_contains t)
                   else Returns true
       | None => Returns true
       end).

Definition my_books_keep (current_user : User.t)
    (author title : option pystr) (b : Book.t) : bool :=
  (Book.owner_id b =? User.id current_user)
  && match author with
     | Some a => if truthy a then ilike (Book.author b) (like_contains a)
                 else true
     | None => true
     end
  && match title with
     | Some t => if truthy t then ilike (Book.title b) (like_contains t)
                 else true
     | None => true
     end.

Definition get_my_full_profile (current_user : User.t)
  : M UserProfileResponse.t :=
  result <- select_books (fun b => Book.owner_id b =? User.id current_user);;
  let books := order_by_created_at_desc result in
  ret (UserProfileResponse.mk (UserResponse.from_orm current_user)
         (len books) (map BookResponse.from_orm books)).

(** [current_user: User = Depends(get_current_user)]: the dependency runs
    on the request's session before the handler. *)
Definition Depends_get_current_user {A} (token : Token) (now : Z)
    (handler : User.t -> M A) : M A :=
  current_user <- get_current_user token now;;
  handler current_user.

(** GET /me, with [response_model=UserResponse]. *)
Definition GET_me (token : Token) (now : Z) : M UserResponse.t :=
  Depends_get_current_user token now (fun current_user =>
    user <- get_my_profile current_user;;
    ret (UserResponse.from_orm user)).

(** GET /me/profile. *)
Definition GET_me_profile (token : Token) (now : Z)
  : M UserProfileResponse.t :=
  Depends_get_current_user token now get_my_full_profile.

(** POST /books: the body is validated once the dependency is solved. *)
Definition POST_books (token : Token) (body : BookCreate.t) (now : Z)
  : M BookResponse.t :=
  Depends_get_current_user token now (fun current_user =>
    if BookCreate.valid body then
      book <- add_book body current_user now;;
      ret (BookResponse.from_orm book)
    else raise RequestValidationError).

(** GET /books. *)
Definition GET_books (token : Token) (now : Z) (skip limit_ : Z)
    (author title : option pystr) : M (list BookResponse.t) :=
  Depends_get_current_user token now (fun current_user =>
    books <- get_my_books current_user skip limit_ author title;;
    ret (map BookResponse.from_orm books)).

(** GET /books/{book_id}. *)
Definition GET_book (token : Token) (now : Z) (book_id : Z)
  : M BookResponse.t :=
  Depends_get_current_user token now (fun current_user =>
    book <- get_book book_id current_user;;
    ret (BookResponse.from_orm book)).

(** PUT /books/{book_id}. *)
Definition PUT_book (token : Token) (now : Z) (book_id : Z)
    (body : BookCreate.t) : M BookResponse.t :=
  Depends_get_current_user token now (fun current_user =>
    if BookCreate.valid body then
      book <- update_book book_id body current_user;;
      ret (BookResponse.from_orm book)
    else raise RequestValidationError).

(** DELETE /books/{book_id}. *)
Definition DELETE_book (token : Token) (now : Z) (book_id : Z) : M string :=
  Depends_get_current_user token now (delete_book book_id).

(** The row a registration adds. *)
Definition registered_user (db : DB) (user_data : UserRegister.t)
    (hashed_password : pystr) (now : Z) : User.t :=
  User.mk (next_id (map User.id (users db)))
          (UserRegister.username user_data) hashed_password
          (UserRegister.email user_data) (UserRegister.full_name user_data)
          now.

(** The row [add_book] adds. *)
Definition added_book (db : DB) (book_data : BookCreate.t)
    (current_user : User.t) (now : Z) : Book.t :=
  Book.mk (next_id (map Book.id (books db))) (BookCreate.title book_data)
          (BookCreate.author book_data) (BookCreate.year book_data)
          (BookCreate.description book_data) now (User.id current_user).

(** ASCII upper case, the inverse of [sql_lower] on letters. *)
Definition ascii_upper (c : Z) : Z :=
  if (97 <=? c) && (c <=? 122) then c - 32 else c.

(** The caller's row after the assignments of [update_my_profile]: each
    field that the payload supplies (a non-empty address, a full name, a
    non-empty password, hashed to [h]) is assigned, the others are kept. *)
Definition profile_after (update_data : UserUpdate.t) (h : pystr)
    (current_user : User.t) : User.t :=
  let u1 :=
    match UserUpdate.email update_data with
    | Some e => if truthy e then User.set_email (Some e) current_user
                else current_user
    | None => current_user
    end in
  let u2 :=
    match UserUpdate.full_name update_data with
    | Some n => User.set_full_name (Some n) u1
    | None => u1
    end in
  match UserUpdate.password update_data with
  | Some p => if truthy p then User.set_hashed_password h u2 else u2
  | None => u2
  end.

(** The users table after the UPDATE of the row with the id of [u]. *)
Definition replace_user (u : User.t) (us : list User.t) : list User.t :=
  map (fun x => if User.id x =? User.id u then u else x) us.

(** ** Properties *)

(** *** Equality tests and unique keys *)

Lemma str_eqb_eq (a b : list Z) : str_eqb a b = true <-> a = b.
Proof.
  revert b; induction a as [|x a IH]; intros [|y b]; simpl;
    try (split; (discriminate || reflexivity)).
  rewrite andb_true_iff, Z.eqb_eq, IH.
  split; [intros [-> ->]; reflexivity | intros [= -> ->]; auto].
Qed.

Lemma str_eqb_refl (a : list Z) : str_eqb a a = true.
Proof. apply str_eqb_eq; reflexivity. Qed.

Lemma str_eqb_neq (a b : list Z) : a <> b -> str_eqb a b = false.
Proof.
  intros H; destruct (str_eqb a b) eqn:E; [|reflexivity].
  apply str_eqb_eq in E; contradiction.
Qed.

Lemma filter_none {A} (p : A -> bool) (l : list A) :
  (forall x, In x l -> p x = false) -> filter p l = [].
Proof.
  induction l as [|y l IH]; simpl; intros H; [reflexivity|].
  rewrite (H y (or_introl eq_refl)); apply IH; intros; apply H; auto.
Qed.

(** A condition on a unique key selects at most the row that has it. *)
Lemma filter_unique_key {A K} (key : A -> K) (p : A -> bool) (l : list A)
    (x : A) :
  NoDup (map key l) -> In x l -> p x = true ->
  (forall y, p y = true -> key y = key x) ->
  filter p l = [x].
Proof.
  induction l as [|y l IH]; simpl; intros ND Hin Hpx Hkey; [contradiction|].
  inversion ND as [|a b Hnotin ND' [Ha Hb]].
  destruct Hin as [->|Hin].
  - rewrite Hpx; f_equal; apply filter_none.
    intros z Hz; destruct (p z) eqn:E; [|reflexivity].
    exfalso; apply Hnotin; rewrite <- (Hkey z E); apply in_map; exact Hz.
  - destruct (p y) eqn:E.
    + exfalso; apply Hnotin; rewrite (Hkey y E); apply in_map; exact Hin.
    + apply IH; assumption.
Qed.

Lemma owned_book_spec (book_id : Z) (u : User.t) (b : Book.t) :
  owned_book book_id u b = true <->
  Book.id b = book_id /\ Book.owner_id b = User.id u.
Proof.
  unfold owned_book; rewrite andb_true_iff, !Z.eqb_eq; reflexivity.
Qed.

Lemma select_owned (db : DB) (book_id : Z) (u : User.t) (b : Book.t) :
  NoDup (map Book.id (books db)) -> In b (books db) ->
  Book.id b = book_id -> Book.owner_id b = User.id u ->
  filter (owned_book book_id u) (books db) = [b].
Proof.
  intros ND Hin Hid Hown.
  apply filter_unique_key with (key := Book.id); auto.
  - apply owned_book_spec; auto.
  - intros y Hy; apply owned_book_spec in Hy; destruct Hy; congruence.
Qed.

Lemma select_not_owned (db : DB) (book_id : Z) (u : User.t) :
  (forall b, In b (books db) -> Book.id b = book_id ->
             Book.owner_id b <> User.id u) ->
  filter (owned_book book_id u) (books db) = [].
Proof.
  intros H; apply filter_none; intros b Hin.
  destruct (owned_book book_id u b) eqn:E; [|reflexivity].
  apply owned_book_spec in E; destruct E as [Hid Hown].
  exfalso; exact (H b Hin Hid Hown).
Qed.

(** *** The three operations on one book, by the rows the query finds *)

(** An id that the query finds is the id of a row, hence bound. *)
Lemma bound_id_stored (db : DB) (b : Book.t) :
  In b (books db) -> bound_id db (Book.id b) = true.
Proof.
  intros Hin; unfold bound_id; apply orb_true_iff; right.
  apply existsb_exists; exists b; split; [exact Hin | apply Z.eqb_refl].
Qed.

Lemma bound_id_found (db : DB) (book_id : Z) (u : User.t) (b : Book.t)
    (r : list Book.t) :
  filter (owned_book book_id u) (books db) = b :: r ->
  bound_id db book_id = true.
Proof.
  intros E.
  assert (Hin : In b (filter (owned_book book_id u) (books db)))
    by (rewrite E; left; reflexivity).
  apply filter_In in Hin; destruct Hin as [Hin Hb].
  apply owned_book_spec in Hb; destruct Hb as [Hid _].
  rewrite <- Hid; apply bound_id_stored; exact Hin.
Qed.

Lemma run_get_book (db : DB) (book_id : Z) (u : User.t) :
  run_request (get_book book_id u) db =
  match filter (owned_book book_id u) (books db) with
  | [] => if bound_id db book_id
          then (Raises (HTTPException 404 "Book not found"), db)
          else (Raises OverflowError, db)
  | [b] => (Returns b, db)
  | _ => (Raises MultipleResultsFound, db)
  end.
Proof.
  unfold run_request, get_book, bind, bind_book_id, select_books;
    cbn [view store].
  destruct (filter (owned_book book_id u) (books db)) as [|b r] eqn:E.
  - destruct (bound_id db book_id); cbn [view store];
      try rewrite E; reflexivity.
  - rewrite (bound_id_found _ _ _ E); cbn [view store]; rewrite E;
    destruct r; reflexivity.
Qed.

Lemma run_delete_book (db : DB) (book_id : Z) (u : User.t) :
  run_request (delete_book book_id u) db =
  match filter (owned_book book_id u) (books db) with
  | [] => if bound_id db book_id
          then (Raises (HTTPException 404 "Book not found"), db)
          else (Raises OverflowError, db)
  | [b] =>
      (Returns "Book deleted successfully"%string,
       mkDB (users db)
            (filter (fun x => negb (Book.id x =? Book.id b)) (books db)))
  | _ => (Raises MultipleResultsFound, db)
  end.
Proof.
  unfold run_request, delete_book, bind, bind_book_id, select_books;
    cbn [view store].
  destruct (filter (owned_book book_id u) (books db)) as [|b r] eqn:E.
  - destruct (bound_id db book_id); cbn [view store];
      try rewrite E; reflexivity.
  - rewrite (bound_id_found _ _ _ E); cbn [view store]; rewrite E;
    destruct r; reflexivity.
Qed.

Lemma refresh_after_replace (b' : Book.t) (bs : list Book.t) :
  (exists b, In b bs /\ Book.id b = Book.id b') ->
  exists r,
    filter (fun x => Book.id x =? Book.id b') (replace_row b' bs) = b' :: r.
Proof.
  induction bs as [|y bs IH]; intros [b [Hin Hid]]; [destruct Hin|].
  simpl. destruct (Book.id y =? Book.id b') eqn:E.
  - rewrite Z.eqb_refl; eauto.
  - rewrite E. destruct Hin as [->|Hin].
    + apply Z.eqb_neq in E; contradiction.
    + apply IH; eauto.
Qed.

Lemma run_update_book (db : DB) (book_id : Z) (d : BookCreate.t)
    (u : User.t) :
  run_request (update_book book_id d u) db =
  match filter (owned_book book_id u) (books db) with
  | [] => if bound_id db book_id
          then (Raises (HTTPException 404 "Book not found"), db)
          else (Raises OverflowError, db)
  | [b] =>
      (Returns (assign_fields b d),
       mkDB (users db) (replace_row (assign_fields b d) (books db)))
  | _ => (Raises MultipleResultsFound, db)
  end.
Proof.
  unfold run_request, update_book, bind, bind_book_id, select_books;
    cbn [view store].
  destruct (filter (owned_book book_id u) (books db)) as [|b r0] eqn:E;
    [destruct (bound_id db book_id); cbn [view store];
      try rewrite E; reflexivity|].
  rewrite (bound_id_found _ _ _ E); cbn [view store]; rewrite E;
    destruct r0 as [|b' r0];
    [|reflexivity].
  simpl.
  destruct (refresh_after_replace (assign_fields b d) (books db))
    as [r Hr].
  - exists b; split; [|reflexivity].
    assert (Hin : In b (filter (owned_book book_id u) (books db)))
      by (rewrite E; left; reflexivity).
    apply filter_In in Hin; exact (proj1 Hin).
  - unfold refresh_book, replace_row in Hr |- *; simpl in Hr |- *.
    rewrite Hr; reflexivity.
Qed.

Lemma unique_key_inj {A K} (key : A -> K) (l : list A) (x y : A) :
  NoDup (map key l) -> In x l -> In y l -> key x = key y -> x = y.
Proof.
  induction l as [|z l IH]; simpl; intros ND Hx Hy Hk; [contradiction|].
  inversion ND as [|a b Hnotin ND' [Ha Hb]].
  destruct Hx as [->|Hx], Hy as [->|Hy]; auto.
  - exfalso; apply Hnotin; rewrite Hk; apply in_map; exact Hy.
  - exfalso; apply Hnotin; rewrite <- Hk; apply in_map; exact Hx.
Qed.

Lemma select_owned_cases (db : DB) (book_id : Z) (u : User.t) :
  NoDup (map Book.id (books db)) ->
  filter (owned_book book_id u) (books db) = []
  \/ exists b, In b (books db) /\ Book.id b = book_id
               /\ Book.owner_id b = User.id u
               /\ filter (owned_book book_id u) (books db) = [b].
Proof.
  intros ND.
  destruct (filter (owned_book book_id u) (books db)) as [|b r] eqn:E;
    [left; reflexivity | right].
  assert (Hin : In b (filter (owned_book book_id u) (books db)))
    by (rewrite E; left; reflexivity).
  apply filter_In in Hin; destruct Hin as [Hin Hb].
  apply owned_book_spec in Hb; destruct Hb as [Hid Hown].
  exists b; repeat split; auto.
  rewrite <- E; apply select_owned; auto.
Qed.

Lemma in_replace_row (b' x : Book.t) (bs : list Book.t) :
  In x bs -> Book.id x <> Book.id b' -> In x (replace_row b' bs).
Proof.
  intros Hin Hne; unfold replace_row; apply in_map_iff.
  exists x; split; [|exact Hin].
  apply Z.eqb_neq in Hne; rewrite Hne; reflexivity.
Qed.

Lemma in_delete_row (b' x : Book.t) (bs : list Book.t) :
  In x bs -> Book.id x <> Book.id b' ->
  In x (filter (fun y => negb (Book.id y =? Book.id b')) bs).
Proof.
  intros Hin Hne; apply filter_In; split; [exact Hin|].
  apply Z.eqb_neq in Hne; rewrite Hne; reflexivity.
Qed.


(** C8. A successful PUT /books/{id} stores the payload's title, author,
    year and description (an omitted optional field is stored as absent),
    keeps the book's id, owner and creation time, and changes no other
    book and no user. *)
Theorem C8_update_book_replaces_fields_only
    (db db' : DB) (current_user : User.t) (book_id : Z)
    (book_data : BookCreate.t) (book' : Book.t) :
  NoDup (map Book.id (books db)) ->
  run_request (update_book book_id book_data current_user) db
    = (Returns book', db') ->
  exists book,
    In book (books db) /\ Book.id book = book_id
    /\ Book.owner_id book = User.id current_user
    /\ Book.title book' = BookCreate.title book_data
    /\ Book.author book' = BookCreate.author book_data
    /\ Book.year book' = BookCreate.year book_data
    /\ Book.description book' = BookCreate.description book_data
    /\ Book.id book' = Book.id book
    /\ Book.owner_id book' = Book.owner_id book
    /\ Book.created_at book' = Book.created_at book
    /\ users db' = users db
    /\ books db'
       = map (fun x => if Book.id x =? book_id then book' else x) (books db)
    /\ In book' (books db')
    /\ (forall x, In x (books db) -> x <> book -> In x (books db'))
    /\ (forall x, In x (books db') -> x = book' \/ In x (books db)).
Proof.
  intros ND Hrun. rewrite run_update_book in Hrun.
  destruct (select_owned_cases db book_id current_user ND)
    as [E | (b0 & Hin0 & Hid0 & Hown0 & E)]; rewrite E in Hrun;
    [destruct (bound_id db book_id); discriminate|].
  injection Hrun as <- <-.
  exists b0; simpl. repeat split; auto.
  - unfold replace_row; simpl; rewrite Hid0; reflexivity.
  - unfold replace_row; apply in_map_iff; exists b0; split; [|exact Hin0].
    simpl; rewrite Z.eqb_refl; reflexivity.
  - intros x Hx Hne; apply in_replace_row; auto.
    simpl; intros Heq; apply Hne.
    exact (unique_key_inj Book.id (books db) x b0 ND Hx Hin0 Heq).
  - unfold replace_row; intros x Hx; apply in_map_iff in Hx.
    destruct Hx as (y & Hy & Hin); destruct (Book.id y =? _) in Hy;
      rewrite <- Hy; auto.
Qed.

(** *** Unique usernames and addresses *)

Lemma opt_str_eqb_some (o : option pystr) (e : pystr) :
  opt_str_eqb o (Some e) = true <-> o = Some e.
Proof.
  destruct o as [x|]; simpl; [|split; discriminate].
  rewrite str_eqb_eq; split; [intros ->; reflexivity | intros [= ->]; auto].
Qed.

Lemma in_emails_of (us : list User.t) (u : User.t) (e : pystr) :
  In u us -> User.email u = Some e -> In e (emails_of us).
Proof.
  intros Hin He; unfold emails_of; apply in_flat_map.
  exists u; split; [exact Hin | rewrite He; left; reflexivity].
Qed.

Lemma select_by_email (us : list User.t) (x : User.t) (e : pystr) :
  NoDup (emails_of us) -> In x us -> User.email x = Some e ->
  filter (fun u => opt_str_eqb (User.email u) (Some e)) us = [x].
Proof.
  induction us as [|y us IH]; intros ND Hin He; [destruct Hin|].
  cbn [filter]. unfold emails_of in ND; cbn [flat_map] in ND.
  fold (emails_of us) in ND.
  destruct Hin as [->|Hin].
  - rewrite He in ND |- *; simpl in ND. cbn [opt_str_eqb]; rewrite str_eqb_refl.
    inversion ND as [|a b Hnotin ND' [Ha Hb]].
    f_equal; apply filter_none; intros z Hz.
    destruct (opt_str_eqb (User.email z) (Some e)) eqn:E; [|reflexivity].
    apply opt_str_eqb_some in E.
    exfalso; apply Hnotin; eapply in_emails_of; eauto.
  - destruct (opt_str_eqb (User.email y) (Some e)) eqn:E.
    + apply opt_str_eqb_some in E; rewrite E in ND; simpl in ND.
      inversion ND as [|a b Hnotin ND' [Ha Hb]].
      exfalso; apply Hnotin; eapply in_emails_of; eauto.
    + apply IH; auto.
      destruct (User.email y); simpl in ND; [inversion ND|]; auto.
Qed.

Lemma select_by_username (us : list User.t) (x : User.t) :
  NoDup (map User.username us) -> In x us ->
  filter (fun u => str_eqb (User.username u) (User.username x)) us = [x].
Proof.
  intros ND Hin; apply filter_unique_key with (key := User.username); auto.
  - apply str_eqb_refl.
  - intros y Hy; apply str_eqb_eq; exact Hy.
Qed.

Lemma validated_username (body user_data : UserRegister.t) :
  UserRegister_validate body = Some user_data ->
  UserRegister.username user_data = UserRegister.username body
  /\ UserRegister.password user_data = UserRegister.password body.
Proof.
  unfold UserRegister_validate; intros H.
  destruct (_ && _) in H; [|discriminate].
  destruct (validate_email _) in H; [|discriminate].
  injection H as <-; split; reflexivity.
Qed.

Lemma register_taken (db : DB) (u : User.t) (user_data : UserRegister.t)
    (now : Z) (salt : Salt) :
  NoDup (map User.username (users db)) -> In u (users db) ->
  User.username u = UserRegister.username user_data ->
  run_request (register user_data now salt) db
  = (Raises (HTTPException 400 "Username already exists"), db).
Proof.
  intros ND Hin Hname.
  unfold run_request, register, bind, select_users; simpl.
  rewrite <- Hname, (select_by_username _ _ ND Hin); reflexivity.
Qed.

(** C4. When a user named [u] exists, a POST /register for the same name
    is answered 400 and the store stays as it was: no row is added. *)
Theorem C4_register_taken_username_conflict
    (db : DB) (u : User.t) (body : UserRegister.t) (now : Z) (salt : Salt) :
  NoDup (map User.username (users db)) ->
  In u (users db) ->
  User.username u = UserRegister.username body ->
  (forall user_data, UserRegister_validate body = Some user_data ->
     run_request (POST_register body now salt) db
     = (Raises (HTTPException 400 "Username already exists"), db)
     /\ to_response (fst (run_request (POST_register body now salt) db))
        = Error 400 "Username already exists")
  /\ run_request (register body now salt) db
     = (Raises (HTTPException 400 "Username already exists"), db)
  /\ snd (run_request (POST_register body now salt) db) = db.
Proof.
  intros ND Hin Hname.
  assert (Hvalid : forall user_data,
             UserRegister_validate body = Some user_data ->
             run_request (POST_register body now salt) db
             = (Raises (HTTPException 400 "Username already exists"), db)).
  { intros user_data Hv; unfold POST_register; rewrite Hv.
    apply register_taken with (u := u); auto.
    destruct (validated_username _ Hv) as [-> _]; exact Hname. }
  split; [|split].
  - intros user_data Hv; rewrite (Hvalid _ Hv); split; reflexivity.
  - apply register_taken with (u := u); auto.
  - destruct (UserRegister_validate body) as [user_data|] eqn:Hv.
    + rewrite (Hvalid _ eq_refl); reflexivity.
    + unfold POST_register; rewrite Hv; reflexivity.
Qed.

(** C6. A PUT /me whose address is the address of another account is
    answered 400 and the store stays as it was; the caller's row keeps its
    address, full name and password hash. *)
Theorem C6_update_profile_email_conflict
    (db : DB) (current_user other : User.t) (update_data : UserUpdate.t)
    (e : pystr) (salt : Salt) :
  db_wf db ->
  In current_user (users db) -> In other (users db) ->
  User.id other <> User.id current_user ->
  User.email other = Some e -> e <> [] ->
  UserUpdate.email update_data = Some e ->
  run_request (update_my_profile update_data current_user salt) db
  = (Raises (HTTPException 400 "Email already registered"), db)
  /\ In current_user
        (users (snd (run_request
                       (update_my_profile update_data current_user salt) db))).
Proof.
  intros WF Hcu Hother Hid Hemail Hne Hupd.
  assert (Hrun :
    run_request (update_my_profile update_data current_user salt) db
    = (Raises (HTTPException 400 "Email already registered"), db)).
  { unfold run_request, update_my_profile, bind, select_users.
    rewrite Hupd.
    assert (Ht : truthy e = true) by (destruct e; [congruence | reflexivity]).
    rewrite Ht.
    assert (Hdiff : opt_str_eqb (Some e) (User.email current_user) = false).
    { destruct (opt_str_eqb (Some e) (User.email current_user)) eqn:E;
        [|reflexivity].
      exfalso; apply Hid.
      assert (Hc : User.email current_user = Some e).
      { destruct (User.email current_user) as [x|]; simpl in E;
          [|discriminate].
        apply str_eqb_eq in E; congruence. }
      pose proof (select_by_email (users db) other (wf_emails WF)
                    Hother Hemail) as H1.
      pose proof (select_by_email (users db) current_user (wf_emails WF)
                    Hcu Hc) as H2.
      congruence. }
    rewrite Hdiff; simpl.
    rewrite (select_by_email (users db) other (wf_emails WF) Hother Hemail).
    reflexivity. }
  rewrite Hrun; split; [reflexivity | exact Hcu].
Qed.

(** *** UTF-8 encoding yields bytes; ASCII text is its own encoding *)

Lemma lor_bound (a b n : Z) :
  0 <= a < 2 ^ n -> 0 <= b < 2 ^ n -> 0 <= Z.lor a b < 2 ^ n.
Proof.
  intros Ha Hb. split; [apply Z.lor_nonneg; lia|].
  destruct (Z.eq_dec (Z.lor a b) 0) as [->|Hnz]; [lia|].
  assert (Hpos : 0 < Z.lor a b).
  { assert (0 <= Z.lor a b) by (apply Z.lor_nonneg; lia). lia. }
  apply Z.log2_lt_pow2; [exact Hpos|].
  rewrite Z.log2_lor by lia.
  assert (Hlog : forall x, 0 <= x < 2 ^ n -> x <> 0 -> Z.log2 x < n)
    by (intros x Hx Hx0; apply Z.log2_lt_pow2; lia).
  destruct (Z.eq_dec a 0) as [->|Ha0], (Z.eq_dec b 0) as [->|Hb0].
  - simpl in Hnz; congruence.
  - rewrite Z.max_r by apply Z.log2_nonneg; apply Hlog; auto.
  - rewrite Z.max_l by apply Z.log2_nonneg; apply Hlog; auto.
  - apply Z.max_lub_lt; apply Hlog; auto.
Qed.

Lemma low6_bound (x : Z) : 0 <= Z.land x 0x3F < 64.
Proof.
  change 0x3F with (Z.ones 6); rewrite Z.land_ones by lia.
  apply Z.mod_pos_bound; reflexivity.
Qed.

Lemma cont_is_byte (c shift : Z) : is_byte (cont c shift) = true.
Proof.
  unfold is_byte, cont.
  pose proof (low6_bound (Z.shiftr c shift)) as H.
  pose proof (@lor_bound 0x80 (Z.land (Z.shiftr c shift) 0x3F) 8) as B.
  change (2 ^ 8) with 256 in B.
  apply andb_true_iff; rewrite Z.leb_le, Z.ltb_lt; lia.
Qed.

Lemma lead_is_byte (tag c k bound : Z) :
  0 <= tag < 256 -> 0 <= c < bound * 2 ^ k -> 0 <= k -> 0 < bound <= 256 ->
  is_byte (Z.lor tag (Z.shiftr c k)) = true.
Proof.
  intros Ht Hc Hk Hb. unfold is_byte.
  assert (Hs : 0 <= Z.shiftr c k < 256).
  { rewrite Z.shiftr_div_pow2 by lia. split.
    - apply Z.div_pos; lia.
    - apply Z.div_lt_upper_bound; [lia|]. nia. }
  pose proof (@lor_bound tag (Z.shiftr c k) 8) as B.
  change (2 ^ 8) with 256 in B.
  apply andb_true_iff; rewrite Z.leb_le, Z.ltb_lt; lia.
Qed.

Lemma utf8_encode_cp_range (c : Z) :
  match utf8_encode_cp c with
  | Returns bs => forallb is_byte bs = true
  | Raises _ => True
  end.
Proof.
  unfold utf8_encode_cp.
  destruct (Z.ltb_spec c 0); [exact I|].
  destruct (Z.ltb_spec c 0x80).
  { cbn [forallb]; unfold is_byte.
    rewrite andb_true_r; apply andb_true_iff.
    rewrite Z.leb_le, Z.ltb_lt; lia. }
  destruct (Z.ltb_spec c 0x800).
  { cbn [forallb].
    rewrite cont_is_byte, (@lead_is_byte 0xC0 c 6 32) by (simpl; lia).
    reflexivity. }
  destruct (Z.ltb_spec c 0x10000).
  { destruct (is_surrogate c); [exact I|]. cbn [forallb].
    rewrite !cont_is_byte, (@lead_is_byte 0xE0 c 12 16) by (simpl; lia).
    reflexivity. }
  destruct (Z.ltb_spec c 0x110000); [|exact I].
  cbn [forallb].
  rewrite !cont_is_byte, (@lead_is_byte 0xF0 c 18 17) by (simpl; lia).
  reflexivity.
Qed.

Lemma utf8_encode_cp_bytes (c : Z) (bs : bytes) :
  utf8_encode_cp c = Returns bs -> forallb is_byte bs = true.
Proof.
  intros H; pose proof (utf8_encode_cp_range c) as R.
  rewrite H in R; exact R.
Qed.

Lemma forallb_app_true {A} (p : A -> bool) (l1 l2 : list A) :
  forallb p l1 = true -> forallb p l2 = true -> forallb p (l1 ++ l2) = true.
Proof.
  induction l1 as [|x l1 IH]; simpl; auto.
  intros H1 H2; apply andb_true_iff in H1; destruct H1 as [-> H1];
    simpl; auto.
Qed.

Lemma forallb_firstn_true {A} (p : A -> bool) (n : nat) (l : list A) :
  forallb p l = true -> forallb p (firstn n l) = true.
Proof.
  revert l; induction n as [|n IH]; intros [|x l]; simpl; auto.
  intros H; apply andb_true_iff in H; destruct H as [-> H]; simpl; auto.
Qed.

Lemma encode_utf8_bytes (s : pystr) (bs : bytes) :
  encode_utf8 s = Returns bs -> forallb is_byte bs = true.
Proof.
  revert bs; induction s as [|c s IH]; simpl; intros bs H.
  - injection H as <-; reflexivity.
  - destruct (utf8_encode_cp c) as [cb|] eqn:Ec; [|discriminate].
    simpl in H. destruct (encode_utf8 s) as [rest|]; [|discriminate].
    injection H as <-.
    apply forallb_app_true; [eapply utf8_encode_cp_bytes; eauto | auto].
Qed.

Lemma encode_utf8_ascii (s : pystr) :
  forallb is_ascii s = true -> encode_utf8 s = Returns s.
Proof.
  induction s as [|c s IH]; simpl; intros H; [reflexivity|].
  apply andb_true_iff in H; destruct H as [Hc Hs].
  unfold is_ascii in Hc; apply andb_true_iff in Hc.
  rewrite Z.leb_le, Z.ltb_lt in Hc.
  unfold utf8_encode_cp.
  destruct (Z.ltb_spec c 0); [lia|].
  destruct (Z.ltb_spec c 0x80); [|lia].
  simpl; rewrite (IH Hs); reflexivity.
Qed.

Lemma decode_utf8_ascii (bs : bytes) :
  forallb is_ascii bs = true -> decode_utf8 bs = Returns bs.
Proof.
  induction bs as [|b bs IH]; simpl; intros H; [reflexivity|].
  apply andb_true_iff in H; destruct H as [Hb Hs].
  unfold is_ascii in Hb; change 128 with 0x80 in Hb; rewrite Hb.
  rewrite (IH Hs); reflexivity.
Qed.

(** *** Truncation to 72 bytes *)

Lemma truncate72_firstn (bs : bytes) : truncate72 bs = firstn 72 bs.
Proof.
  unfold truncate72, len.
  destruct (Z.ltb_spec 72 (Z.of_nat (List.length bs))); [reflexivity|].
  symmetry; apply firstn_all2; lia.
Qed.

Lemma truncate72_len (bs : bytes) : len (truncate72 bs) <= 72.
Proof.
  rewrite truncate72_firstn; unfold len.
  pose proof (firstn_le_length 72 bs); lia.
Qed.

Lemma truncate72_bytes (bs : bytes) :
  forallb is_byte bs = true -> forallb is_byte (truncate72 bs) = true.
Proof. rewrite truncate72_firstn; apply forallb_firstn_true. Qed.

(** *** Password hashing *)

Lemma hash_password_eq (p : pystr) (salt : Salt) :
  hash_password p salt
  = rbind (encode_utf8 p) (fun pb =>
    rbind (bcrypt_hashpw (truncate72 pb) salt) decode_utf8).
Proof. reflexivity. Qed.

Lemma verify_password_body_eq (p h : pystr) :
  verify_password_body p h
  = rbind (encode_utf8 p) (fun pb =>
    rbind (encode_utf8 h) (fun hb => bcrypt_checkpw (truncate72 pb) hb)).
Proof. reflexivity. Qed.

Lemma hash_password_encoded (p : pystr) (pb : bytes) (salt : Salt) :
  bcrypt_contract -> encode_utf8 p = Returns pb ->
  exists h,
    hash_password p salt = Returns h
    /\ bcrypt_hashpw (truncate72 pb) salt = Returns h
    /\ forallb is_ascii h = true
    /\ len h = 60.
Proof.
  intros [Hhash _] Hp.
  destruct (Hhash (truncate72 pb) salt) as (h & Hh & Hascii & Hlen).
  - apply truncate72_len.
  - apply truncate72_bytes; eapply encode_utf8_bytes; eauto.
  - exists h; repeat split; auto.
    rewrite hash_password_eq, Hp; cbn [rbind]; rewrite Hh; cbn [rbind].
    apply decode_utf8_ascii; exact Hascii.
Qed.

(** Checking a password against a stored hash compares the stored hash
    with the hash of that password under the same salt. *)
Lemma verify_password_encoded (p' : pystr) (pb' pb : bytes) (h : bytes)
    (salt : Salt) :
  bcrypt_contract ->
  forallb is_byte pb = true ->
  bcrypt_hashpw (truncate72 pb) salt = Returns h ->
  forallb is_ascii h = true ->
  encode_utf8 p' = Returns pb' ->
  exists h',
    hash_password p' salt = Returns h'
    /\ bcrypt_hashpw (truncate72 pb') salt = Returns h'
    /\ verify_password p' h = str_eqb h' h.
Proof.
  intros HB Hbytes Hh Hascii Hp'.
  destruct (@hash_password_encoded p' pb' salt HB Hp')
    as (h' & Hhash' & Hh' & _ & _).
  exists h'; split; [exact Hhash'|]. split; [exact Hh'|].
  destruct HB as [_ Hcheck].
  unfold verify_password; rewrite verify_password_body_eq.
  rewrite Hp', (encode_utf8_ascii _ Hascii); cbn [rbind].
  rewrite (Hcheck (truncate72 pb) (truncate72 pb') salt h h');
    auto using truncate72_len, truncate72_bytes.
  apply truncate72_bytes; eapply encode_utf8_bytes; eauto.
Qed.

(** A password that shares the first 72 bytes of the hashed one is
    accepted. *)
Lemma verify_password_same_prefix (p' : pystr) (pb' pb : bytes) (h : bytes)
    (salt : Salt) :
  bcrypt_contract ->
  forallb is_byte pb = true ->
  bcrypt_hashpw (truncate72 pb) salt = Returns h ->
  forallb is_ascii h = true ->
  encode_utf8 p' = Returns pb' ->
  firstn 72 pb' = firstn 72 pb ->
  verify_password p' h = true.
Proof.
  intros HB Hbytes Hh Hascii Hp' Heq.
  destruct (@verify_password_encoded p' pb' pb h salt HB Hbytes Hh Hascii Hp')
    as (h' & _ & Hh' & ->).
  rewrite !truncate72_firstn in *.
  rewrite Heq, Hh in Hh'. injection Hh' as <-. apply str_eqb_refl.
Qed.


(** *** A hash of sixty characters cannot tell all passwords apart *)















(** C9. [verify_password] always returns a boolean: the result of the
    comparison when the body of the [try] returns, and false when anything
    in it raises -- the encoding of either argument or bcrypt's check. *)
Theorem C9_verify_password_swallows_exceptions
    (plain_password hashed_password : pystr) :
  (exists b,
      verify_password plain_password hashed_password = b
      /\ (verify_password_body plain_password hashed_password = Returns b
          \/ (b = false
              /\ exists e,
                verify_password_body plain_password hashed_password
                = Raises e)))
  /\ (forall e, encode_utf8 hashed_password = Raises e ->
                verify_password plain_password hashed_password = false)
  /\ (forall pb hb e,
         encode_utf8 plain_password = Returns pb ->
         encode_utf8 hashed_password = Returns hb ->
         bcrypt_checkpw (truncate72 pb) hb = Raises e ->
         verify_password plain_password hashed_password = false).
Proof.
  unfold verify_password. split; [|split].
  - destruct (verify_password_body plain_password hashed_password)
      as [b|e]; eauto 6.
  - intros e He; rewrite verify_password_body_eq, He.
    destruct (encode_utf8 plain_password); reflexivity.
  - intros pb hb e Hp Hh Hc; rewrite verify_password_body_eq.
    rewrite Hp, Hh; cbn [rbind]; rewrite Hc; reflexivity.
Qed.

(** *** Tokens *)

(** C3. Under the contract of the signature layer, the token issued for a
    username is the HS256 signature of the claims "sub = username,
    exp = issue time + 10 minutes"; verified up to its expiry it yields
    those claims, and verified after expiry it yields [None] -- the same
    [None] that a token with a bad signature, a malformed encoding or a
    refused algorithm yields. *)
Theorem C3_token_subject_expiry_and_invalid_sentinel
    (username : pystr) (now : Z) :
  jws_contract ->
  let claims := Claims.mk (Some username) (Some (now + 600)) in
  exists token,
    create_access_token username now = Returns token
    /\ create_access_token username now = jwt_encode claims SECRET_KEY HS256
    /\ jws_verify token SECRET_KEY [HS256] = Returns claims
    /\ (forall t, t <= now + 600 ->
                  verify_jwt_token token t = Returns (Some claims))
    /\ (forall t, now + 600 < t -> verify_jwt_token token t = Returns None)
    /\ (forall token' t r,
           jws_verify token' SECRET_KEY [HS256] = Raises (JWSError r) ->
           verify_jwt_token token' t = Returns None).
Proof.
  intros HJ claims.
  destruct (HJ claims) as (token & Hsign & Hverify).
  exists token. split; [exact Hsign|]. split; [reflexivity|].
  split; [exact Hverify|]. split; [|split].
  - intros t Ht. unfold verify_jwt_token, jwt_decode.
    rewrite Hverify; simpl.
    destruct (Z.ltb_spec (now + 600) t); [lia | reflexivity].
  - intros t Ht. unfold verify_jwt_token, jwt_decode.
    rewrite Hverify; simpl.
    destruct (Z.ltb_spec (now + 600) t); [reflexivity | lia].
  - intros token' t r Hbad. unfold verify_jwt_token, jwt_decode.
    unfold ALGORITHM; rewrite Hbad; reflexivity.
Qed.

(** *** Password lengths at registration and at profile update *)

Lemma refresh_after_update_user (u' : User.t) (us : list User.t) :
  (exists u, In u us /\ User.id u = User.id u') ->
  exists r,
    filter (fun x => User.id x =? User.id u')
           (map (fun x => if User.id x =? User.id u' then u' else x) us)
    = u' :: r.
Proof.
  induction us as [|y us IH]; intros [u [Hin Hid]]; [destruct Hin|].
  simpl. destruct (User.id y =? User.id u') eqn:E.
  - rewrite Z.eqb_refl; eauto.
  - rewrite E. destruct Hin as [->|Hin].
    + apply Z.eqb_neq in E; contradiction.
    + apply IH; eauto.
Qed.

(** A string that pydantic takes has a UTF-8 encoding. *)
Lemma pydantic_str_encodes (s : pystr) :
  pydantic_str s = true -> exists bs, encode_utf8 s = Returns bs.
Proof.
  induction s as [|c s IH]; cbn [pydantic_str forallb encode_utf8];
    [exists []; reflexivity|].
  intros H; apply andb_true_iff in H; destruct H as [Hc Hs].
  destruct (IH Hs) as (rest & ->).
  unfold unicode_scalar in Hc.
  apply andb_true_iff in Hc; destruct Hc as [Hc Hsur].
  apply andb_true_iff in Hc; destruct Hc as [H0 H1].
  apply negb_true_iff in Hsur.
  rewrite Z.leb_le in H0; rewrite Z.ltb_lt in H1.
  unfold utf8_encode_cp; rewrite Hsur.
  destruct (Z.ltb_spec c 0); [lia|].
  destruct (Z.ltb_spec c 0x80); [eexists; reflexivity|].
  destruct (Z.ltb_spec c 0x800); [eexists; reflexivity|].
  destruct (Z.ltb_spec c 0x10000); [eexists; reflexivity|].
  destruct (Z.ltb_spec c 0x110000); [eexists; reflexivity | lia].
Qed.

Lemma len_truthy (p : pystr) : 6 <= len p -> truthy p = true.
Proof. destruct p; [unfold len; simpl; lia | reflexivity]. Qed.

Lemma run_update_password (db : DB) (cu : User.t) (p : pystr) (pb : bytes)
    (full_name : option pystr) (salt : Salt) :
  bcrypt_contract -> In cu (users db) -> 6 <= len p ->
  encode_utf8 p = Returns pb ->
  exists h cu',
    hash_password p salt = Returns h
    /\ verify_password p h = true
    /\ User.hashed_password cu' = h
    /\ User.id cu' = User.id cu
    /\ run_request
         (update_my_profile (UserUpdate.mk None full_name (Some p)) cu salt)
         db
       = (Returns cu',
          mkDB (map (fun x => if User.id x =? User.id cu then cu' else x)
                    (users db))
               (books db)).
Proof.
  intros HB Hin Hlen Hp.
  destruct (@hash_password_encoded p pb salt HB Hp)
    as (h & Hhash & Hh & Hascii & _).
  set (cu0 := match full_name with
              | Some n => User.set_full_name (Some n) cu
              | None => cu
              end).
  exists h, (User.set_hashed_password h cu0).
  assert (Hid : User.id cu0 = User.id cu) by (destruct full_name; reflexivity).
  split; [exact Hhash|]. split.
  { exact (@verify_password_same_prefix p pb pb h salt HB
             (encode_utf8_bytes _ Hp) Hh Hascii Hp eq_refl). }
  split; [reflexivity|]. split; [exact Hid|].
  unfold run_request, update_my_profile, bind, lift.
  cbn [UserUpdate.email UserUpdate.password UserUpdate.full_name ret].
  rewrite (len_truthy _ Hlen), Hhash. fold cu0.
  unfold update_user_row, commit, refresh_user, ret.
  cbn [view store users books].
  destruct (refresh_after_update_user (User.set_hashed_password h cu0)
              (users db)) as [r Hr].
  { exists cu; split; [exact Hin | symmetry; exact Hid]. }
  rewrite Hr.
  change (User.id (User.set_hashed_password h cu0)) with (User.id cu0).
  rewrite Hid; reflexivity.
Qed.

(** C10. POST /register answers a password shorter than 6 or longer than
    50 characters with a validation error, without reading or writing the
    session; the body of PUT /me is accepted exactly when its password is
    a string of at least 6 characters, however long, and the profile
    update then stores a hash that the password verifies against; so the
    password of a registration, when ASCII, is at most 50 bytes long and
    is hashed whole. *)
Theorem C10_password_length_register_vs_update :
  bcrypt_contract ->
  (forall body now salt s,
      len (UserRegister.password body) < 6
      \/ 50 < len (UserRegister.password body) ->
      POST_register body now salt s = (Raises RequestValidationError, s))
  /\ (forall email full_name p,
         validate_email email <> None ->
         opt_pydantic_str full_name = true ->
         (UserUpdate_validate (UserUpdate.mk email full_name (Some p))
          <> None <-> 6 <= len p /\ pydantic_str p = true))
  /\ (forall db cu p full_name salt,
         In cu (users db) -> 6 <= len p -> pydantic_str p = true ->
         opt_pydantic_str full_name = true ->
         exists h cu' db',
           UserUpdate_validate (UserUpdate.mk None full_name (Some p))
           = Some (UserUpdate.mk None full_name (Some p))
           /\ run_request
                (update_my_profile (UserUpdate.mk None full_name (Some p))
                                   cu salt) db
              = (Returns cu', db')
           /\ hash_password p salt = Returns h
           /\ User.hashed_password cu' = h
           /\ In cu' (users db')
           /\ verify_password p h = true)
  /\ (forall body user_data,
         UserRegister_validate body = Some user_data ->
         forallb is_ascii (UserRegister.password body) = true ->
         encode_utf8 (UserRegister.password user_data)
         = Returns (UserRegister.password user_data)
         /\ len (UserRegister.password user_data) <= 50
         /\ truncate72 (UserRegister.password user_data)
            = UserRegister.password user_data).
Proof.
  intros HB. split; [|split; [|split]].
  - intros body now salt s Hlen.
    unfold POST_register, UserRegister_validate.
    destruct (Z.leb_spec 6 (len (UserRegister.password body)));
      destruct (Z.leb_spec (len (UserRegister.password body)) 50);
      try lia; rewrite ?andb_false_r; reflexivity.
  - intros email full_name p Hemail Hname.
    unfold UserUpdate_validate;
      cbn [UserUpdate.email UserUpdate.password UserUpdate.full_name].
    destruct (validate_email email); [|congruence].
    rewrite Hname, andb_true_r.
    destruct (Z.leb_spec 6 (len p)); destruct (pydantic_str p); simpl;
      split; try (intros _; split; (lia || reflexivity));
      try congruence; intros [H1 H2]; (lia || discriminate).
  - intros db cu p full_name salt Hin Hlen Hstr Hname.
    destruct (pydantic_str_encodes _ Hstr) as (pb & Hp).
    destruct (@run_update_password db cu p pb full_name salt HB Hin Hlen Hp)
      as (h & cu' & Hhash & Hver & Hh & Hid & Hrun).
    exists h, cu'. eexists. split; [|split; [exact Hrun|]].
    + unfold UserUpdate_validate, validate_email.
      cbn [UserUpdate.email UserUpdate.password UserUpdate.full_name].
      rewrite Hname, Hstr.
      destruct (Z.leb_spec 6 (len p)); [reflexivity | lia].
    + repeat split; auto. cbn [users].
      apply in_map_iff; exists cu; split; [|exact Hin].
      rewrite Z.eqb_refl; reflexivity.
  - intros body user_data Hv Hascii.
    destruct (validated_username _ Hv) as [_ Hpw]. rewrite Hpw.
    assert (Hlen : len (UserRegister.password body) <= 50).
    { unfold UserRegister_validate in Hv.
      destruct (Z.leb_spec (len (UserRegister.password body)) 50); [lia|].
      rewrite !andb_false_r in Hv; discriminate. }
    split; [apply encode_utf8_ascii; exact Hascii|]. split; [exact Hlen|].
    unfold truncate72.
    destruct (Z.ltb_spec 72 (len (UserRegister.password body)));
      [lia | reflexivity].
Qed.

(** *** The schema at startup *)

(** C5 (as amended). The startup hook only creates the tables that are
    missing: a table that exists keeps every row, so a restart wipes
    nothing; the helper that drops and recreates is bound to a metadata
    without tables and leaves the store as it is. *)
Theorem C5_startup_creates_missing_tables_keeps_rows (st : Storage) :
  users_rows (startup st)
  = Some (match users_rows st with Some rows => rows | None => [] end)
  /\ books_rows (startup st)
     = Some (match books_rows st with Some rows => rows | None => [] end)
  /\ (forall us bs, st = mkStorage (Some us) (Some bs) -> startup st = st)
  /\ create_tables st = st.
Proof.
  destruct st as [[us|] [bs|]]; repeat split; try reflexivity;
    intros us' bs' [= <- <-] || intros us' bs' [=]; reflexivity.
Qed.

(** *** LIKE patterns without wildcards are substring tests *)

Lemma like_percent_unfold (q s : pystr) :
  like_match (percent :: q) s
  = like_match q s
    || match s with
       | [] => false
       | _ :: s' => like_match (percent :: q) s'
       end.
Proof. destruct s; reflexivity. Qed.

Lemma like_percent_nil (s : pystr) : like_match [percent] s = true.
Proof.
  induction s as [|c s IH]; rewrite like_percent_unfold; [reflexivity|].
  rewrite IH; apply orb_true_r.
Qed.

Lemma like_literal (c : Z) (q s : pystr) :
  (c =? percent) = false -> (c =? underscore) = false ->
  like_match (c :: q) s
  = match s with
    | [] => false
    | d :: s' => (c =? d) && like_match q s'
    end.
Proof.
  intros Hp Hu; destruct s as [|d s']; cbn [like_match]; rewrite Hp;
    [reflexivity|]. rewrite Hu; reflexivity.
Qed.

Lemma wildcard_free_cons (c : Z) (p : pystr) :
  wildcard_free (c :: p) = true ->
  (c =? percent) = false /\ (c =? underscore) = false
  /\ wildcard_free p = true.
Proof.
  unfold wildcard_free; cbn [forallb]; intros H.
  apply andb_true_iff in H; destruct H as [Hc Hp].
  apply andb_true_iff in Hc; destruct Hc as [H1 H2].
  apply negb_true_iff in H1, H2; auto.
Qed.

Lemma like_prefix (p s : pystr) :
  wildcard_free p = true -> like_match (p ++ [percent]) s = is_prefix p s.
Proof.
  revert s; induction p as [|c p IH]; intros s H.
  - simpl app; rewrite like_percent_nil; reflexivity.
  - apply wildcard_free_cons in H; destruct H as (Hp & Hu & H).
    simpl app; rewrite like_literal by assumption.
    destruct s as [|d s']; [reflexivity|].
    rewrite IH by assumption; reflexivity.
Qed.

Lemma like_contains_substring (p s : pystr) :
  wildcard_free p = true -> like_match (like_contains p) s = is_substring p s.
Proof.
  intros H; unfold like_contains.
  induction s as [|d s IH]; rewrite like_percent_unfold, like_prefix by auto.
  - reflexivity.
  - rewrite IH; reflexivity.
Qed.

Lemma sql_lower_wildcard_free (p : pystr) :
  wildcard_free p = true -> wildcard_free (map sql_lower p) = true.
Proof.
  induction p as [|c p IH]; intros H; [reflexivity|].
  apply wildcard_free_cons in H; destruct H as (Hp & Hu & H).
  unfold wildcard_free; cbn [map forallb]; fold (wildcard_free (map sql_lower p)).
  rewrite (IH H), andb_true_r.
  apply Z.eqb_neq in Hp, Hu. unfold percent, underscore in Hp, Hu |- *.
  unfold sql_lower.
  destruct (Z.leb_spec 65 c); destruct (Z.leb_spec c 90); cbn [andb];
    apply andb_true_iff; split; apply negb_true_iff, Z.eqb_neq; lia.
Qed.

Lemma c_string_nul_free (s : pystr) : nul_free s = true -> c_string s = s.
Proof.
  induction s as [|c s IH]; cbn [nul_free forallb c_string];
    [reflexivity|].
  intros H; apply andb_true_iff in H; destruct H as [Hc Hs].
  apply negb_true_iff in Hc; rewrite Hc, (IH Hs); reflexivity.
Qed.

Lemma sql_lower_zero (c : Z) : (sql_lower c =? 0) = (c =? 0).
Proof.
  unfold sql_lower.
  destruct (Z.leb_spec 65 c); destruct (Z.leb_spec c 90); cbn [andb];
    try reflexivity.
  destruct (Z.eqb_spec (c + 32) 0); destruct (Z.eqb_spec c 0); lia.
Qed.

Lemma sql_lower_nul_free (s : pystr) :
  nul_free (map sql_lower s) = nul_free s.
Proof.
  induction s as [|c s IH]; [reflexivity|].
  cbn [map nul_free forallb]; rewrite sql_lower_zero.
  f_equal; exact IH.
Qed.

Lemma like_contains_nul_free (p : pystr) :
  nul_free (like_contains p) = nul_free p.
Proof.
  unfold like_contains, nul_free; cbn [forallb]; rewrite forallb_app.
  cbn [forallb]; unfold percent; cbn [Z.eqb negb andb].
  apply andb_true_r.
Qed.

Lemma ilike_contains (column a : pystr) :
  wildcard_free a = true -> nul_free a = true -> nul_free column = true ->
  ilike column (like_contains a) = contains_ci column a.
Proof.
  intros H Ha Hc; unfold ilike, contains_ci.
  rewrite !c_string_nul_free
    by (rewrite sql_lower_nul_free, ?like_contains_nul_free; assumption).
  unfold like_contains.
  cbn [map]; rewrite map_app; cbn [map].
  change (sql_lower percent) with percent.
  apply (like_contains_substring (map sql_lower a) (map sql_lower column)).
  apply sql_lower_wildcard_free; exact H.
Qed.

Lemma is_prefix_spec (p s : pystr) :
  is_prefix p s = true <-> exists post, s = p ++ post.
Proof.
  revert s; induction p as [|x p IH]; intros s.
  - split; [intros _; exists s; reflexivity | reflexivity].
  - destruct s as [|y s]; simpl.
    + split; [discriminate | intros [post H]; discriminate].
    + rewrite andb_true_iff, Z.eqb_eq, IH. split.
      * intros [-> [post ->]]; exists post; reflexivity.
      * intros [post [= -> ->]]; split; [reflexivity | exists post; auto].
Qed.

Lemma is_substring_spec (p s : pystr) :
  is_substring p s = true <-> exists pre post, s = pre ++ p ++ post.
Proof.
  induction s as [|y s IH]; cbn [is_substring]; rewrite orb_true_iff,
    is_prefix_spec.
  - split.
    + intros [[post H]|H]; [exists [], post; exact H | discriminate].
    + intros (pre & post & H). left.
      destruct pre; [exists post; exact H | discriminate].
  - rewrite IH. split.
    + intros [[post H]|(pre & post & H)].
      * exists [], post; exact H.
      * exists (y :: pre), post; rewrite H; reflexivity.
    + intros (pre & post & H). destruct pre as [|z pre].
      * left; exists post; exact H.
      * right; injection H as _ H; exists pre, post; exact H.
Qed.

(** *** ORDER BY, OFFSET and LIMIT *)

Lemma insert_desc_perm (b : Book.t) (l : list Book.t) :
  Permutation (b :: l) (insert_desc b l).
Proof.
  induction l as [|x r IH]; simpl; [reflexivity|].
  destruct (Book.created_at x <=? Book.created_at b); [reflexivity|].
  rewrite perm_swap; apply perm_skip; exact IH.
Qed.

Lemma order_by_perm (l : list Book.t) :
  Permutation l (order_by_created_at_desc l).
Proof.
  induction l as [|b l IH]; simpl; [reflexivity|].
  rewrite <- insert_desc_perm; apply perm_skip; exact IH.
Qed.

Lemma insert_desc_sorted (b : Book.t) (l : list Book.t) :
  Sorted newer_or_same l -> Sorted newer_or_same (insert_desc b l).
Proof.
  induction l as [|x r IH]; simpl; intros S.
  - repeat constructor.
  - destruct (Z.leb_spec (Book.created_at x) (Book.created_at b)).
    + constructor; [exact S | constructor; exact H].
    + apply Sorted_inv in S; destruct S as [Sr Hd].
      constructor; [apply IH; exact Sr|].
      destruct r as [|y r']; simpl.
      * constructor; unfold newer_or_same; lia.
      * destruct (Book.created_at y <=? Book.created_at b).
        -- constructor; unfold newer_or_same; lia.
        -- constructor; apply HdRel_inv in Hd; exact Hd.
Qed.

Lemma order_by_sorted (l : list Book.t) :
  Sorted newer_or_same (order_by_created_at_desc l).
Proof.
  induction l as [|b l IH]; simpl; [constructor|].
  apply insert_desc_sorted; exact IH.
Qed.

Lemma skipn_sorted {A} (R : A -> A -> Prop) (n : nat) (l : list A) :
  Sorted R l -> Sorted R (skipn n l).
Proof.
  revert l; induction n as [|n IH]; intros [|x l] S; simpl; auto.
  apply IH; apply Sorted_inv in S; exact (proj1 S).
Qed.

Lemma firstn_sorted {A} (R : A -> A -> Prop) (n : nat) (l : list A) :
  Sorted R l -> Sorted R (firstn n l).
Proof.
  revert l; induction n as [|n IH]; intros [|x l] S; simpl;
    try constructor.
  - apply IH; apply Sorted_inv in S; exact (proj1 S).
  - apply Sorted_inv in S; destruct S as [_ Hd].
    destruct l as [|y l]; destruct n; simpl; constructor.
    apply HdRel_inv in Hd; exact Hd.
Qed.

Lemma in_firstn {A} (n : nat) (l : list A) (x : A) :
  In x (firstn n l) -> In x l.
Proof.
  revert l; induction n as [|n IH]; intros [|y l]; simpl;
    try (intros []); auto.
Qed.

Lemma in_skipn {A} (n : nat) (l : list A) (x : A) :
  In x (skipn n l) -> In x l.
Proof.
  revert l; induction n as [|n IH]; intros [|y l]; simpl;
    try (intros []); auto.
Qed.

(** *** GET /books *)

Lemma contains_ci_spec (s p : pystr) :
  contains_ci s p = true <->
  exists pre post, map sql_lower s = pre ++ map sql_lower p ++ post.
Proof. apply is_substring_spec. Qed.

Lemma contains_ci_empty (s : pystr) : contains_ci s [] = true.
Proof. unfold contains_ci; destruct (map sql_lower s); reflexivity. Qed.

Lemma filter_matches (cu : User.t) (a t : option pystr) (b : Book.t) :
  opt_wildcard_free a = true -> opt_wildcard_free t = true ->
  opt_nul_free a = true -> opt_nul_free t = true ->
  (Book.owner_id b = User.id cu ->
   nul_free (Book.author b) = true /\ nul_free (Book.title b) = true) ->
  my_books_keep cu a t b = spec_matches cu a t b.
Proof.
  intros Ha Ht Na Nt Hb; unfold my_books_keep, spec_matches.
  destruct (Z.eqb_spec (Book.owner_id b) (User.id cu)) as [Ho|Ho];
    [|reflexivity].
  destruct (Hb Ho) as [Hba Hbt]. cbn [andb]. f_equal.
  - destruct a as [[|c a]|]; try reflexivity.
    + symmetry; apply contains_ci_empty.
    + apply ilike_contains; assumption.
  - destruct t as [[|c t]|]; try reflexivity.
    + symmetry; apply contains_ci_empty.
    + apply ilike_contains; assumption.
Qed.

(** *** The WHERE clause, row by row *)

Lemma where_rows_returns {A} (cond : A -> raises bool) (keep : A -> bool)
    (rows : list A) :
  (forall b, In b rows -> cond b = Returns (keep b)) ->
  where_rows cond rows = Returns (filter keep rows).
Proof.
  induction rows as [|r rows IH]; intros H; [reflexivity|].
  cbn [where_rows filter].
  rewrite (H r (or_introl eq_refl)), IH
    by (intros b Hb; apply H; right; exact Hb).
  cbn [rbind]; destruct (keep r); reflexivity.
Qed.

Lemma where_rows_ext {A} (cond cond' : A -> raises bool) (rows : list A) :
  (forall b, cond b = cond' b) -> where_rows cond rows = where_rows cond' rows.
Proof.
  intros H; induction rows as [|r rows IH]; [reflexivity|].
  cbn [where_rows]; rewrite H, IH; reflexivity.
Qed.

Lemma where_rows_snoc {A} (cond : A -> raises bool) (rows : list A) (b : A) :
  cond b = Returns false ->
  where_rows cond (rows ++ [b]) = where_rows cond rows.
Proof.
  intros H; induction rows as [|r rows IH]; cbn [app where_rows].
  - rewrite H; reflexivity.
  - rewrite IH; reflexivity.
Qed.

(** The rows of a WHERE clause that returns are those of the filter that
    keeps a row when its condition is true. *)
Lemma where_rows_filter {A} (cond : A -> raises bool) (rows kept : list A) :
  where_rows cond rows = Returns kept ->
  kept = filter (fun b => match cond b with
                          | Returns keep => keep
                          | Raises _ => false
                          end) rows.
Proof.
  revert kept; induction rows as [|r rows IH]; cbn [where_rows filter];
    intros kept H.
  - injection H as <-; reflexivity.
  - destruct (cond r) as [keep|e]; [|discriminate]. cbn [rbind] in H.
    destruct (where_rows cond rows) as [l|e]; [|discriminate].
    cbn [rbind] in H; injection H as <-.
    rewrite <- (IH l eq_refl); reflexivity.
Qed.

Lemma sql_ilike_fits (column p : pystr) :
  pattern_fits p = true ->
  sql_ilike column (like_contains p) = Returns (ilike column (like_contains p)).
Proof.
  unfold pattern_fits, sql_ilike; intros H.
  apply Z.leb_le in H.
  destruct (Z.ltb_spec SQLITE_MAX_LIKE_PATTERN_LENGTH
              (utf8_len (like_contains p))); [lia | reflexivity].
Qed.

Lemma my_books_where_fits (cu : User.t) (a t : option pystr) (b : Book.t) :
  opt_pattern_fits a = true -> opt_pattern_fits t = true ->
  my_books_where cu a t b = Returns (my_books_keep cu a t b).
Proof.
  intros Ha Ht; unfold my_books_where, my_books_keep.
  destruct (Book.owner_id b =? User.id cu); [|reflexivity]. cbn [sql_and andb].
  assert (Hone : forall (x : option pystr) (col : pystr),
             opt_pattern_fits x = true ->
             match x with
             | Some a0 => if truthy a0 then sql_ilike col (like_contains a0)
                          else Returns true
             | None => Returns true
             end
             = Returns match x with
                       | Some a0 => if truthy a0
                                    then ilike col (like_contains a0)
                                    else true
                       | None => true
                       end).
  { intros [x|] col Hx; [|reflexivity].
    destruct (truthy x); [|reflexivity]. apply sql_ilike_fits; exact Hx. }
  rewrite (Hone a (Book.author b) Ha), (Hone t (Book.title b) Ht).
  destruct (match a with Some _ => _ | None => _ end); reflexivity.
Qed.

Lemma my_books_where_owner (cu : User.t) (a t : option pystr) (b : Book.t) :
  Book.owner_id b <> User.id cu -> my_books_where cu a t b = Returns false.
Proof.
  intros H; unfold my_books_where.
  apply Z.eqb_neq in H; rewrite H; reflexivity.
Qed.

Lemma my_books_where_true (cu : User.t) (a t : option pystr) (b : Book.t) :
  my_books_where cu a t b = Returns true ->
  Book.owner_id b = User.id cu.
Proof.
  unfold my_books_where.
  destruct (Z.eqb_spec (Book.owner_id b) (User.id cu)); [auto|].
  cbn [sql_and]; discriminate.
Qed.

Lemma my_books_where_unfiltered (cu : User.t) (b : Book.t) :
  my_books_where cu None None b
  = Returns (Book.owner_id b =? User.id cu).
Proof.
  unfold my_books_where; destruct (Book.owner_id b =? User.id cu);
    reflexivity.
Qed.

Lemma get_my_books_eq (u : User.t) (skip limit_ : Z)
    (author title : option pystr) :
  get_my_books u skip limit_ author title
  = (bind_int limit_;;;
     bind_int skip;;;
     rows <- select_books_where (my_books_where u author title);;
     ret (limit limit_ (offset skip (order_by_created_at_desc rows)))).
Proof. reflexivity. Qed.

Lemma run_get_my_books (db : DB) (u : User.t) (skip limit_ : Z)
    (author title : option pystr) :
  run_request (get_my_books u skip limit_ author title) db
  = if int64 limit_ && int64 skip then
      match where_rows (my_books_where u author title) (books db) with
      | Returns rows =>
          (Returns (limit limit_
                      (offset skip (order_by_created_at_desc rows))), db)
      | Raises e => (Raises e, db)
      end
    else (Raises OverflowError, db).
Proof.
  unfold run_request, get_my_books, bind, bind_int, select_books_where, ret.
  fold (my_books_where u author title).
  destruct (int64 limit_); [|reflexivity].
  destruct (int64 skip); [|reflexivity].
  cbn [andb view store].
  destruct (where_rows _ (books db)); reflexivity.
Qed.

Lemma spec_matches_spec (cu : User.t) (a t : option pystr) (b : Book.t) :
  spec_matches cu a t b = true <->
  Book.owner_id b = User.id cu
  /\ (forall x, a = Some x ->
        exists pre post,
          map sql_lower (Book.author b) = pre ++ map sql_lower x ++ post)
  /\ (forall x, t = Some x ->
        exists pre post,
          map sql_lower (Book.title b) = pre ++ map sql_lower x ++ post).
Proof.
  unfold spec_matches; rewrite !andb_true_iff, Z.eqb_eq.
  destruct a as [a|], t as [t|]; rewrite ?contains_ci_spec; split;
    intros [[Ho Ha] Ht] || intros (Ho & Ha & Ht);
    repeat split; auto; try (intros x [= <-]; assumption);
    try discriminate; try (apply Ha; reflexivity);
    try (apply Ht; reflexivity).
Qed.

(** C7 (as amended). For parameters that hold no LIKE wildcard and no
    U+0000 and whose pattern is within SQLite's limit of 50000 bytes, a
    limit from 0 to 2^63 - 1 and a skip that fits in a signed 64-bit
    integer, and when the caller's authors and titles hold no U+0000,
    GET /books returns the caller's books -- those whose author (title)
    contains the parameter with ASCII letters folded, when one is
    supplied -- newest first, the first [skip] dropped and at most [limit]
    kept; the store is not changed; and [author=herb] matches the author
    "Herbert". *)
Theorem C7_list_books_without_wildcards
    (db : DB) (current_user : User.t) (skip limit_ : Z)
    (author title : option pystr) :
  opt_wildcard_free author = true ->
  opt_wildcard_free title = true ->
  opt_nul_free author = true ->
  opt_nul_free title = true ->
  opt_pattern_fits author = true ->
  opt_pattern_fits title = true ->
  (forall b, In b (books db) -> Book.owner_id b = User.id current_user ->
             nul_free (Book.author b) = true
             /\ nul_free (Book.title b) = true) ->
  0 <= limit_ < 2 ^ 63 ->
  - 2 ^ 63 <= skip < 2 ^ 63 ->
  let result := spec_get_my_books db current_user skip limit_ author title in
  run_request (get_my_books current_user skip limit_ author title) db
  = (Returns result, db)
  /\ (exists all,
         Permutation all
           (filter (spec_matches current_user author title) (books db))
         /\ Sorted newer_or_same all
         /\ result = firstn (Z.to_nat limit_) (skipn (Z.to_nat skip) all))
  /\ (forall b, In b result ->
         In b (books db) /\ spec_matches current_user author title b = true)
  /\ (forall b,
         spec_matches current_user author title b = true <->
         Book.owner_id b = User.id current_user
         /\ (forall x, author = Some x ->
               exists pre post,
                 map sql_lower (Book.author b)
                 = pre ++ map sql_lower x ++ post)
         /\ (forall x, title = Some x ->
               exists pre post,
                 map sql_lower (Book.title b)
                 = pre ++ map sql_lower x ++ post))
  /\ Sorted newer_or_same result
  /\ len result <= limit_
  /\ ilike (str "Herbert") (like_contains (str "herb")) = true.
Proof.
  intros Ha Ht Na Nt Fa Ft Hdb Hlimit Hskip result.
  split; [|split; [|split; [|split; [|split; [|split]]]]].
  - rewrite run_get_my_books.
    assert (H64 : int64 limit_ && int64 skip = true).
    { unfold int64; rewrite !andb_true_iff, !Z.leb_le, !Z.ltb_lt; lia. }
    rewrite H64.
    rewrite (@where_rows_returns _ (my_books_where current_user author title)
               (spec_matches current_user author title)).
    + unfold limit, offset.
      destruct (Z.ltb_spec limit_ 0); [lia | reflexivity].
    + intros b Hb; rewrite my_books_where_fits by assumption.
      f_equal; apply filter_matches; auto.
  - exists (order_by_created_at_desc
              (filter (spec_matches current_user author title) (books db))).
    split; [symmetry; apply order_by_perm|].
    split; [apply order_by_sorted | reflexivity].
  - intros b Hb. subst result; unfold spec_get_my_books in Hb.
    apply in_firstn, in_skipn in Hb.
    apply (Permutation_in b (Permutation_sym (order_by_perm _))) in Hb.
    apply filter_In in Hb; exact Hb.
  - intros b; apply spec_matches_spec.
  - subst result; unfold spec_get_my_books.
    apply firstn_sorted, skipn_sorted, order_by_sorted.
  - subst result; unfold spec_get_my_books, len.
    pose proof (firstn_le_length (Z.to_nat limit_)
                  (skipn (Z.to_nat skip)
                     (order_by_created_at_desc
                        (filter (spec_matches current_user author title)
                                (books db))))).
    lia.
  - reflexivity.
Qed.

(** ** Further properties *)

(** *** Authentication *)

Lemma issued_token (username : pystr) (now : Z) :
  jws_contract ->
  exists token,
    create_access_token username now = Returns token
    /\ jws_verify token SECRET_KEY [ALGORITHM]
       = Returns (Claims.mk (Some username) (Some (now + 600))).
Proof.
  intros HJ.
  destruct (HJ (Claims.mk (Some username) (Some (now + 600))))
    as (token & Hsign & Hverify).
  exists token; split; [exact Hsign | exact Hverify].
Qed.

Lemma verify_issued_token (username : pystr) (t0 t : Z) (token : Token) :
  jws_contract ->
  create_access_token username t0 = Returns token ->
  verify_jwt_token token t
  = if t0 + 600 <? t then Returns None
    else Returns (Some (Claims.mk (Some username) (Some (t0 + 600)))).
Proof.
  intros HJ Hcreate.
  destruct (issued_token username t0 HJ) as (token' & Hcreate' & Hverify).
  rewrite Hcreate in Hcreate'; injection Hcreate' as <-.
  unfold verify_jwt_token, jwt_decode; rewrite Hverify.
  cbn [Claims.exp]. destruct (t0 + 600 <? t); reflexivity.
Qed.

Lemma get_current_user_session (token : Token) (now : Z) (s : Session) :
  snd (get_current_user token now s) = s.
Proof.
  unfold get_current_user, bind, lift, unauthorized, raise, select_users,
    scalar_one_or_none, ret.
  destruct (verify_jwt_token token now) as [[p|]|e]; try reflexivity.
  destruct (negb (Claims.nonempty p)); try reflexivity.
  destruct (Claims.sub p) as [name|]; try reflexivity.
  destruct (negb (truthy name)); try reflexivity.
  destruct (filter _ _) as [|x [|y l]]; reflexivity.
Qed.

Lemma run_get_current_user (token : Token) (now : Z) (db : DB) :
  run_request (get_current_user token now) db
  = (fst (get_current_user token now (mkSession db db)), db).
Proof.
  unfold run_request.
  pose proof (get_current_user_session token now (mkSession db db)) as H.
  destruct (get_current_user token now (mkSession db db)) as [r s].
  cbn [snd] in H; rewrite H; reflexivity.
Qed.

Lemma get_current_user_found (token : Token) (now : Z) (s : Session)
    (p : Claims.t) (name : pystr) (u : User.t) :
  verify_jwt_token token now = Returns (Some p) ->
  Claims.sub p = Some name -> name <> [] ->
  NoDup (map User.username (users (view s))) ->
  In u (users (view s)) -> User.username u = name ->
  get_current_user token now s = (Returns u, s).
Proof.
  intros Hv Hsub Hne ND Hin Hname.
  unfold get_current_user, bind, lift, select_users.
  rewrite Hv. unfold Claims.nonempty; rewrite Hsub.
  destruct name as [|c name]; [congruence|]. cbn [negb truthy].
  rewrite <- Hname, (select_by_username _ _ ND Hin). reflexivity.
Qed.

(** X1. A token issued for a username resolves, up to its expiry, to the
    user of that name; after expiry the request is answered 401, and when
    no user has the name it is answered 404.  The store is never changed. *)
Theorem get_current_user_resolves_issued_token
    (db : DB) (name : pystr) (t0 : Z) (token : Token) :
  jws_contract ->
  NoDup (map User.username (users db)) ->
  name <> [] ->
  create_access_token name t0 = Returns token ->
  (forall t u,
      t <= t0 + 600 -> In u (users db) -> User.username u = name ->
      run_request (get_current_user token t) db = (Returns u, db))
  /\ (forall t,
         t <= t0 + 600 ->
         (forall u, In u (users db) -> User.username u <> name) ->
         run_request (get_current_user token t) db
         = (Raises (HTTPException 404 "User not found"), db))
  /\ (forall t,
         t0 + 600 < t ->
         run_request (get_current_user token t) db
         = (Raises (HTTPException 401 "Invalid token"), db)).
Proof.
  intros HJ ND Hne Hcreate. split; [|split].
  - intros t u Ht Hin Hname. rewrite run_get_current_user.
    rewrite (@get_current_user_found token t (mkSession db db)
               (Claims.mk (Some name) (Some (t0 + 600))) name u); auto.
    rewrite (@verify_issued_token name t0 t token HJ Hcreate).
    destruct (Z.ltb_spec (t0 + 600) t); [lia | reflexivity].
  - intros t Ht Hnone. rewrite run_get_current_user.
    unfold get_current_user, bind, lift, select_users.
    rewrite (@verify_issued_token name t0 t token HJ Hcreate).
    destruct (Z.ltb_spec (t0 + 600) t); [lia|].
    destruct name as [|c name]; [congruence|]. cbn.
    rewrite filter_none; [reflexivity|].
    intros u Hin; apply str_eqb_neq; apply Hnone; exact Hin.
  - intros t Ht. rewrite run_get_current_user.
    unfold get_current_user, bind, lift.
    rewrite (@verify_issued_token name t0 t token HJ Hcreate).
    destruct (Z.ltb_spec (t0 + 600) t); [reflexivity | lia].
Qed.

(** X2. A token that fails signature verification, or whose claims carry
    no subject or an empty one, is answered 401 "Invalid token" whatever
    the time and the store. *)
Theorem get_current_user_rejects_bad_tokens
    (db : DB) (token : Token) (now : Z) :
  (forall r,
      jws_verify token SECRET_KEY [HS256] = Raises (JWSError r) ->
      run_request (get_current_user token now) db
      = (Raises (HTTPException 401 "Invalid token"), db))
  /\ (forall claims,
         jws_verify token SECRET_KEY [HS256] = Returns claims ->
         Claims.sub claims = None \/ Claims.sub claims = Some [] ->
         run_request (get_current_user token now) db
         = (Raises (HTTPException 401 "Invalid token"), db)).
Proof.
  split.
  - intros r Hbad. rewrite run_get_current_user.
    unfold get_current_user, bind, lift, verify_jwt_token, jwt_decode.
    unfold ALGORITHM; rewrite Hbad; reflexivity.
  - intros claims Hok Hsub. rewrite run_get_current_user.
    unfold get_current_user, bind, lift, verify_jwt_token, jwt_decode.
    unfold ALGORITHM; rewrite Hok.
    destruct claims as [sub exp]; cbn [Claims.sub Claims.exp] in *.
    destruct exp as [e|]; [destruct (e <? now)|];
      destruct Hsub as [->| ->]; reflexivity.
Qed.

Lemma run_Depends {A} (token : Token) (now : Z) (handler : User.t -> M A)
    (db : DB) :
  run_request (Depends_get_current_user token now handler) db
  = match fst (run_request (get_current_user token now) db) with
    | Returns u => run_request (handler u) db
    | Raises e => (Raises e, db)
    end.
Proof.
  rewrite run_get_current_user; cbn [fst].
  unfold run_request, Depends_get_current_user, bind.
  pose proof (get_current_user_session token now (mkSession db db)) as H.
  destruct (get_current_user token now (mkSession db db)) as [[u|e] s];
    cbn [snd fst] in *; rewrite H; reflexivity.
Qed.

(** X3. When the dependency [get_current_user] fails, every protected
    route fails with the same exception without running its handler or
    validating its body, and the store is unchanged. *)
Theorem protected_routes_require_authentication
    (db : DB) (token : Token) (now : Z) (e : exn) :
  fst (run_request (get_current_user token now) db) = Raises e ->
  run_request (GET_me token now) db = (Raises e, db)
  /\ run_request (GET_me_profile token now) db = (Raises e, db)
  /\ (forall body salt,
         run_request (PUT_me token body now salt) db = (Raises e, db))
  /\ (forall body, run_request (POST_books token body now) db = (Raises e, db))
  /\ (forall skip limit_ author title,
         run_request (GET_books token now skip limit_ author title) db
         = (Raises e, db))
  /\ (forall book_id,
         run_request (GET_book token now book_id) db = (Raises e, db))
  /\ (forall book_id body,
         run_request (PUT_book token now book_id body) db = (Raises e, db))
  /\ (forall book_id,
         run_request (DELETE_book token now book_id) db = (Raises e, db)).
Proof.
  intros Hfail.
  assert (Hall : forall A (handler : User.t -> M A),
             run_request (Depends_get_current_user token now handler) db
             = (Raises e, db))
    by (intros A handler; rewrite run_Depends, Hfail; reflexivity).
  repeat split; intros; apply Hall.
Qed.

(** *** Registration and login *)

Lemma max_ge_all (ids : list Z) (x : Z) :
  In x ids -> x <= fold_right Z.max 0 ids.
Proof.
  induction ids as [|y ids IH]; intros Hin; [destruct Hin|].
  cbn [fold_right]. destruct Hin as [->|Hin]; [lia|].
  specialize (IH Hin); lia.
Qed.

Lemma next_id_fresh (ids : list Z) : ~ In (next_id ids) ids.
Proof.
  intros Hin; apply max_ge_all in Hin; unfold next_id in Hin; lia.
Qed.

Lemma NoDup_snoc {A} (l : list A) (x : A) :
  NoDup l -> ~ In x l -> NoDup (l ++ [x]).
Proof.
  intros ND Hx. apply NoDup_app; [exact ND | constructor; [intros []|constructor] |].
  intros a Ha [<-|[]]; exact (Hx Ha).
Qed.

Lemma existsb_none {A} (p : A -> bool) (l : list A) :
  (forall x, In x l -> p x = false) -> existsb p l = false.
Proof.
  induction l as [|y l IH]; intros H; [reflexivity|].
  cbn [existsb]; rewrite (H y (or_introl eq_refl)), IH; [reflexivity|].
  intros x Hx; apply H; right; exact Hx.
Qed.

Lemma existsb_false_in {A} (p : A -> bool) (l : list A) (x : A) :
  existsb p l = false -> In x l -> p x = false.
Proof.
  induction l as [|y l IH]; intros H Hin; [destruct Hin|].
  cbn [existsb] in H; apply orb_false_iff in H; destruct H as [Hy Hl].
  destruct Hin as [<-|Hin]; [exact Hy | exact (IH Hl Hin)].
Qed.

Lemma emails_of_in (us : list User.t) (e : pystr) :
  In e (emails_of us) -> exists u, In u us /\ User.email u = Some e.
Proof.
  unfold emails_of; intros H; apply in_flat_map in H.
  destruct H as (u & Hin & He). exists u; split; [exact Hin|].
  destruct (User.email u) as [x|]; [|destruct He].
  destruct He as [->|[]]; reflexivity.
Qed.

(** The test the store makes when a user row is inserted. *)
Lemma insert_check_free (us : list User.t) (name : pystr)
    (email : option pystr) :
  (forall u, In u us -> User.username u <> name) ->
  (forall e, email = Some e -> forall u, In u us -> User.email u <> Some e) ->
  existsb (fun u => str_eqb (User.username u) name) us
  || match email with
     | Some e => existsb (str_eqb e) (emails_of us)
     | None => false
     end = false.
Proof.
  intros Hname Hemail. apply orb_false_iff; split.
  - apply existsb_none; intros u Hin; apply str_eqb_neq, Hname, Hin.
  - destruct email as [e|]; [|reflexivity].
    apply existsb_none; intros x Hx; apply str_eqb_neq; intros <-.
    apply emails_of_in in Hx; destruct Hx as (u & Hin & He).
    exact (Hemail e eq_refl u Hin He).
Qed.

Lemma wf_after_insert_user (db : DB) (new : User.t) :
  db_wf db ->
  User.id new = next_id (map User.id (users db)) ->
  existsb (fun u => str_eqb (User.username u) (User.username new)) (users db)
  || match User.email new with
     | Some e => existsb (str_eqb e) (emails_of (users db))
     | None => false
     end = false ->
  db_wf (mkDB (users db ++ [new]) (books db)).
Proof.
  intros WF Hid Hcheck. apply orb_false_iff in Hcheck.
  destruct Hcheck as [Hname Hemail].
  split; cbn [users books].
  - rewrite map_app; cbn [map]. apply NoDup_snoc; [exact (wf_user_ids WF)|].
    rewrite Hid; apply next_id_fresh.
  - rewrite map_app; cbn [map]. apply NoDup_snoc; [exact (wf_usernames WF)|].
    intros Hin; apply in_map_iff in Hin; destruct Hin as (u & Hu & Hin).
    pose proof (existsb_false_in _ _ u Hname Hin) as Hf; cbn beta in Hf.
    rewrite Hu, str_eqb_refl in Hf; discriminate.
  - unfold emails_of; rewrite flat_map_app; cbn [flat_map].
    fold (emails_of (users db)); rewrite app_nil_r.
    destruct (User.email new) as [e|].
    + apply NoDup_snoc; [exact (wf_emails WF)|].
      intros Hin. pose proof (existsb_false_in _ _ e Hemail Hin) as Hf.
      rewrite str_eqb_refl in Hf; discriminate.
    + rewrite app_nil_r; exact (wf_emails WF).
  - exact (wf_book_ids WF).
Qed.

Ltac register_tail :=
  cbn;
  destruct (hash_password _ _) as [h|err]; cbn; auto;
  destruct (existsb _ _ || _); cbn; auto;
  destruct (create_access_token _ _); cbn; right; exists h;
  (split; reflexivity).

Lemma register_store (db : DB) (user_data : UserRegister.t) (now : Z)
    (salt : Salt) :
  snd (run_request (register user_data now salt) db) = db
  \/ exists h,
       snd (run_request (register user_data now salt) db)
       = mkDB (users db ++ [registered_user db user_data h now]) (books db)
       /\ existsb (fun u => str_eqb (User.username u)
                                    (UserRegister.username user_data))
                  (users db)
          || match UserRegister.email user_data with
             | Some e => existsb (str_eqb e) (emails_of (users db))
             | None => false
             end = false.
Proof.
  unfold run_request, register, bind, select_users, scalar_one_or_none, lift,
    insert_user, commit, ret, raise, registered_user.
  cbn [view store users books].
  destruct (filter _ (users db)) as [|x [|y l]]; cbn; auto.
  destruct (UserRegister.email user_data) as [e|].
  - destruct (truthy e).
    + cbn [view users].
      destruct (filter _ (users db)) as [|x' [|y' l']]; cbn; auto.
      register_tail.
    + register_tail.
  - register_tail.
Qed.

(** X4. Whatever its outcome, POST /register leaves a store that meets the
    schema's constraints: unique user ids, usernames and addresses. *)
Theorem register_keeps_schema_constraints
    (db : DB) (user_data : UserRegister.t) (now : Z) (salt : Salt) :
  db_wf db ->
  db_wf (snd (run_request (register user_data now salt) db)).
Proof.
  intros WF.
  destruct (register_store db user_data now salt) as [-> | (h & -> & Hc)];
    [exact WF|].
  apply wf_after_insert_user; [exact WF | reflexivity | exact Hc].
Qed.

Lemma run_register_free (db : DB) (user_data : UserRegister.t) (now : Z)
    (salt : Salt) (h : pystr) (token : Token) :
  (forall u, In u (users db) ->
             User.username u <> UserRegister.username user_data) ->
  (forall e, UserRegister.email user_data = Some e ->
             forall u, In u (users db) -> User.email u <> Some e) ->
  hash_password (UserRegister.password user_data) salt = Returns h ->
  create_access_token (UserRegister.username user_data) now = Returns token ->
  run_request (register user_data now salt) db
  = (Returns (TokenResponse.mk token "bearer"),
     mkDB (users db ++ [registered_user db user_data h now]) (books db)).
Proof.
  intros Hname Hemail Hhash Htoken.
  pose proof (@insert_check_free (users db) _ _ Hname Hemail) as Hcheck.
  unfold run_request, register, bind, select_users, scalar_one_or_none, lift,
    insert_user, commit, ret, raise, registered_user.
  cbn [view store users books].
  rewrite filter_none
    by (intros u Hin; apply str_eqb_neq, Hname, Hin).
  rewrite Hhash, Htoken.
  destruct (UserRegister.email user_data) as [e|].
  - assert (Hfree : filter (fun u => opt_str_eqb (User.email u) (Some e))
                           (users db) = []).
    { apply filter_none; intros u Hin.
      destruct (opt_str_eqb (User.email u) (Some e)) eqn:E; [|reflexivity].
      apply opt_str_eqb_some in E.
      exfalso; exact (Hemail e eq_refl u Hin E). }
    destruct (truthy e); cbn [view users]; rewrite ?Hfree;
      cbn [view store users books]; rewrite Hcheck; reflexivity.
  - cbn [view store users books]; rewrite Hcheck; reflexivity.
Qed.

(** X5. When the username and the address are free, POST /register adds
    exactly one user row -- an id that no row of the table has, the
    payload's name, address and full name, a hash that the payload's
    password verifies against -- keeps every book and every other user,
    and returns a bearer token for the new name. *)
Theorem register_adds_one_verifiable_user
    (db : DB) (user_data : UserRegister.t) (pb : bytes) (now : Z)
    (salt : Salt) :
  bcrypt_contract -> jws_contract ->
  (forall u, In u (users db) ->
             User.username u <> UserRegister.username user_data) ->
  (forall e, UserRegister.email user_data = Some e ->
             forall u, In u (users db) -> User.email u <> Some e) ->
  encode_utf8 (UserRegister.password user_data) = Returns pb ->
  exists h token,
    run_request (register user_data now salt) db
    = (Returns (TokenResponse.mk token "bearer"),
       mkDB (users db ++ [registered_user db user_data h now]) (books db))
    /\ verify_password (UserRegister.password user_data) h = true
    /\ ~ In (User.id (registered_user db user_data h now))
            (map User.id (users db))
    /\ verify_jwt_token token now
       = Returns (Some (Claims.mk (Some (UserRegister.username user_data))
                                  (Some (now + 600)))).
Proof.
  intros HB HJ Hname Hemail Hp.
  destruct (@hash_password_encoded (UserRegister.password user_data) pb salt
              HB Hp) as (h & Hhash & Hh & Hascii & _).
  destruct (issued_token (UserRegister.username user_data) now HJ)
    as (token & Htoken & Hverify).
  exists h, token. split; [|split; [|split]].
  - apply run_register_free; assumption.
  - exact (@verify_password_same_prefix (UserRegister.password user_data)
             pb pb h salt HB (encode_utf8_bytes _ Hp) Hh Hascii Hp eq_refl).
  - apply next_id_fresh.
  - rewrite (@verify_issued_token (UserRegister.username user_data) now now
               token HJ Htoken).
    destruct (Z.ltb_spec (now + 600) now); [lia | reflexivity].
Qed.

(** X6. When the username is free but the address belongs to an account,
    POST /register is answered 400 "Email already registered" and the
    store is unchanged. *)
Theorem register_taken_email_conflict
    (db : DB) (other : User.t) (user_data : UserRegister.t) (e : pystr)
    (now : Z) (salt : Salt) :
  NoDup (emails_of (users db)) ->
  (forall u, In u (users db) ->
             User.username u <> UserRegister.username user_data) ->
  In other (users db) -> User.email other = Some e -> e <> [] ->
  UserRegister.email user_data = Some e ->
  run_request (register user_data now salt) db
  = (Raises (HTTPException 400 "Email already registered"), db).
Proof.
  intros ND Hname Hin He Hne Hud.
  unfold run_request, register, bind, select_users, scalar_one_or_none.
  cbn [view store users books].
  rewrite filter_none
    by (intros u Hu; apply str_eqb_neq, Hname, Hu).
  rewrite Hud. destruct e as [|c e]; [congruence|].
  cbn -[opt_str_eqb].
  rewrite (select_by_email (users db) other ND Hin He). reflexivity.
Qed.

Lemma run_login (db : DB) (name p : pystr) (now : Z) :
  run_request (login name p now) db
  = match filter (fun u => str_eqb (User.username u) name) (users db) with
    | [] => (Raises (HTTPException 401 "Invalid username or password"), db)
    | [u] =>
        if verify_password p (User.hashed_password u) then
          match create_access_token name now with
          | Returns token => (Returns (TokenResponse.mk token "bearer"), db)
          | Raises e => (Raises e, db)
          end
        else (Raises (HTTPException 401 "Invalid username or password"), db)
    | _ => (Raises MultipleResultsFound, db)
    end.
Proof.
  unfold run_request, login, bind, select_users, scalar_one_or_none, lift.
  cbn [view store users books].
  destruct (filter _ (users db)) as [|u [|y l]]; try reflexivity.
  cbn. destruct (verify_password p (User.hashed_password u)); [|reflexivity].
  destruct (create_access_token name now); reflexivity.
Qed.

(** X7. POST /login answers an unknown username and a wrong password with
    the same 401; with a password that verifies against the stored hash it
    returns the bearer token issued for that username; it never changes
    the store. *)
Theorem login_checks_password
    (db : DB) (u : User.t) (now : Z) :
  NoDup (map User.username (users db)) ->
  In u (users db) ->
  (forall name p,
      (forall x, In x (users db) -> User.username x <> name) ->
      run_request (login name p now) db
      = (Raises (HTTPException 401 "Invalid username or password"), db))
  /\ (forall p,
         verify_password p (User.hashed_password u) = false ->
         run_request (login (User.username u) p now) db
         = (Raises (HTTPException 401 "Invalid username or password"), db))
  /\ (forall p token,
         verify_password p (User.hashed_password u) = true ->
         create_access_token (User.username u) now = Returns token ->
         run_request (login (User.username u) p now) db
         = (Returns (TokenResponse.mk token "bearer"), db))
  /\ (forall name p, snd (run_request (login name p now) db) = db).
Proof.
  intros ND Hin. split; [|split; [|split]].
  - intros name p Hnone. rewrite run_login, filter_none; [reflexivity|].
    intros x Hx; apply str_eqb_neq, Hnone, Hx.
  - intros p Hv. rewrite run_login, (select_by_username _ _ ND Hin), Hv.
    reflexivity.
  - intros p token Hv Htoken.
    rewrite run_login, (select_by_username _ _ ND Hin), Hv, Htoken.
    reflexivity.
  - intros name p. rewrite run_login.
    destruct (filter _ (users db)) as [|x [|y l]]; try reflexivity.
    destruct (verify_password p (User.hashed_password x)); [|reflexivity].
    destruct (create_access_token name now); reflexivity.
Qed.

(** X8. Registration, login and GET /me compose: after a successful
    registration the store still meets the schema's constraints, the same
    username and password log in, and so does every password whose
    encoding has the same first 72 bytes; a password that does not verify
    against the stored hash is refused with 401; and the token of the
    registration, presented to GET /me before it expires, returns the new
    user's profile. *)
Theorem register_then_login_and_me
    (db : DB) (user_data : UserRegister.t) (pb : bytes) (now : Z)
    (salt : Salt) :
  bcrypt_contract -> jws_contract -> db_wf db ->
  (forall u, In u (users db) ->
             User.username u <> UserRegister.username user_data) ->
  (forall e, UserRegister.email user_data = Some e ->
             forall u, In u (users db) -> User.email u <> Some e) ->
  encode_utf8 (UserRegister.password user_data) = Returns pb ->
  UserRegister.username user_data <> [] ->
  exists h token db',
    run_request (register user_data now salt) db
    = (Returns (TokenResponse.mk token "bearer"), db')
    /\ db_wf db'
    /\ (forall now',
           exists token',
             run_request
               (login (UserRegister.username user_data)
                      (UserRegister.password user_data) now') db'
             = (Returns (TokenResponse.mk token' "bearer"), db'))
    /\ (forall p' pb' now',
           encode_utf8 p' = Returns pb' -> firstn 72 pb' = firstn 72 pb ->
           exists token',
             run_request (login (UserRegister.username user_data) p' now')
                         db'
             = (Returns (TokenResponse.mk token' "bearer"), db'))
    /\ (forall p' now',
           verify_password p' h = false ->
           run_request (login (UserRegister.username user_data) p' now') db'
           = (Raises (HTTPException 401 "Invalid username or password"), db'))
    /\ (forall t,
           t <= now + 600 ->
           run_request (GET_me token t) db'
           = (Returns (UserResponse.from_orm
                         (registered_user db user_data h now)), db')).
Proof.
  intros HB HJ WF Hname Hemail Hp Hne.
  destruct (@hash_password_encoded (UserRegister.password user_data) pb salt
              HB Hp) as (h & Hhash & Hh & Hascii & _).
  destruct (issued_token (UserRegister.username user_data) now HJ)
    as (token & Htoken & Hverify).
  set (new := registered_user db user_data h now).
  set (db' := mkDB (users db ++ [new]) (books db)).
  assert (WF' : db_wf db').
  { apply wf_after_insert_user; [exact WF | reflexivity|].
    apply insert_check_free; assumption. }
  assert (Hin : In new (users db'))
    by (cbn [db' users]; apply in_or_app; right; left; reflexivity).
  assert (Hbytes : forallb is_byte pb = true)
    by (exact (encode_utf8_bytes _ Hp)).
  assert (Hlogin : forall p' pb' now',
             encode_utf8 p' = Returns pb' -> firstn 72 pb' = firstn 72 pb ->
             exists token',
               run_request (login (UserRegister.username user_data) p' now')
                           db'
               = (Returns (TokenResponse.mk token' "bearer"), db')).
  { intros p' pb' now' Hp' Heq.
    destruct (issued_token (UserRegister.username user_data) now' HJ)
      as (token' & Htoken' & _).
    exists token'.
    change (UserRegister.username user_data) with (User.username new).
    rewrite run_login, (select_by_username _ _ (wf_usernames WF') Hin).
    change (User.hashed_password new) with h.
    rewrite (@verify_password_same_prefix p' pb' pb h salt HB Hbytes Hh
               Hascii Hp' Heq).
    change (User.username new) with (UserRegister.username user_data).
    rewrite Htoken'; reflexivity. }
  exists h, token, db'.
  split; [|split; [exact WF'|split; [|split; [|split]]]].
  - apply run_register_free; assumption.
  - intros now'. exact (Hlogin _ pb now' Hp eq_refl).
  - exact Hlogin.
  - intros p' now' Hv.
    change (UserRegister.username user_data) with (User.username new).
    rewrite run_login, (select_by_username _ _ (wf_usernames WF') Hin).
    change (User.hashed_password new) with h.
    rewrite Hv; reflexivity.
  - intros t Ht. unfold GET_me. rewrite run_Depends, run_get_current_user.
    rewrite (@get_current_user_found token t (mkSession db' db')
               (Claims.mk (Some (UserRegister.username user_data))
                          (Some (now + 600)))
               (UserRegister.username user_data) new);
      auto using wf_usernames.
    rewrite (@verify_issued_token (UserRegister.username user_data) now t
               token HJ Htoken).
    destruct (Z.ltb_spec (now + 600) t); [lia | reflexivity].
Qed.

(** *** Books: create, read back, replace, delete *)

Lemma run_add_book (db : DB) (d : BookCreate.t) (u : User.t) (now : Z) :
  run_request (add_book d u now) db
  = (Returns (added_book db d u now),
     mkDB (users db) (books db ++ [added_book db d u now])).
Proof.
  unfold run_request, add_book, bind, insert_book, commit, refresh_book.
  cbn [view store users books]. fold (added_book db d u now).
  rewrite filter_app, filter_none.
  - cbn [filter app]. rewrite Z.eqb_refl. reflexivity.
  - intros x Hx. apply Z.eqb_neq. intros Heq.
    apply (next_id_fresh (map Book.id (books db))).
    change (next_id (map Book.id (books db)))
      with (Book.id (added_book db d u now)).
    rewrite <- Heq; apply in_map; exact Hx.
Qed.

Lemma replace_row_ids (b' : Book.t) (bs : list Book.t) :
  map Book.id (replace_row b' bs) = map Book.id bs.
Proof.
  unfold replace_row; rewrite map_map; apply map_ext_in; intros x _.
  destruct (Z.eqb_spec (Book.id x) (Book.id b')) as [E|E];
    [symmetry; exact E | reflexivity].
Qed.

Lemma NoDup_map_filter {A K} (key : A -> K) (p : A -> bool) (l : list A) :
  NoDup (map key l) -> NoDup (map key (filter p l)).
Proof.
  induction l as [|x l IH]; intros ND; [constructor|].
  cbn [map] in ND. apply NoDup_cons_iff in ND; destruct ND as [Hx ND].
  cbn [filter]. destruct (p x); [|exact (IH ND)].
  cbn [map]; constructor; [|exact (IH ND)].
  intros Hin; apply Hx. apply in_map_iff in Hin.
  destruct Hin as (y & Hy & Hin). apply filter_In in Hin.
  rewrite <- Hy; apply in_map; exact (proj1 Hin).
Qed.

Lemma filter_all {A} (p : A -> bool) (l : list A) :
  (forall x, In x l -> p x = true) -> filter p l = l.
Proof.
  induction l as [|y l IH]; simpl; intros H; [reflexivity|].
  rewrite (H y (or_introl eq_refl)); f_equal; apply IH; intros; apply H; auto.
Qed.

(** X9. POST /books stores one new row: an id that no row of the table
    has at that moment, the payload's fields, the caller as owner and the
    request time as creation time.  The new book can be read back by its
    owner through GET /books/{id}, is a 404 for every other user, and the
    store keeps its constraints.  The id is new among the rows present,
    not among all ids ever used: once the book is deleted again, the next
    book added gets the same id. *)
Theorem add_book_then_get_book
    (db : DB) (book_data : BookCreate.t) (current_user : User.t) (now : Z) :
  db_wf db ->
  let book := added_book db book_data current_user now in
  let db' := mkDB (users db) (books db ++ [book]) in
  run_request (add_book book_data current_user now) db = (Returns book, db')
  /\ ~ In (Book.id book) (map Book.id (books db))
  /\ db_wf db'
  /\ run_request (get_book (Book.id book) current_user) db'
     = (Returns book, db')
  /\ (forall other,
         User.id other <> User.id current_user ->
         run_request (get_book (Book.id book) other) db'
         = (Raises (HTTPException 404 "Book not found"), db'))
  /\ run_request (delete_book (Book.id book) current_user) db'
     = (Returns "Book deleted successfully"%string,
        mkDB (users db) (books db))
  /\ (forall book_data' now',
         Book.id (added_book (mkDB (users db) (books db)) book_data'
                             current_user now')
         = Book.id book).
Proof.
  intros WF book db'.
  assert (Hfresh : ~ In (Book.id book) (map Book.id (books db)))
    by apply next_id_fresh.
  assert (ND' : NoDup (map Book.id (books db'))).
  { cbn [db' books]; rewrite map_app; cbn [map].
    apply NoDup_snoc; [exact (wf_book_ids WF) | exact Hfresh]. }
  assert (Hin : In book (books db'))
    by (cbn [db' books]; apply in_or_app; right; left; reflexivity).
  split; [apply run_add_book|]. split; [exact Hfresh|]. split.
  { split; [exact (wf_user_ids WF) | exact (wf_usernames WF)
           | exact (wf_emails WF) | exact ND']. }
  split; [|split; [|split]].
  - rewrite run_get_book, (@select_owned db' _ current_user book ND' Hin eq_refl eq_refl).
    reflexivity.
  - intros other Hother.
    rewrite run_get_book, (@select_not_owned db' (Book.id book) other);
      [rewrite (bound_id_stored db' book Hin); reflexivity|].
    intros b Hb Hid.
    assert (b = book)
      by (exact (unique_key_inj Book.id (books db') b book ND' Hb Hin Hid)).
    rewrite H; cbn [book added_book Book.owner_id].
    intros Heq; apply Hother; symmetry; exact Heq.
  - rewrite run_delete_book,
      (@select_owned db' _ current_user book ND' Hin eq_refl eq_refl).
    cbn [db' users books]. rewrite filter_app. cbn [filter].
    rewrite Z.eqb_refl. cbn [negb]. rewrite app_nil_r.
    rewrite filter_all; [reflexivity|].
    intros x Hx. apply negb_true_iff, Z.eqb_neq. intros Heq.
    apply Hfresh; rewrite <- Heq; apply in_map; exact Hx.
  - reflexivity.
Qed.

(** X10. After a successful DELETE /books/{id} the book is gone: the
    same request again and a GET for the id fail and leave the store as it
    is -- with 404, the id being one that fits in 64 bits, as the ids that
    SQLite hands out do -- the other rows are the ones that were there,
    and no user is touched. *)
Theorem delete_book_twice
    (db : DB) (current_user : User.t) (book : Book.t) :
  NoDup (map Book.id (books db)) ->
  In book (books db) ->
  Book.owner_id book = User.id current_user ->
  let db' :=
    mkDB (users db)
         (filter (fun x => negb (Book.id x =? Book.id book)) (books db)) in
  run_request (delete_book (Book.id book) current_user) db
  = (Returns "Book deleted successfully"%string, db')
  /\ (exists e,
         run_request (delete_book (Book.id book) current_user) db'
         = (Raises e, db')
         /\ (int64 (Book.id book) = true ->
             e = HTTPException 404 "Book not found"))
  /\ (exists e,
         run_request (get_book (Book.id book) current_user) db'
         = (Raises e, db')
         /\ (int64 (Book.id book) = true ->
             e = HTTPException 404 "Book not found"))
  /\ ~ In book (books db')
  /\ (forall x, In x (books db) -> x <> book -> In x (books db'))
  /\ NoDup (map Book.id (books db')).
Proof.
  intros ND Hin Hown db'.
  assert (Hgone : forall b, In b (books db') -> Book.id b = Book.id book ->
                            Book.owner_id b <> User.id current_user).
  { intros b Hb Hid. cbn [db' books] in Hb. apply filter_In in Hb.
    destruct Hb as [_ Hb]. rewrite Hid, Z.eqb_refl in Hb; discriminate. }
  assert (Hbound : int64 (Book.id book) = true ->
                   bound_id db' (Book.id book) = true)
    by (intros H; unfold bound_id; rewrite H; reflexivity).
  split; [|split; [|split; [|split; [|split]]]].
  - rewrite run_delete_book,
      (@select_owned db _ current_user book ND Hin eq_refl Hown).
    reflexivity.
  - rewrite run_delete_book,
      (@select_not_owned db' (Book.id book) current_user Hgone).
    destruct (bound_id db' (Book.id book)); eexists;
      (split; [reflexivity|]); intros H; [reflexivity|].
    apply Hbound in H; discriminate.
  - rewrite run_get_book,
      (@select_not_owned db' (Book.id book) current_user Hgone).
    destruct (bound_id db' (Book.id book)); eexists;
      (split; [reflexivity|]); intros H; [reflexivity|].
    apply Hbound in H; discriminate.
  - intros Hb; exact (Hgone book Hb eq_refl Hown).
  - intros x Hx Hne. cbn [db' books]. apply in_delete_row; [exact Hx|].
    intros Heq; apply Hne.
    exact (unique_key_inj Book.id (books db) x book ND Hx Hin Heq).
  - cbn [db' books]. apply NoDup_map_filter; exact ND.
Qed.

(** X11. After a successful PUT /books/{id} a GET for the id returns the
    replaced book, and sending the same payload again returns the same
    book and leaves the store as the first PUT left it. *)
Theorem update_book_then_get_book
    (db : DB) (current_user : User.t) (book : Book.t)
    (book_data : BookCreate.t) :
  NoDup (map Book.id (books db)) ->
  In book (books db) ->
  Book.owner_id book = User.id current_user ->
  let book' := assign_fields book book_data in
  let db' := mkDB (users db) (replace_row book' (books db)) in
  run_request (update_book (Book.id book) book_data current_user) db
  = (Returns book', db')
  /\ NoDup (map Book.id (books db'))
  /\ run_request (get_book (Book.id book) current_user) db'
     = (Returns book', db')
  /\ run_request (update_book (Book.id book) book_data current_user) db'
     = (Returns book', db').
Proof.
  intros ND Hin Hown book' db'.
  assert (ND' : NoDup (map Book.id (books db')))
    by (cbn [db' books]; rewrite replace_row_ids; exact ND).
  assert (Hin' : In book' (books db')).
  { cbn [db' books]; unfold replace_row; apply in_map_iff.
    exists book; split; [|exact Hin].
    cbn [book' assign_fields Book.id]; rewrite Z.eqb_refl; reflexivity. }
  assert (Hsel : filter (owned_book (Book.id book) current_user) (books db')
                 = [book'])
    by (exact (@select_owned db' (Book.id book) current_user book' ND' Hin'
              eq_refl Hown)).
  split; [|split; [exact ND'|split]].
  - rewrite run_update_book, (@select_owned db _ current_user book ND Hin eq_refl Hown).
    reflexivity.
  - rewrite run_get_book, Hsel; reflexivity.
  - rewrite run_update_book, Hsel.
    assert (Hsame : assign_fields book' book_data = book') by reflexivity.
    assert (Hrep : replace_row book' (replace_row book' (books db))
                   = replace_row book' (books db)).
    { unfold replace_row; rewrite map_map; apply map_ext; intros x.
      destruct (Book.id x =? Book.id book') eqn:E; [|rewrite E; reflexivity].
      rewrite Z.eqb_refl; reflexivity. }
    rewrite Hsame. cbn [db' users books]. rewrite Hrep. reflexivity.
Qed.

(** X12. Whatever their outcome, POST /books, PUT /books/{id} and
    DELETE /books/{id} leave the users as they were and a store that
    meets the schema's constraints. *)
Theorem book_handlers_keep_schema_constraints
    (db : DB) (current_user : User.t) (book_id : Z)
    (book_data : BookCreate.t) (now : Z) :
  db_wf db ->
  let after_add := snd (run_request (add_book book_data current_user now) db) in
  let after_update :=
    snd (run_request (update_book book_id book_data current_user) db) in
  let after_delete :=
    snd (run_request (delete_book book_id current_user) db) in
  db_wf after_add /\ users after_add = users db
  /\ db_wf after_update /\ users after_update = users db
  /\ db_wf after_delete /\ users after_delete = users db.
Proof.
  intros WF after_add after_update after_delete.
  assert (Hwf : forall bs, NoDup (map Book.id bs) ->
                           db_wf (mkDB (users db) bs)).
  { intros bs ND; split; [exact (wf_user_ids WF) | exact (wf_usernames WF)
                          | exact (wf_emails WF) | exact ND]. }
  assert (Hsame : db_wf (mkDB (users db) (books db)))
    by (apply Hwf; exact (wf_book_ids WF)).
  unfold after_add, after_update, after_delete.
  rewrite run_add_book, run_update_book, run_delete_book.
  destruct (bound_id db book_id);
  destruct (filter (owned_book book_id current_user) (books db))
    as [|b [|b' l]]; cbn [snd users];
    (split; [|split; [|split; [|split; [|split]]]]);
    try reflexivity; try exact WF.
  all: apply Hwf; cbn [books];
    try (rewrite map_app; cbn [map]; apply NoDup_snoc;
         [exact (wf_book_ids WF) | apply next_id_fresh]);
    try (rewrite replace_row_ids; exact (wf_book_ids WF));
    try (apply NoDup_map_filter; exact (wf_book_ids WF)).
Qed.

(** *** Listings *)

Lemma in_limit {A} (n : Z) (l : list A) (x : A) : In x (limit n l) -> In x l.
Proof.
  unfold limit; destruct (n <? 0); [auto | apply in_firstn].
Qed.

Lemma limit_sorted {A} (R : A -> A -> Prop) (n : Z) (l : list A) :
  Sorted R l -> Sorted R (limit n l).
Proof.
  unfold limit; destruct (n <? 0); [auto | apply firstn_sorted].
Qed.

Lemma NoDup_firstn {A} (n : nat) (l : list A) : NoDup l -> NoDup (firstn n l).
Proof.
  intros ND. rewrite <- (firstn_skipn n l) in ND.
  exact (NoDup_app_remove_r _ _ ND).
Qed.

Lemma NoDup_skipn {A} (n : nat) (l : list A) : NoDup l -> NoDup (skipn n l).
Proof.
  intros ND. rewrite <- (firstn_skipn n l) in ND.
  exact (NoDup_app_remove_l _ _ ND).
Qed.

Lemma firstn_map {A B} (f : A -> B) (n : nat) (l : list A) :
  firstn n (map f l) = map f (firstn n l).
Proof.
  revert l; induction n as [|n IH]; intros [|x l]; cbn; try reflexivity.
  rewrite IH; reflexivity.
Qed.

Lemma skipn_map {A B} (f : A -> B) (n : nat) (l : list A) :
  skipn n (map f l) = map f (skipn n l).
Proof.
  revert l; induction n as [|n IH]; intros [|x l]; cbn; try reflexivity.
  apply IH.
Qed.

(** X13. GET /books never changes the store.  It raises OverflowError
    when [skip] or [limit] does not fit in a signed 64-bit integer, and
    returns a list when they do and the patterns are within SQLite's
    limit.  Whatever list it returns holds only books of the store that
    the caller owns, newest first, at most [limit] of them when [limit]
    is not negative, and none twice; a caller who owns no book gets the
    empty list, whatever the author and title parameters. *)
Theorem get_my_books_only_own_books
    (db : DB) (current_user : User.t) (skip limit_ : Z)
    (author title : option pystr) :
  NoDup (map Book.id (books db)) ->
  let outcome :=
    run_request (get_my_books current_user skip limit_ author title) db in
  snd outcome = db
  /\ (int64 limit_ && int64 skip = false ->
      fst outcome = Raises OverflowError)
  /\ (int64 limit_ && int64 skip = true ->
      opt_pattern_fits author = true -> opt_pattern_fits title = true ->
      exists rows, fst outcome = Returns rows)
  /\ (forall rows,
         fst outcome = Returns rows ->
         (forall b, In b rows ->
                    In b (books db)
                    /\ Book.owner_id b = User.id current_user)
         /\ Sorted newer_or_same rows
         /\ NoDup (map Book.id rows)
         /\ (0 <= limit_ -> len rows <= limit_))
  /\ ((forall b, In b (books db) ->
                 Book.owner_id b <> User.id current_user) ->
      int64 limit_ && int64 skip = true ->
      fst outcome = Returns []).
Proof.
  intros ND outcome. unfold outcome; clear outcome.
  rewrite run_get_my_books.
  split; [|split; [|split; [|split]]].
  - destruct (int64 limit_ && int64 skip); [|reflexivity].
    destruct (where_rows _ (books db)); reflexivity.
  - intros ->; reflexivity.
  - intros -> Fa Ft.
    rewrite (@where_rows_returns _
               (my_books_where current_user author title)
               (my_books_keep current_user author title))
      by (intros b _; apply my_books_where_fits; assumption).
    eexists; reflexivity.
  - intros rows.
    destruct (int64 limit_ && int64 skip); [|discriminate].
    destruct (where_rows (my_books_where current_user author title)
                (books db)) as [kept|e] eqn:W; [|discriminate].
    cbn [fst]; intros [= <-].
    apply where_rows_filter in W.
    set (keep := fun b => match my_books_where current_user author title b with
                          | Returns k => k
                          | Raises _ => false
                          end) in W.
    assert (Hkeep : forall b, keep b = true ->
                              Book.owner_id b = User.id current_user).
    { intros b Hb; unfold keep in Hb.
      destruct (my_books_where current_user author title b) as [k|e] eqn:E;
        [|discriminate].
      rewrite Hb in E; exact (my_books_where_true _ _ _ _ E). }
    rewrite W. split; [|split; [|split]].
    + intros b Hb. apply in_limit in Hb. unfold offset in Hb.
      apply in_skipn in Hb.
      apply (Permutation_in b (Permutation_sym (order_by_perm _))) in Hb.
      apply filter_In in Hb; destruct Hb as [Hb Hk].
      split; [exact Hb | exact (Hkeep b Hk)].
    + apply limit_sorted. unfold offset. apply skipn_sorted, order_by_sorted.
    + assert (NDall : NoDup (map Book.id
                 (order_by_created_at_desc (filter keep (books db))))).
      { apply (Permutation_NoDup
                 (Permutation_map Book.id
                    (order_by_perm (filter keep (books db))))).
        apply NoDup_map_filter; exact ND. }
      unfold limit, offset. destruct (limit_ <? 0).
      * rewrite <- skipn_map; apply NoDup_skipn; exact NDall.
      * rewrite <- firstn_map, <- skipn_map.
        apply NoDup_firstn, NoDup_skipn; exact NDall.
    + intros Hlimit. unfold limit, len.
      destruct (Z.ltb_spec limit_ 0); [lia|].
      pose proof (firstn_le_length (Z.to_nat limit_)
                    (offset skip
                       (order_by_created_at_desc (filter keep (books db))))).
      lia.
  - intros Hnone ->.
    rewrite (@where_rows_returns _
               (my_books_where current_user author title) (fun _ => false))
      by (intros b Hb; apply my_books_where_owner, Hnone, Hb).
    rewrite filter_none by reflexivity.
    cbn [fst order_by_created_at_desc fold_right].
    unfold limit, offset; rewrite skipn_nil, firstn_nil.
    destruct (limit_ <? 0); reflexivity.
Qed.

Lemma run_unfiltered_listing (db : DB) (u : User.t) :
  run_request (get_my_books u 0 (-1) None None) db
  = (Returns (order_by_created_at_desc
                (filter (fun b => Book.owner_id b =? User.id u) (books db))),
     db).
Proof.
  rewrite run_get_my_books.
  change (int64 (-1) && int64 0) with true. cbv iota.
  rewrite (@where_rows_returns _ (my_books_where u None None)
             (fun b => Book.owner_id b =? User.id u))
    by (intros b _; apply my_books_where_unfiltered).
  reflexivity.
Qed.

(** X14. After POST /books the caller's unfiltered, unlimited listing is
    the earlier listing with the new book added, and the listing of every
    other user -- whatever the parameters -- is what it was. *)
Theorem add_book_shows_in_own_listing_only
    (db : DB) (book_data : BookCreate.t) (current_user : User.t) (now : Z) :
  let book := added_book db book_data current_user now in
  let db' := snd (run_request (add_book book_data current_user now) db) in
  (exists rows rows',
      fst (run_request (get_my_books current_user 0 (-1) None None) db)
      = Returns rows
      /\ fst (run_request (get_my_books current_user 0 (-1) None None) db')
         = Returns rows'
      /\ Permutation rows' (book :: rows))
  /\ (forall other skip limit_ author title,
         User.id other <> User.id current_user ->
         fst (run_request (get_my_books other skip limit_ author title) db')
         = fst (run_request (get_my_books other skip limit_ author title) db)).
Proof.
  intros book db'. unfold db'. rewrite run_add_book. cbn [snd].
  fold book. split.
  - rewrite !run_unfiltered_listing. cbn [fst books].
    eexists; eexists. split; [reflexivity|]. split; [reflexivity|].
    rewrite filter_app. cbn [filter].
    cbn [book added_book Book.owner_id]. rewrite Z.eqb_refl.
    fold book.
    rewrite <- (order_by_perm (filter _ (books db) ++ [book])).
    rewrite <- (order_by_perm (filter _ (books db))).
    rewrite Permutation_app_comm. reflexivity.
  - intros other skip limit_ author title Hother.
    rewrite !run_get_my_books. cbn [books].
    rewrite where_rows_snoc.
    + destruct (int64 limit_ && int64 skip); [|reflexivity].
      destruct (where_rows _ (books db)); reflexivity.
    + apply my_books_where_owner.
      cbn [book added_book Book.owner_id].
      intros Heq; apply Hother; symmetry; exact Heq.
Qed.

Lemma sql_lower_upper (c : Z) : sql_lower (ascii_upper c) = sql_lower c.
Proof.
  unfold sql_lower, ascii_upper.
  destruct (Z.leb_spec 97 c); destruct (Z.leb_spec c 122); cbn [andb];
    repeat match goal with
           | |- context [?a <=? ?b] => destruct (Z.leb_spec a b)
           end; cbn [andb]; lia.
Qed.

Lemma map_lower_upper (s : pystr) :
  map sql_lower (map ascii_upper s) = map sql_lower s.
Proof.
  rewrite map_map; apply map_ext; exact sql_lower_upper.
Qed.

Lemma utf8_len_app (a b : pystr) :
  utf8_len (a ++ b) = utf8_len a + utf8_len b.
Proof.
  unfold utf8_len; induction a as [|c a IH]; cbn [app fold_right];
    [reflexivity | rewrite IH; lia].
Qed.

Lemma utf8_len_upper (s : pystr) : utf8_len (map ascii_upper s) = utf8_len s.
Proof.
  unfold utf8_len; induction s as [|c s IH]; [reflexivity|].
  cbn [map fold_right]; rewrite IH; f_equal.
  unfold utf8_width, ascii_upper.
  destruct (Z.leb_spec 97 c); destruct (Z.leb_spec c 122); cbn [andb];
    try reflexivity.
  repeat match goal with
         | |- context [?a <? ?b] => destruct (Z.ltb_spec a b)
         end; lia.
Qed.

(** X15. The author and title filters of GET /books ignore ASCII case on
    both sides: writing the parameter, or the stored author or title, in
    ASCII upper case selects the same rows. *)
Theorem ilike_ignores_ascii_case (column parameter : pystr) :
  ilike column (like_contains (map ascii_upper parameter))
  = ilike column (like_contains parameter)
  /\ ilike (map ascii_upper column) (like_contains parameter)
     = ilike column (like_contains parameter)
  /\ (forall current_user skip limit_ title s,
         get_my_books current_user skip limit_
                      (Some (map ascii_upper parameter)) title s
         = get_my_books current_user skip limit_ (Some parameter) title s)
  /\ (forall current_user skip limit_ author s,
         get_my_books current_user skip limit_ author
                      (Some (map ascii_upper parameter)) s
         = get_my_books current_user skip limit_ author (Some parameter) s).
Proof.
  assert (Hp : forall col,
             ilike col (like_contains (map ascii_upper parameter))
             = ilike col (like_contains parameter)).
  { intros col. unfold ilike, like_contains. cbn [map].
    rewrite !map_app, map_lower_upper. reflexivity. }
  assert (Ht : truthy (map ascii_upper parameter) = truthy parameter)
    by (destruct parameter; reflexivity).
  assert (Hl : utf8_len (like_contains (map ascii_upper parameter))
               = utf8_len (like_contains parameter)).
  { unfold like_contains. cbn [utf8_len fold_right].
    fold (utf8_len (map ascii_upper parameter ++ [percent])).
    fold (utf8_len (parameter ++ [percent])).
    rewrite !utf8_len_app, utf8_len_upper; reflexivity. }
  assert (Hs : forall col,
             sql_ilike col (like_contains (map ascii_upper parameter))
             = sql_ilike col (like_contains parameter))
    by (intros col; unfold sql_ilike; rewrite Hl, Hp; reflexivity).
  split; [apply Hp|]. split.
  - unfold ilike; rewrite map_lower_upper; reflexivity.
  - assert (Ha : forall u title b,
               my_books_where u (Some (map ascii_upper parameter)) title b
               = my_books_where u (Some parameter) title b)
      by (intros; unfold my_books_where; rewrite Ht, Hs; reflexivity).
    assert (Hb : forall u author b,
               my_books_where u author (Some (map ascii_upper parameter)) b
               = my_books_where u author (Some parameter) b)
      by (intros; unfold my_books_where; rewrite Ht, Hs; reflexivity).
    split; intros; rewrite !get_my_books_eq; unfold bind;
      destruct (bind_int limit_ s) as [[u0|e] s1]; try reflexivity;
      destruct (bind_int skip s1) as [[u1|e1] s2]; try reflexivity;
      unfold select_books_where;
      [ rewrite (where_rows_ext _ _ (books (view s2)) (Ha current_user title))
      | rewrite (where_rows_ext _ _ (books (view s2))
                   (Hb current_user author)) ];
      reflexivity.
Qed.

(** X16. GET /me/profile leaves the store unchanged and returns the
    caller's public fields with the same books, in the same order, as an
    unfiltered and unlimited GET /books; [books_count] is the length of
    that list, which holds each book the caller owns once. *)
Theorem full_profile_lists_own_books (db : DB) (current_user : User.t) :
  exists rows,
    run_request (get_my_books current_user 0 (-1) None None) db
    = (Returns rows, db)
    /\ run_request (get_my_full_profile current_user) db
       = (Returns (UserProfileResponse.mk
                     (UserResponse.from_orm current_user)
                     (len rows) (map BookResponse.from_orm rows)), db)
    /\ Permutation rows
         (filter (fun b => Book.owner_id b =? User.id current_user)
                 (books db))
    /\ Sorted newer_or_same rows.
Proof.
  exists (order_by_created_at_desc
            (filter (fun b => Book.owner_id b =? User.id current_user)
                    (books db))).
  split; [|split; [reflexivity|split]].
  - apply run_unfiltered_listing.
  - symmetry; apply order_by_perm.
  - apply order_by_sorted.
Qed.

(** *** Profile update *)

Lemma replace_user_split (u u' : User.t) (l1 l2 : list User.t) :
  User.id u' = User.id u ->
  NoDup (map User.id (l1 ++ u :: l2)) ->
  replace_user u' (l1 ++ u :: l2) = l1 ++ u' :: l2.
Proof.
  intros Hid ND. unfold replace_user. rewrite map_app; cbn [map].
  rewrite Hid, Z.eqb_refl.
  rewrite map_app in ND; cbn [map] in ND.
  pose proof (NoDup_remove_2 _ _ _ ND) as Hnot.
  assert (Hkeep : forall l, (forall x, In x l -> In (User.id x)
                     (map User.id l1 ++ map User.id l2)) ->
            map (fun x => if User.id x =? User.id u then u' else x) l = l).
  { intros l Hl. rewrite <- (map_id l) at 2. apply map_ext_in; intros x Hx.
    destruct (Z.eqb_spec (User.id x) (User.id u)) as [E|E]; [|reflexivity].
    exfalso; apply Hnot; rewrite <- E; apply Hl; exact Hx. }
  rewrite (Hkeep l1), (Hkeep l2); [reflexivity| |].
  - intros x Hx; apply in_or_app; right; apply in_map; exact Hx.
  - intros x Hx; apply in_or_app; left; apply in_map; exact Hx.
Qed.

Lemma NoDup_remove_middle {A} (l1 m l2 : list A) :
  NoDup (l1 ++ m ++ l2) -> NoDup (l1 ++ l2).
Proof.
  induction m as [|x m IH]; intros ND; [exact ND|].
  apply IH. cbn [app] in ND. exact (NoDup_remove_1 _ _ _ ND).
Qed.

Lemma emails_of_app (l1 l2 : list User.t) :
  emails_of (l1 ++ l2) = emails_of l1 ++ emails_of l2.
Proof. unfold emails_of; apply flat_map_app. Qed.

Lemma wf_after_replace_user (db : DB) (u u' : User.t) :
  db_wf db -> In u (users db) ->
  User.id u' = User.id u -> User.username u' = User.username u ->
  (User.email u' = User.email u
   \/ exists e, User.email u' = Some e
                /\ forall x, In x (users db) -> User.email x <> Some e) ->
  db_wf (mkDB (replace_user u' (users db)) (books db)).
Proof.
  intros WF Hin Hid Hname Hemail.
  destruct (in_split _ _ Hin) as (l1 & l2 & Hsplit).
  pose proof (wf_user_ids WF) as NDid.
  pose proof (wf_usernames WF) as NDname.
  pose proof (wf_emails WF) as NDemail.
  rewrite Hsplit in NDid, NDname, NDemail.
  assert (Hrep : replace_user u' (users db) = l1 ++ u' :: l2)
    by (rewrite Hsplit; apply replace_user_split; assumption).
  split; cbn [users books]; rewrite ?Hrep.
  - rewrite map_app in *; cbn [map] in *. rewrite Hid; exact NDid.
  - rewrite map_app in *; cbn [map] in *. rewrite Hname; exact NDname.
  - change (u :: l2) with ([u] ++ l2) in NDemail.
    change (u' :: l2) with ([u'] ++ l2).
    rewrite !emails_of_app in *.
    destruct Hemail as [Hsame | (e & He & Hfree)].
    + unfold emails_of at 2; unfold emails_of at 2 in NDemail.
      cbn [flat_map] in *. rewrite Hsame; exact NDemail.
    + apply NoDup_remove_middle in NDemail.
      unfold emails_of at 2; cbn [flat_map]; rewrite He; cbn [app].
      apply (Permutation_NoDup (Permutation_middle _ _ e)).
      constructor; [|exact NDemail].
      intros Hbad. apply in_app_or in Hbad.
      assert (Hx : exists x, In x (users db) /\ User.email x = Some e).
      { destruct Hbad as [Hbad|Hbad]; apply emails_of_in in Hbad;
          destruct Hbad as (x & Hx & Hxe); exists x; (split; [|exact Hxe]);
          rewrite Hsplit; apply in_or_app; [left | right; right]; exact Hx. }
      destruct Hx as (x & Hx & Hxe); exact (Hfree x Hx Hxe).
  - exact (wf_book_ids WF).
Qed.

Lemma filter_nil_all {A} (p : A -> bool) (l : list A) (x : A) :
  filter p l = [] -> In x l -> p x = false.
Proof.
  intros Hf Hin. destruct (p x) eqn:E; [|reflexivity].
  assert (Hx : In x (filter p l)) by (apply filter_In; split; assumption).
  rewrite Hf in Hx; destruct Hx.
Qed.

Ltac profile_done ud u' :=
  cbn;
  match goal with
  | |- context [filter ?f (map ?g ?l)] => destruct (filter f (map g l))
  end;
  right; exists u'; (split; [reflexivity|]);
  destruct (UserUpdate.full_name ud); cbn.

Ltac profile_tail ud salt a :=
  let fn := constr:(match UserUpdate.full_name ud with
                    | Some n => User.set_full_name (Some n) a
                    | None => a
                    end) in
  cbn;
  destruct (UserUpdate.password ud) as [p|];
  [destruct (truthy p);
   [let h := fresh "h" in
    destruct (hash_password p salt) as [h|err];
    [profile_done ud (User.set_hashed_password h fn) | left; reflexivity]
   |profile_done ud fn]
  |profile_done ud fn].

Lemma update_my_profile_store (db : DB) (update_data : UserUpdate.t)
    (u : User.t) (salt : Salt) :
  snd (run_request (update_my_profile update_data u salt) db) = db
  \/ exists u',
       snd (run_request (update_my_profile update_data u salt) db)
       = mkDB (replace_user u' (users db)) (books db)
       /\ User.id u' = User.id u /\ User.username u' = User.username u
       /\ (User.email u' = User.email u
           \/ exists e, User.email u' = Some e
                        /\ forall x, In x (users db) ->
                                     User.email x <> Some e).
Proof.
  unfold run_request, update_my_profile, bind, select_users,
    scalar_one_or_none, lift, update_user_row, commit, refresh_user, ret,
    raise, replace_user.
  cbn [view store users books].
  destruct (UserUpdate.email update_data) as [e|].
  - destruct (truthy e && negb (opt_str_eqb (Some e) (User.email u))).
    + cbn [view users].
      destruct (filter (fun u0 => opt_str_eqb (User.email u0) (Some e))
                       (users db)) as [|x [|y l]] eqn:Hf;
        [|left; reflexivity|left; reflexivity].
      assert (Hfree : forall x, In x (users db) -> User.email x <> Some e).
      { intros x Hx Hxe.
        pose proof (filter_nil_all _ _ x Hf Hx) as Hb. cbn beta in Hb.
        rewrite Hxe in Hb; cbn [opt_str_eqb] in Hb.
        rewrite str_eqb_refl in Hb; discriminate. }
      profile_tail update_data salt (User.set_email (Some e) u);
        (split; [reflexivity|split; [reflexivity|]]);
        right; exists e; (split; [reflexivity | exact Hfree]).
    + profile_tail update_data salt u;
        (split; [reflexivity|split; [reflexivity|]]); left; reflexivity.
  - profile_tail update_data salt u;
      (split; [reflexivity|split; [reflexivity|]]); left; reflexivity.
Qed.

(** X17. Whatever its outcome, PUT /me by a user of the store leaves a
    store that meets the schema's constraints, with the same books. *)
Theorem update_my_profile_keeps_schema_constraints
    (db : DB) (update_data : UserUpdate.t) (current_user : User.t)
    (salt : Salt) :
  db_wf db -> In current_user (users db) ->
  let db' :=
    snd (run_request (update_my_profile update_data current_user salt) db) in
  db_wf db' /\ books db' = books db
  /\ map User.id (users db') = map User.id (users db)
  /\ map User.username (users db') = map User.username (users db).
Proof.
  intros WF Hin db'. unfold db'.
  destruct (update_my_profile_store db update_data current_user salt)
    as [-> | (u' & -> & Hid & Hname & Hemail)].
  - split; [exact WF|]. split; [reflexivity|]. split; reflexivity.
  - split; [apply (@wf_after_replace_user db current_user u'); assumption|].
    split; [reflexivity|]. cbn [users].
    unfold replace_user; rewrite !map_map. split; apply map_ext_in; intros x Hx.
    + destruct (Z.eqb_spec (User.id x) (User.id u')) as [E|E];
        [symmetry; exact E | reflexivity].
    + destruct (Z.eqb_spec (User.id x) (User.id u')) as [E|E];
        [|reflexivity].
      rewrite Hname. f_equal.
      apply (unique_key_inj User.id (users db) current_user x
               (wf_user_ids WF) Hin Hx).
      rewrite E, Hid; reflexivity.
Qed.

Lemma set_email_same (u : User.t) (e : option pystr) :
  User.email u = e -> User.set_email e u = u.
Proof. destruct u; cbn; intros ->; reflexivity. Qed.

Lemma nonempty_truthy (s : pystr) : s <> [] -> truthy s = true.
Proof. destruct s; [congruence | reflexivity]. Qed.

Lemma profile_rest (db : DB) (fn pw : option pystr) (u a : User.t)
    (salt : Salt) (h : pystr) :
  In u (users db) -> User.id a = User.id u ->
  (forall p, pw = Some p -> p <> [] -> hash_password p salt = Returns h) ->
  let u2 := match fn with
            | Some n => User.set_full_name (Some n) a
            | None => a
            end in
  let u3 := match pw with
            | Some p => if truthy p then User.set_hashed_password h u2 else u2
            | None => u2
            end in
  (let (r, s) :=
     bind (match pw with
           | Some p =>
               if truthy p then
                 h <- lift (hash_password p salt);;
                 ret (User.set_hashed_password h u2)
               else ret u2
           | None => ret u2
           end)
          (fun current_user =>
             update_user_row current_user;;; commit;;;
             refresh_user current_user)
          (mkSession db db) in
   (r, store s))
  = (Returns u3, mkDB (replace_user u3 (users db)) (books db)).
Proof.
  intros Hin Hid Hhash u2 u3.
  assert (Hid3 : User.id u3 = User.id u).
  { unfold u3, u2. destruct pw as [p|]; [destruct (truthy p)|];
      destruct fn; exact Hid. }
  assert (Hfirst :
    (match pw with
     | Some p =>
         if truthy p then
           h <- lift (hash_password p salt);;
           ret (User.set_hashed_password h u2)
         else ret u2
     | None => ret u2
     end) (mkSession db db) = (Returns u3, mkSession db db)).
  { unfold u3. destruct pw as [[|c p]|]; try reflexivity.
    cbn [truthy]. unfold bind, lift.
    rewrite (Hhash (c :: p) eq_refl) by discriminate. reflexivity. }
  unfold bind at 1. rewrite Hfirst.
  unfold bind, update_user_row, commit, refresh_user.
  cbn [view store users books]. fold (replace_user u3 (users db)).
  destruct (refresh_after_update_user u3 (users db)) as [r Hr].
  { exists u; split; [exact Hin | symmetry; exact Hid3]. }
  fold (replace_user u3 (users db)) in Hr. rewrite Hr. reflexivity.
Qed.

Lemma run_update_my_profile (db : DB) (update_data : UserUpdate.t)
    (u : User.t) (salt : Salt) (h : pystr) :
  In u (users db) ->
  (forall e, UserUpdate.email update_data = Some e -> e <> [] ->
             User.email u <> Some e ->
             forall x, In x (users db) -> User.email x <> Some e) ->
  (forall p, UserUpdate.password update_data = Some p -> p <> [] ->
             hash_password p salt = Returns h) ->
  run_request (update_my_profile update_data u salt) db
  = (Returns (profile_after update_data h u),
     mkDB (replace_user (profile_after update_data h u) (users db))
          (books db)).
Proof.
  intros Hin Hemail Hhash.
  destruct update_data as [em fn pw].
  cbn [UserUpdate.email UserUpdate.password] in Hemail, Hhash.
  unfold run_request, update_my_profile, profile_after.
  cbn [UserUpdate.email UserUpdate.full_name UserUpdate.password].
  set (a := match em with
            | Some e => if truthy e then User.set_email (Some e) u else u
            | None => u
            end).
  assert (Hid : User.id a = User.id u)
    by (unfold a; destruct em as [e|]; [destruct (truthy e)|]; reflexivity).
  match goal with
  | |- (let (r, s) := bind ?E ?K ?S in _) = _ =>
      assert (He : E S = (Returns a, S))
  end.
  { unfold a. destruct em as [[|c e]|]; try reflexivity.
    cbn [truthy andb].
    match goal with |- context [negb ?b] => destruct b eqn:E end;
      cbn [negb].
    - assert (Hsame : User.email u = Some (c :: e)).
      { destruct (User.email u) as [x|]; cbn [opt_str_eqb] in E;
          [|discriminate].
        apply str_eqb_eq in E; rewrite E; reflexivity. }
      unfold ret. erewrite set_email_same; [reflexivity | exact Hsame].
    - unfold bind, select_users, scalar_one_or_none. cbn [view users].
      rewrite filter_none; [reflexivity|].
      intros x Hx.
      match goal with
      | |- ?b = false => destruct b eqn:Ex; [|reflexivity]
      end.
      apply opt_str_eqb_some in Ex. exfalso.
      refine (Hemail (c :: e) eq_refl _ _ x Hx Ex); [discriminate|].
      intros Hu; rewrite Hu in E; cbn [opt_str_eqb] in E.
      rewrite str_eqb_refl in E; discriminate. }
  unfold bind at 1. rewrite He.
  exact (@profile_rest db fn pw u a salt h Hin Hid Hhash).
Qed.

Lemma replace_user_same (u : User.t) (us : list User.t) :
  NoDup (map User.id us) -> In u us -> replace_user u us = us.
Proof.
  intros ND Hin. unfold replace_user.
  rewrite <- (map_id us) at 2. apply map_ext_in; intros x Hx.
  destruct (Z.eqb_spec (User.id x) (User.id u)) as [E|E]; [|reflexivity].
  symmetry; exact (unique_key_inj User.id us x u ND Hx Hin E).
Qed.

Lemma in_replace_user (u' x : User.t) (us : list User.t) :
  In x us -> User.id x <> User.id u' -> In x (replace_user u' us).
Proof.
  intros Hin Hne; unfold replace_user; apply in_map_iff.
  exists x; split; [|exact Hin].
  apply Z.eqb_neq in Hne; rewrite Hne; reflexivity.
Qed.

Lemma in_replace_user_self (u u' : User.t) (us : list User.t) :
  In u us -> User.id u' = User.id u -> In u' (replace_user u' us).
Proof.
  intros Hin Hid; unfold replace_user; apply in_map_iff.
  exists u; split; [|exact Hin]. rewrite Hid, Z.eqb_refl; reflexivity.
Qed.

Lemma profile_after_keys (update_data : UserUpdate.t) (h : pystr)
    (u : User.t) :
  User.id (profile_after update_data h u) = User.id u
  /\ User.username (profile_after update_data h u) = User.username u
  /\ User.created_at (profile_after update_data h u) = User.created_at u.
Proof.
  unfold profile_after.
  destruct (UserUpdate.email update_data) as [e|]; [destruct (truthy e)|];
    destruct (UserUpdate.full_name update_data) as [n0|];
    (destruct (UserUpdate.password update_data) as [p|];
     [destruct (truthy p)|]); repeat split.
Qed.

(** X18. A PUT /me that meets no conflict assigns exactly the supplied
    fields: a supplied address, full name or password (stored as its hash)
    replaces the old one and a field that is not supplied keeps its value;
    the id, the username and the creation time never change, every other
    user and every book is kept, and a payload with no field leaves the
    store as it was. *)
Theorem update_my_profile_assigns_supplied_fields
    (db : DB) (update_data : UserUpdate.t) (current_user : User.t)
    (salt : Salt) (h : pystr) :
  NoDup (map User.id (users db)) ->
  In current_user (users db) ->
  (forall e, UserUpdate.email update_data = Some e -> e <> [] ->
             User.email current_user <> Some e ->
             forall x, In x (users db) -> User.email x <> Some e) ->
  (forall p, UserUpdate.password update_data = Some p -> p <> [] ->
             hash_password p salt = Returns h) ->
  let user' := profile_after update_data h current_user in
  let db' := mkDB (replace_user user' (users db)) (books db) in
  run_request (update_my_profile update_data current_user salt) db
  = (Returns user', db')
  /\ In user' (users db')
  /\ User.id user' = User.id current_user
  /\ User.username user' = User.username current_user
  /\ User.created_at user' = User.created_at current_user
  /\ (forall e, UserUpdate.email update_data = Some e -> e <> [] ->
                User.email user' = Some e)
  /\ (UserUpdate.email update_data = None ->
      User.email user' = User.email current_user)
  /\ (forall n, UserUpdate.full_name update_data = Some n ->
                User.full_name user' = Some n)
  /\ (UserUpdate.full_name update_data = None ->
      User.full_name user' = User.full_name current_user)
  /\ (forall p, UserUpdate.password update_data = Some p -> p <> [] ->
                User.hashed_password user' = h)
  /\ (UserUpdate.password update_data = None ->
      User.hashed_password user' = User.hashed_password current_user)
  /\ (forall x, In x (users db) -> x <> current_user -> In x (users db'))
  /\ (update_data = UserUpdate.mk None None None -> db' = db).
Proof.
  intros ND Hin Hemail Hhash user' db'.
  destruct (profile_after_keys update_data h current_user)
    as (Hid & Hname & Hcreated).
  split; [apply run_update_my_profile; assumption|].
  split; [exact (@in_replace_user_self current_user _ (users db) Hin Hid)|].
  split; [exact Hid|]. split; [exact Hname|]. split; [exact Hcreated|].
  unfold db', user', profile_after.
  split; [|split; [|split; [|split; [|split; [|split; [|split]]]]]].
  - intros e He Hne. rewrite He, (nonempty_truthy Hne).
    destruct (UserUpdate.full_name update_data) as [n0|];
      (destruct (UserUpdate.password update_data) as [p|];
       [destruct (truthy p)|]); reflexivity.
  - intros He. rewrite He.
    destruct (UserUpdate.full_name update_data) as [n0|];
      (destruct (UserUpdate.password update_data) as [p|];
       [destruct (truthy p)|]); reflexivity.
  - intros n Hn. rewrite Hn.
    destruct (UserUpdate.password update_data) as [p|];
      [destruct (truthy p)|]; reflexivity.
  - intros Hn. rewrite Hn.
    destruct (UserUpdate.email update_data) as [e|]; [destruct (truthy e)|];
      (destruct (UserUpdate.password update_data) as [p|];
       [destruct (truthy p)|]); reflexivity.
  - intros p Hp Hne. rewrite Hp, (nonempty_truthy Hne). reflexivity.
  - intros Hp. rewrite Hp.
    destruct (UserUpdate.email update_data) as [e|]; [destruct (truthy e)|];
      destruct (UserUpdate.full_name update_data) as [n0|]; reflexivity.
  - intros x Hx Hne. apply in_replace_user; [exact Hx|].
    fold (profile_after update_data h current_user). rewrite Hid.
    intros Heq; apply Hne.
    exact (unique_key_inj User.id (users db) x current_user ND Hx Hin Heq).
  - intros ->. cbn. fold (replace_user current_user (users db)).
    rewrite (@replace_user_same current_user (users db) ND Hin). destruct db; reflexivity.
Qed.

(** X19. After PUT /me has changed the password, the new password logs
    in, and so does every password whose encoding has the same first 72
    bytes; a password that does not verify against the new hash --
    whatever it did against the old one -- is refused with 401. *)
Theorem change_password_then_login
    (db : DB) (current_user : User.t) (p : pystr) (pb : bytes)
    (salt : Salt) :
  bcrypt_contract -> jws_contract -> db_wf db ->
  In current_user (users db) ->
  p <> [] -> encode_utf8 p = Returns pb ->
  exists h db',
    run_request
      (update_my_profile (UserUpdate.mk None None (Some p)) current_user
                         salt) db
    = (Returns (User.set_hashed_password h current_user), db')
    /\ db_wf db'
    /\ hash_password p salt = Returns h
    /\ (forall now,
           exists token,
             run_request (login (User.username current_user) p now) db'
             = (Returns (TokenResponse.mk token "bearer"), db'))
    /\ (forall p' pb' now,
           encode_utf8 p' = Returns pb' ->
           firstn 72 pb' = firstn 72 pb ->
           exists token,
             run_request (login (User.username current_user) p' now) db'
             = (Returns (TokenResponse.mk token "bearer"), db'))
    /\ (forall old now,
           verify_password old h = false ->
           run_request (login (User.username current_user) old now) db'
           = (Raises (HTTPException 401 "Invalid username or password"),
              db')).
Proof.
  intros HB HJ WF Hin Hne Hp.
  destruct (@hash_password_encoded p pb salt HB Hp)
    as (h & Hhash & Hh & Hascii & _).
  set (ud := UserUpdate.mk None None (Some p)).
  set (user' := User.set_hashed_password h current_user).
  set (db' := mkDB (replace_user user' (users db)) (books db)).
  assert (Hafter : profile_after ud h current_user = user')
    by (unfold profile_after, ud; cbn; rewrite (nonempty_truthy Hne);
        reflexivity).
  assert (WF' : db_wf db').
  { apply (@wf_after_replace_user db current_user user'); auto. }
  assert (Hin' : In user' (users db'))
    by (exact (@in_replace_user_self current_user user' (users db) Hin
               eq_refl)).
  assert (Hbytes : forallb is_byte pb = true)
    by (exact (encode_utf8_bytes _ Hp)).
  assert (Hlogin : forall p' pb' now,
             encode_utf8 p' = Returns pb' ->
             firstn 72 pb' = firstn 72 pb ->
             exists token,
               run_request (login (User.username current_user) p' now) db'
               = (Returns (TokenResponse.mk token "bearer"), db')).
  { intros p' pb' now Hp' Heq.
    destruct (issued_token (User.username current_user) now HJ)
      as (token & Htoken & _).
    exists token.
    change (User.username current_user) with (User.username user').
    rewrite run_login, (select_by_username _ _ (wf_usernames WF') Hin').
    change (User.hashed_password user') with h.
    rewrite (@verify_password_same_prefix p' pb' pb h salt HB Hbytes Hh
               Hascii Hp' Heq).
    change (User.username user') with (User.username current_user).
    rewrite Htoken; reflexivity. }
  exists h, db'.
  split; [|split; [exact WF'|split; [exact Hhash|split; [|split]]]].
  - rewrite (@run_update_my_profile db ud current_user salt h Hin).
    + rewrite Hafter; reflexivity.
    + intros e [=].
    + intros q [= <-] _; exact Hhash.
  - intros now. exact (Hlogin p pb now Hp eq_refl).
  - exact Hlogin.
  - intros old now Hold.
    change (User.username current_user) with (User.username user').
    rewrite run_login, (select_by_username _ _ (wf_usernames WF') Hin').
    change (User.hashed_password user') with h.
    rewrite Hold; reflexivity.
Qed.

(** *** Routes: the dependency and the handler together *)

Lemma run_then_ret {A B} (m : M A) (f : A -> B) (db : DB) :
  run_request (x <- m;; ret (f x)) db
  = (rmap f (fst (run_request m db)), snd (run_request m db)).
Proof.
  unfold run_request, bind, ret.
  destruct (m (mkSession db db)) as [[a|e] s]; reflexivity.
Qed.

Lemma run_authenticated {A} (db : DB) (u : User.t) (t0 t : Z)
    (token : Token) (handler : User.t -> M A) :
  jws_contract -> NoDup (map User.username (users db)) ->
  In u (users db) -> User.username u <> [] ->
  create_access_token (User.username u) t0 = Returns token ->
  t <= t0 + 600 ->
  run_request (Depends_get_current_user token t handler) db
  = run_request (handler u) db.
Proof.
  intros HJ ND Hin Hne Htoken Ht.
  rewrite run_Depends, run_get_current_user.
  rewrite (@get_current_user_found token t (mkSession db db)
             (Claims.mk (Some (User.username u)) (Some (t0 + 600)))
             (User.username u) u); auto.
  rewrite (@verify_issued_token (User.username u) t0 t token HJ Htoken).
  destruct (Z.ltb_spec (t0 + 600) t); [lia | reflexivity].
Qed.

(** X20. With valid tokens for two users, a book's owner reads it through
    GET /books/{id}, while the other user's GET, PUT and DELETE for the
    same id are answered 404 "Book not found" and change nothing. *)
Theorem routes_hide_books_of_other_users
    (db : DB) (owner other : User.t) (book : Book.t) (t0 t : Z)
    (token_owner token_other : Token) :
  jws_contract -> db_wf db ->
  In owner (users db) -> In other (users db) ->
  User.id other <> User.id owner ->
  User.username owner <> [] -> User.username other <> [] ->
  create_access_token (User.username owner) t0 = Returns token_owner ->
  create_access_token (User.username other) t0 = Returns token_other ->
  In book (books db) -> Book.owner_id book = User.id owner ->
  t <= t0 + 600 ->
  run_request (GET_book token_owner t (Book.id book)) db
  = (Returns (BookResponse.from_orm book), db)
  /\ run_request (GET_book token_other t (Book.id book)) db
     = (Raises (HTTPException 404 "Book not found"), db)
  /\ (forall body,
         BookCreate.valid body = true ->
         run_request (PUT_book token_other t (Book.id book) body) db
         = (Raises (HTTPException 404 "Book not found"), db))
  /\ run_request (DELETE_book token_other t (Book.id book)) db
     = (Raises (HTTPException 404 "Book not found"), db).
Proof.
  intros HJ WF Hown_in Hoth_in Hdiff Hne1 Hne2 Htok1 Htok2 Hbook Hown Ht.
  pose proof (wf_usernames WF) as NDn. pose proof (wf_book_ids WF) as NDb.
  assert (Hnone : filter (owned_book (Book.id book) other) (books db) = []).
  { apply select_not_owned. intros b Hb Hid.
    rewrite (unique_key_inj Book.id (books db) b book NDb Hb Hbook Hid), Hown.
    intros Heq; apply Hdiff; symmetry; exact Heq. }
  split; [|split; [|split]].
  - unfold GET_book.
    rewrite (@run_authenticated _ db owner t0 t token_owner _ HJ NDn Hown_in
               Hne1 Htok1 Ht).
    rewrite run_then_ret, run_get_book,
      (@select_owned db _ owner book NDb Hbook eq_refl Hown).
    reflexivity.
  - unfold GET_book.
    rewrite (@run_authenticated _ db other t0 t token_other _ HJ NDn Hoth_in
               Hne2 Htok2 Ht).
    rewrite run_then_ret, run_get_book, Hnone,
      (bound_id_stored db book Hbook). reflexivity.
  - intros body Hvalid. unfold PUT_book.
    rewrite (@run_authenticated _ db other t0 t token_other _ HJ NDn Hoth_in
               Hne2 Htok2 Ht).
    rewrite Hvalid, run_then_ret, run_update_book, Hnone,
      (bound_id_stored db book Hbook). reflexivity.
  - unfold DELETE_book.
    rewrite (@run_authenticated _ db other t0 t token_other _ HJ NDn Hoth_in
               Hne2 Htok2 Ht).
    rewrite run_delete_book, Hnone, (bound_id_stored db book Hbook).
    reflexivity.
Qed.

(** X21. For an authenticated caller, POST /books and PUT /books/{id}
    answer a body that breaks a field constraint (title of 1 to 200
    characters, author of 1 to 100, year from 1000 to 2100) with a
    validation error and leave the store unchanged; a valid POST returns
    the stored book without its owner reference. *)
Theorem book_routes_validate_the_body
    (db : DB) (u : User.t) (t0 t : Z) (token : Token) (body : BookCreate.t) :
  jws_contract -> NoDup (map User.username (users db)) ->
  In u (users db) -> User.username u <> [] ->
  create_access_token (User.username u) t0 = Returns token ->
  t <= t0 + 600 ->
  (len (BookCreate.title body) < 1 \/ 200 < len (BookCreate.title body)
   \/ len (BookCreate.author body) < 1 \/ 100 < len (BookCreate.author body)
   \/ (exists y, BookCreate.year body = Some y /\ (y < 1000 \/ 2100 < y)) ->
   run_request (POST_books token body t) db
   = (Raises RequestValidationError, db)
   /\ forall book_id,
        run_request (PUT_book token t book_id body) db
        = (Raises RequestValidationError, db))
  /\ (BookCreate.valid body = true ->
      run_request (POST_books token body t) db
      = (Returns (BookResponse.from_orm (added_book db body u t)),
         mkDB (users db) (books db ++ [added_book db body u t]))).
Proof.
  intros HJ ND Hin Hne Htoken Ht. split.
  - intros Hbad.
    assert (Hinvalid : BookCreate.valid body = false).
    { unfold BookCreate.valid.
      destruct Hbad as [H|[H|[H|[H|(y & Hy & H)]]]].
      - destruct (Z.leb_spec 1 (len (BookCreate.title body))); [lia|].
        reflexivity.
      - destruct (Z.leb_spec (len (BookCreate.title body)) 200); [lia|].
        rewrite andb_false_r; reflexivity.
      - destruct (Z.leb_spec 1 (len (BookCreate.author body))); [lia|].
        rewrite andb_false_r; reflexivity.
      - destruct (Z.leb_spec (len (BookCreate.author body)) 100); [lia|].
        rewrite !andb_false_r; reflexivity.
      - rewrite Hy.
        destruct (Z.leb_spec 1000 y); destruct (Z.leb_spec y 2100);
          try lia; rewrite ?andb_false_r; reflexivity. }
    split; [|intros book_id]; unfold POST_books, PUT_book;
      rewrite (@run_authenticated _ db u t0 t token _ HJ ND Hin Hne Htoken
                 Ht), Hinvalid; reflexivity.
  - intros Hvalid. unfold POST_books.
    rewrite (@run_authenticated _ db u t0 t token _ HJ ND Hin Hne Htoken Ht).
    rewrite Hvalid, run_then_ret, run_add_book. reflexivity.
Qed.

(** *** The startup hook *)

(** X22. The startup hook is idempotent and leaves a store in which both
    tables exist; run on such a store it changes nothing. *)
Theorem startup_is_idempotent (st : Storage) :
  startup (startup st) = startup st
  /\ (exists us bs, startup st = mkStorage (Some us) (Some bs))
  /\ create_tables (startup st) = startup st.
Proof.
  destruct st as [[us|] [bs|]]; (split; [reflexivity|]);
    (split; [|reflexivity]); eexists; eexists; reflexivity.
Qed.

End App.

(** ** The sample primitives meet the contracts *)

Lemma hex_ascii (bs : bytes) :
  forallb is_byte bs = true -> forallb is_ascii (Toy.hex bs) = true.
Proof.
  induction bs as [|b bs IH]; intros H; [reflexivity|].
  cbn [forallb] in H; apply andb_true_iff in H; destruct H as [Hb Hbs].
  unfold is_byte in Hb; apply andb_true_iff in Hb.
  rewrite Z.leb_le, Z.ltb_lt in Hb.
  cbn [Toy.hex forallb]; rewrite (IH Hbs), andb_true_r.
  pose proof (Z.mod_pos_bound b 16 eq_refl).
  assert (0 <= b / 16 < 16)
    by (split; [apply Z.div_pos; lia | apply Z.div_lt_upper_bound; lia]).
  unfold is_ascii; rewrite !andb_true_iff, !Z.leb_le, !Z.ltb_lt; lia.
Qed.

Lemma hex_length (bs : bytes) :
  List.length (Toy.hex bs) = (2 * List.length bs)%nat.
Proof.
  induction bs as [|b bs IH]; [reflexivity|].
  cbn [Toy.hex List.length]; rewrite IH; lia.
Qed.

Lemma digest_ascii (pw : bytes) :
  forallb is_byte pw = true ->
  forallb is_ascii (Toy.digest pw) = true /\ len (Toy.digest pw) = 60.
Proof.
  intros H; unfold Toy.digest; split.
  - apply hex_ascii, forallb_forall. intros x Hx.
    apply in_firstn, in_app_or in Hx. destruct Hx as [Hx|Hx].
    + exact (proj1 (forallb_forall _ _) H x Hx).
    + apply repeat_spec in Hx; rewrite Hx; reflexivity.
  - unfold len. rewrite hex_length, length_firstn, length_app, repeat_length.
    lia.
Qed.

Lemma Toy_bcrypt_contract : bcrypt_contract Toy.hashpw Toy.checkpw.
Proof.
  split.
  - intros pw salt Hlen Hbytes. exists (Toy.digest pw). unfold Toy.hashpw.
    apply Z.leb_le in Hlen; rewrite Hlen, Hbytes.
    split; [reflexivity | apply digest_ascii; exact Hbytes].
  - intros pw pw' salt h h' Hlen Hbytes Hlen' Hbytes' Hh Hh'.
    unfold Toy.hashpw in Hh, Hh'. apply Z.leb_le in Hlen, Hlen'.
    rewrite Hlen, Hbytes in Hh; injection Hh as <-.
    rewrite Hlen', Hbytes' in Hh'; injection Hh' as <-.
    unfold Toy.checkpw; rewrite Hlen', Hbytes'; reflexivity.
Qed.

Lemma Toy_jws_contract : jws_contract Toy.sign Toy.verify Toy.SECRET_KEY.
Proof.
  intros claims. exists (claims, Toy.SECRET_KEY, HS256).
  split; reflexivity.
Qed.

(** ** The theorems at concrete requests *)

Ltac nodup_concrete :=
  repeat (constructor; [cbv; intuition discriminate|]); constructor.

Lemma Sample_db_wf : db_wf Sample.db.
Proof. split; nodup_concrete. Qed.



(** A token issued at time 1000 is valid at 1600 and invalid at 1601. *)
Lemma C3_witness :
  jws_contract Toy.sign Toy.verify Toy.SECRET_KEY
  /\ exists token,
       create_access_token Toy.sign Toy.SECRET_KEY (str "alice") 1000
       = Returns token
       /\ verify_jwt_token Toy.verify Toy.SECRET_KEY token 1600
          = Returns (Some (Claims.mk (Some (str "alice")) (Some 1600)))
       /\ verify_jwt_token Toy.verify Toy.SECRET_KEY token 1601
          = Returns None.
Proof.
  split; [exact Toy_jws_contract|].
  destruct (@C3_token_subject_expiry_and_invalid_sentinel Toy.Token Toy.sign
              Toy.verify Toy.SECRET_KEY (str "alice") 1000 Toy_jws_contract)
    as (token & Hcreate & _ & _ & Hvalid & Hexpired & _).
  exists token; split; [exact Hcreate|]. split.
  - apply Hvalid; lia.
  - apply Hexpired; lia.
Defined.

(** "alice" registered a second time. *)
Lemma C4_witness :
  let body := UserRegister.mk (str "alice") (str "secret2") None None in
  NoDup (map User.username (users Sample.db))
  /\ In Sample.alice (users Sample.db)
  /\ run_request
       (POST_register Toy.hashpw Toy.sign Toy.EmailStr Toy.SECRET_KEY
                      body 3000 tt) Sample.db
     = (Raises (HTTPException 400 "Username already exists"), Sample.db).
Proof.
  intros body.
  assert (ND : NoDup (map User.username (users Sample.db)))
    by nodup_concrete.
  assert (Hin : In Sample.alice (users Sample.db)) by (left; reflexivity).
  split; [exact ND|]. split; [exact Hin|].
  destruct (@C4_register_taken_username_conflict unit Toy.hashpw Toy.Token
              Toy.sign Toy.EmailStr Toy.SECRET_KEY Sample.db Sample.alice
              body 3000 tt ND Hin eq_refl) as [Hvalid _].
  exact (proj1 (Hvalid body eq_refl)).
Defined.

(** Alice asks for Bob's address. *)
Lemma C6_witness :
  let update_data :=
    UserUpdate.mk (Some (str "bob@example.org")) (Some (str "Al"))
                  (Some (str "secret3")) in
  db_wf Sample.db
  /\ run_request (update_my_profile Toy.hashpw update_data Sample.alice tt)
                 Sample.db
     = (Raises (HTTPException 400 "Email already registered"), Sample.db).
Proof.
  intros update_data. split; [exact Sample_db_wf|].
  refine (proj1 (@C6_update_profile_email_conflict unit Toy.hashpw Sample.db
                   Sample.alice Sample.bob update_data
                   (str "bob@example.org") tt Sample_db_wf _ _ _ _ _ _)).
  - left; reflexivity.
  - right; left; reflexivity.
  - discriminate.
  - reflexivity.
  - discriminate.
  - reflexivity.
Defined.

(** Alice lists her books by [author=herb]. *)
Lemma C7_witness :
  opt_wildcard_free (Some (str "herb")) = true
  /\ opt_nul_free (Some (str "herb")) = true
  /\ opt_pattern_fits (Some (str "herb")) = true
  /\ (forall b, In b (books Sample.db) ->
                nul_free (Book.author b) = true
                /\ nul_free (Book.title b) = true)
  /\ 0 <= 100 < 2 ^ 63
  /\ - 2 ^ 63 <= 0 < 2 ^ 63
  /\ run_request
       (get_my_books Sample.alice 0 100 (Some (str "herb")) None) Sample.db
     = (Returns [Sample.dune], Sample.db).
Proof.
  assert (Hdb : forall b, In b (books Sample.db) ->
                          nul_free (Book.author b) = true
                          /\ nul_free (Book.title b) = true)
    by (intros b [<-|[<-|[<-|[]]]]; split; reflexivity).
  split; [reflexivity|]. split; [reflexivity|]. split; [reflexivity|].
  split; [exact Hdb|]. split; [lia|]. split; [lia|].
  exact (proj1 (@C7_list_books_without_wildcards Sample.db Sample.alice 0 100
                  (Some (str "herb")) None eq_refl eq_refl eq_refl eq_refl
                  eq_refl eq_refl (fun b Hb _ => Hdb b Hb)
                  ltac:(lia) ltac:(lia))).
Defined.

(** Alice replaces the fields of her book 1. *)
Lemma C8_witness :
  let book_data :=
    BookCreate.mk (str "Dune Messiah") (str "Frank Herbert") None None in
  let book' :=
    Book.mk 1 (str "Dune Messiah") (str "Frank Herbert") None None 2000 1 in
  NoDup (map Book.id (books Sample.db))
  /\ run_request (update_book 1 book_data Sample.alice) Sample.db
     = (Returns book',
        mkDB (users Sample.db) [book'; Sample.emma; Sample.ubik])
  /\ exists book,
       In book (books Sample.db)
       /\ Book.owner_id book' = Book.owner_id book
       /\ Book.created_at book' = Book.created_at book.
Proof.
  intros book_data book'.
  assert (ND : NoDup (map Book.id (books Sample.db))) by nodup_concrete.
  split; [exact ND|]. split; [reflexivity|].
  destruct (@C8_update_book_replaces_fields_only Sample.db
              (mkDB (users Sample.db) [book'; Sample.emma; Sample.ubik])
              Sample.alice 1 book_data book' ND eq_refl)
    as (book & Hin & _ & _ & _ & _ & _ & _ & _ & Hown & Hcreated & _).
  exists book; auto.
Defined.

(** A password of 51 characters is refused at registration and accepted by
    the profile update. *)
Lemma C10_witness :
  let p := str "123456789012345678901234567890123456789012345678901" in
  bcrypt_contract Toy.hashpw Toy.checkpw
  /\ (forall s,
         POST_register Toy.hashpw Toy.sign Toy.EmailStr Toy.SECRET_KEY
           (UserRegister.mk (str "carol") p None None) 3000 tt s
         = (Raises RequestValidationError, s))
  /\ UserUpdate_validate Toy.EmailStr (UserUpdate.mk None None (Some p))
     <> None.
Proof.
  intros p. split; [exact Toy_bcrypt_contract|].
  destruct (@C10_password_length_register_vs_update unit Toy.hashpw
              Toy.checkpw Toy.Token Toy.sign Toy.EmailStr Toy.SECRET_KEY
              Toy_bcrypt_contract) as (Hreg & Hupd & _ & _).
  split.
  - intros s; apply Hreg; right; cbv; reflexivity.
  - apply (Hupd None None p); [discriminate | reflexivity|].
    split; [cbv; discriminate | reflexivity].
Defined.

(** ** Where the specification's wording and the program part *)

(** C5: on a store that holds rows, the startup hook returns the store as
    it is; nothing is wiped. *)
Lemma C5_counterexample :
  startup Sample.storage = Sample.storage
  /\ startup Sample.storage <> wiped
  /\ users_rows (startup Sample.storage) = Some [Sample.alice; Sample.bob]
  /\ books_rows (startup Sample.storage) = Some [Sample.dune].
Proof. repeat split; try reflexivity; discriminate. Qed.



(** C7: [author=here] does not match "Herbert"; [author=_] returns books
    whose author holds no underscore; [limit=-1] returns every book; a
    title that holds U+0000 is matched only up to it; a limit of 2^63 and
    a pattern of 50001 bytes end in an error. *)
Lemma C7_counterexample :
  let nemo := Book.mk 4 [97; 0; 98] (str "Nemo") None None 2003 1 in
  let db0 := mkDB (users Sample.db) [nemo] in
  let long := repeat 97 (Z.to_nat 49999) in
  ilike (str "Herbert") (like_contains (str "here")) = false
  /\ run_request
       (get_my_books Sample.alice 0 100 (Some (str "here")) None) Sample.db
     = (Returns [], Sample.db)
  /\ run_request
       (get_my_books Sample.alice 0 100 (Some (str "_")) None) Sample.db
     = (Returns [Sample.emma; Sample.dune], Sample.db)
  /\ spec_get_my_books Sample.db Sample.alice 0 100 (Some (str "_")) None
     = []
  /\ run_request (get_my_books Sample.alice 0 (-1) None None) Sample.db
     = (Returns [Sample.emma; Sample.dune], Sample.db)
  /\ spec_get_my_books Sample.db Sample.alice 0 (-1) None None = []
  /\ run_request (get_my_books Sample.alice 0 100 None (Some (str "b"))) db0
     = (Returns [], db0)
  /\ spec_get_my_books db0 Sample.alice 0 100 None (Some (str "b")) = [nemo]
  /\ run_request (get_my_books Sample.alice 0 (2 ^ 63) None None) Sample.db
     = (Raises OverflowError, Sample.db)
  /\ run_request (get_my_books Sample.alice (2 ^ 63) 100 None None) Sample.db
     = (Raises OverflowError, Sample.db)
  /\ wildcard_free long = true
  /\ nul_free long = true
  /\ run_request (get_my_books Sample.alice 0 100 (Some long) None) Sample.db
     = (Raises OperationalError, Sample.db).
Proof.
  intros nemo db0 long.
  repeat (split; [vm_compute; reflexivity|]); vm_compute; reflexivity.
Qed.

(** ** The further properties at concrete requests *)

Ltac free_in_sample :=
  let u := fresh "u" in
  intros u [<-|[<-|[]]]; cbv; discriminate.

(** Alice's token, issued at 1000: accepted at 1600, refused at 1601. *)
Lemma get_current_user_resolves_issued_token_witness :
  let token : Toy.Token :=
    (Claims.mk (Some (str "alice")) (Some 1600), Toy.SECRET_KEY, HS256) in
  jws_contract Toy.sign Toy.verify Toy.SECRET_KEY
  /\ NoDup (map User.username (users Sample.db))
  /\ run_request (get_current_user Toy.verify Toy.SECRET_KEY token 1600)
                 Sample.db
     = (Returns Sample.alice, Sample.db)
  /\ run_request (get_current_user Toy.verify Toy.SECRET_KEY token 1601)
                 Sample.db
     = (Raises (HTTPException 401 "Invalid token"), Sample.db).
Proof.
  intros token.
  assert (ND : NoDup (map User.username (users Sample.db)))
    by nodup_concrete.
  assert (Hne : str "alice" <> []) by (cbv; discriminate).
  destruct (@get_current_user_resolves_issued_token Toy.Token Toy.sign
              Toy.verify Toy.SECRET_KEY Sample.db (str "alice") 1000 token
              Toy_jws_contract ND Hne eq_refl) as (Hok & _ & Hexpired).
  split; [exact Toy_jws_contract|]. split; [exact ND|]. split.
  - apply Hok; [lia | left; reflexivity | reflexivity].
  - apply Hexpired; lia.
Defined.

(** A token signed with another key: DELETE /books/1 is answered 401. *)
Lemma protected_routes_require_authentication_witness :
  let token : Toy.Token :=
    (Claims.mk (Some (str "alice")) (Some 1600), str "x", HS256) in
  fst (run_request (get_current_user Toy.verify Toy.SECRET_KEY token 1200)
                   Sample.db)
  = Raises (HTTPException 401 "Invalid token")
  /\ run_request (DELETE_book Toy.verify Toy.SECRET_KEY token 1200 1)
                 Sample.db
     = (Raises (HTTPException 401 "Invalid token"), Sample.db).
Proof.
  intros token. split; [reflexivity|].
  destruct (@protected_routes_require_authentication unit Toy.hashpw
              Toy.Token Toy.verify Toy.EmailStr Toy.SECRET_KEY Sample.db
              token 1200 (HTTPException 401 "Invalid token") eq_refl)
    as (_ & _ & _ & _ & _ & _ & _ & Hdelete).
  apply Hdelete.
Defined.

(** Carol registers. *)
Lemma register_keeps_schema_constraints_witness :
  let user_data :=
    UserRegister.mk (str "carol") (str "secret3") None None in
  db_wf Sample.db
  /\ db_wf (snd (run_request
                   (register Toy.hashpw Toy.sign Toy.SECRET_KEY user_data
                             3000 tt) Sample.db)).
Proof.
  intros user_data. split; [exact Sample_db_wf|].
  exact (@register_keeps_schema_constraints unit Toy.hashpw Toy.Token
           Toy.sign Toy.SECRET_KEY Sample.db user_data 3000 tt Sample_db_wf).
Defined.

Lemma register_adds_one_verifiable_user_witness :
  let user_data :=
    UserRegister.mk (str "carol") (str "secret3") None None in
  bcrypt_contract Toy.hashpw Toy.checkpw
  /\ jws_contract Toy.sign Toy.verify Toy.SECRET_KEY
  /\ exists h token,
       run_request (register Toy.hashpw Toy.sign Toy.SECRET_KEY user_data
                             3000 tt) Sample.db
       = (Returns (TokenResponse.mk token "bearer"),
          mkDB (users Sample.db
                ++ [registered_user Sample.db user_data h 3000])
               (books Sample.db))
       /\ verify_password Toy.checkpw (str "secret3") h = true.
Proof.
  intros user_data.
  split; [exact Toy_bcrypt_contract|]. split; [exact Toy_jws_contract|].
  destruct (@register_adds_one_verifiable_user unit Toy.hashpw Toy.checkpw
              Toy.Token Toy.sign Toy.verify Toy.SECRET_KEY Sample.db
              user_data (str "secret3") 3000 tt Toy_bcrypt_contract
              Toy_jws_contract)
    as (h & token & Hrun & Hverify & _).
  - free_in_sample.
  - intros e He; discriminate He.
  - reflexivity.
  - exists h, token; split; [exact Hrun | exact Hverify].
Defined.

(** Carol registers with Bob's address. *)
Lemma register_taken_email_conflict_witness :
  let user_data :=
    UserRegister.mk (str "carol") (str "secret3")
                    (Some (str "bob@example.org")) None in
  NoDup (emails_of (users Sample.db))
  /\ run_request (register Toy.hashpw Toy.sign Toy.SECRET_KEY user_data
                           3000 tt) Sample.db
     = (Raises (HTTPException 400 "Email already registered"), Sample.db).
Proof.
  intros user_data.
  assert (ND : NoDup (emails_of (users Sample.db))) by nodup_concrete.
  split; [exact ND|].
  refine (@register_taken_email_conflict unit Toy.hashpw Toy.Token Toy.sign
            Toy.SECRET_KEY Sample.db Sample.bob user_data
            (str "bob@example.org") 3000 tt ND _ _ _ _ _).
  - free_in_sample.
  - right; left; reflexivity.
  - reflexivity.
  - cbv; discriminate.
  - reflexivity.
Defined.

(** Alice logs in with her password, and not with another. *)
Lemma login_checks_password_witness :
  NoDup (map User.username (users Sample.db))
  /\ (exists token,
         run_request (login Toy.checkpw Toy.sign Toy.SECRET_KEY
                            (str "alice") (str "secret1") 3000) Sample.db
         = (Returns (TokenResponse.mk token "bearer"), Sample.db))
  /\ run_request (login Toy.checkpw Toy.sign Toy.SECRET_KEY
                        (str "alice") (str "secret2") 3000) Sample.db
     = (Raises (HTTPException 401 "Invalid username or password"),
        Sample.db).
Proof.
  assert (ND : NoDup (map User.username (users Sample.db)))
    by nodup_concrete.
  destruct (@login_checks_password Toy.checkpw Toy.Token Toy.sign
              Toy.SECRET_KEY Sample.db Sample.alice 3000 ND
              (or_introl eq_refl)) as (_ & Hbad & Hgood & _).
  split; [exact ND|]. split.
  - eexists. apply (Hgood (str "secret1")); reflexivity.
  - apply (Hbad (str "secret2")); reflexivity.
Defined.

Lemma register_then_login_and_me_witness :
  let user_data :=
    UserRegister.mk (str "carol") (str "secret3") None None in
  db_wf Sample.db
  /\ exists token db',
       run_request (register Toy.hashpw Toy.sign Toy.SECRET_KEY user_data
                             3000 tt) Sample.db
       = (Returns (TokenResponse.mk token "bearer"), db')
       /\ exists token',
            run_request (login Toy.checkpw Toy.sign Toy.SECRET_KEY
                               (str "carol") (str "secret3") 3100) db'
            = (Returns (TokenResponse.mk token' "bearer"), db').
Proof.
  intros user_data. split; [exact Sample_db_wf|].
  destruct (@register_then_login_and_me unit Toy.hashpw Toy.checkpw
              Toy.Token Toy.sign Toy.verify Toy.SECRET_KEY Sample.db
              user_data (str "secret3") 3000 tt Toy_bcrypt_contract
              Toy_jws_contract Sample_db_wf)
    as (h & token & db' & Hrun & _ & Hlogin & _).
  - free_in_sample.
  - intros e He; discriminate He.
  - reflexivity.
  - cbv; discriminate.
  - exists token, db'; split; [exact Hrun | exact (Hlogin 3100)].
Defined.

(** Alice adds a book and reads it back. *)
Lemma add_book_then_get_book_witness :
  let book_data := BookCreate.mk (str "Solaris") (str "Lem") None None in
  let book := Book.mk 4 (str "Solaris") (str "Lem") None None 3000 1 in
  let db' := mkDB (users Sample.db) (books Sample.db ++ [book]) in
  db_wf Sample.db
  /\ run_request (add_book book_data Sample.alice 3000) Sample.db
     = (Returns book, db')
  /\ run_request (get_book 4 Sample.alice) db' = (Returns book, db')
  /\ run_request (get_book 4 Sample.bob) db'
     = (Raises (HTTPException 404 "Book not found"), db').
Proof.
  intros book_data book db'. split; [exact Sample_db_wf|].
  destruct (@add_book_then_get_book Sample.db book_data Sample.alice 3000
              Sample_db_wf) as (Hadd & _ & _ & Hget & Hother & _).
  split; [exact Hadd|]. split; [exact Hget|].
  apply (Hother Sample.bob); discriminate.
Defined.

(** Alice deletes her book 1, twice. *)
Lemma delete_book_twice_witness :
  let db' := mkDB (users Sample.db) [Sample.emma; Sample.ubik] in
  NoDup (map Book.id (books Sample.db))
  /\ run_request (delete_book 1 Sample.alice) Sample.db
     = (Returns "Book deleted successfully"%string, db')
  /\ run_request (delete_book 1 Sample.alice) db'
     = (Raises (HTTPException 404 "Book not found"), db').
Proof.
  intros db'.
  assert (ND : NoDup (map Book.id (books Sample.db))) by nodup_concrete.
  destruct (@delete_book_twice Sample.db Sample.alice Sample.dune ND
              (or_introl eq_refl) eq_refl)
    as (Hfirst & (e & Hsecond & He) & _).
  split; [exact ND|]. split; [exact Hfirst|].
  rewrite (He eq_refl) in Hsecond; exact Hsecond.
Defined.

(** Alice replaces her book 1 and reads it back. *)
Lemma update_book_then_get_book_witness :
  let book_data := BookCreate.mk (str "Dune II") (str "Herbert") None None in
  let book' := Book.mk 1 (str "Dune II") (str "Herbert") None None 2000 1 in
  let db' := mkDB (users Sample.db) [book'; Sample.emma; Sample.ubik] in
  NoDup (map Book.id (books Sample.db))
  /\ run_request (update_book 1 book_data Sample.alice) Sample.db
     = (Returns book', db')
  /\ run_request (get_book 1 Sample.alice) db' = (Returns book', db').
Proof.
  intros book_data book' db'.
  assert (ND : NoDup (map Book.id (books Sample.db))) by nodup_concrete.
  destruct (@update_book_then_get_book Sample.db Sample.alice Sample.dune
              book_data ND (or_introl eq_refl) eq_refl)
    as (Hput & _ & Hget & _).
  split; [exact ND|]. split; [exact Hput | exact Hget].
Defined.

Lemma book_handlers_keep_schema_constraints_witness :
  let book_data := BookCreate.mk (str "Solaris") (str "Lem") None None in
  db_wf Sample.db
  /\ db_wf (snd (run_request (add_book book_data Sample.alice 3000)
                             Sample.db))
  /\ db_wf (snd (run_request (delete_book 1 Sample.alice) Sample.db)).
Proof.
  intros book_data. split; [exact Sample_db_wf|].
  destruct (@book_handlers_keep_schema_constraints Sample.db Sample.alice 1
              book_data 3000 Sample_db_wf)
    as (Hadd & _ & _ & _ & Hdelete & _).
  split; [exact Hadd | exact Hdelete].
Defined.

(** Alice lists with the wildcard [_] and no limit: still only her books. *)
Lemma get_my_books_only_own_books_witness :
  NoDup (map Book.id (books Sample.db))
  /\ exists rows,
       fst (run_request
              (get_my_books Sample.alice 0 (-1) (Some (str "_")) None)
              Sample.db)
       = Returns rows
       /\ forall b, In b rows -> Book.owner_id b = User.id Sample.alice.
Proof.
  assert (ND : NoDup (map Book.id (books Sample.db))) by nodup_concrete.
  split; [exact ND|].
  pose proof (@get_my_books_only_own_books Sample.db Sample.alice 0 (-1)
                (Some (str "_")) None ND) as H.
  cbv zeta in H. destruct H as (_ & _ & Hret & Hrows & _).
  destruct (Hret eq_refl eq_refl eq_refl) as (rows & Hrun).
  exists rows; split; [exact Hrun|].
  intros b Hb; exact (proj2 (proj1 (Hrows rows Hrun) b Hb)).
Defined.

(** Alice sets her full name. *)
Lemma update_my_profile_keeps_schema_constraints_witness :
  let update_data := UserUpdate.mk None (Some (str "Al")) None in
  db_wf Sample.db
  /\ In Sample.alice (users Sample.db)
  /\ db_wf (snd (run_request
                   (update_my_profile Toy.hashpw update_data Sample.alice tt)
                   Sample.db)).
Proof.
  intros update_data.
  assert (Hin : In Sample.alice (users Sample.db)) by (left; reflexivity).
  split; [exact Sample_db_wf|]. split; [exact Hin|].
  exact (proj1 (@update_my_profile_keeps_schema_constraints unit Toy.hashpw
                  Sample.db update_data Sample.alice tt Sample_db_wf Hin)).
Defined.

Lemma update_my_profile_assigns_supplied_fields_witness :
  let update_data := UserUpdate.mk None (Some (str "Al")) None in
  let user' := User.set_full_name (Some (str "Al")) Sample.alice in
  NoDup (map User.id (users Sample.db))
  /\ run_request (update_my_profile Toy.hashpw update_data Sample.alice tt)
                 Sample.db
     = (Returns user', mkDB [user'; Sample.bob] (books Sample.db))
  /\ User.email user' = User.email Sample.alice.
Proof.
  intros update_data user'.
  assert (ND : NoDup (map User.id (users Sample.db))) by nodup_concrete.
  split; [exact ND|].
  destruct (@update_my_profile_assigns_supplied_fields unit Toy.hashpw
              Sample.db update_data Sample.alice tt [] ND
              (or_introl eq_refl))
    as (Hrun & _ & _ & _ & _ & _ & Hemail & _).
  - intros e He; discriminate He.
  - intros p Hp; discriminate Hp.
  - split; [exact Hrun | exact (Hemail eq_refl)].
Defined.

(** Alice changes her password: the new one logs in, the old one does
    not. *)
Lemma change_password_then_login_witness :
  bcrypt_contract Toy.hashpw Toy.checkpw
  /\ db_wf Sample.db
  /\ exists db',
       fst (run_request
              (update_my_profile Toy.hashpw
                 (UserUpdate.mk None None (Some (str "secret9")))
                 Sample.alice tt) Sample.db)
       = Returns (User.set_hashed_password (Toy.digest (str "secret9"))
                                           Sample.alice)
       /\ (exists token,
              run_request (login Toy.checkpw Toy.sign Toy.SECRET_KEY
                                 (str "alice") (str "secret9") 3000) db'
              = (Returns (TokenResponse.mk token "bearer"), db'))
       /\ run_request (login Toy.checkpw Toy.sign Toy.SECRET_KEY
                             (str "alice") (str "secret1") 3000) db'
          = (Raises (HTTPException 401 "Invalid username or password"), db').
Proof.
  split; [exact Toy_bcrypt_contract|]. split; [exact Sample_db_wf|].
  destruct (@change_password_then_login unit Toy.hashpw Toy.checkpw
              Toy.Token Toy.sign Toy.verify Toy.SECRET_KEY Sample.db
              Sample.alice (str "secret9") (str "secret9") tt
              Toy_bcrypt_contract Toy_jws_contract Sample_db_wf
              (or_introl eq_refl))
    as (h & db' & _ & _ & Hh & Hnew & _ & Hold).
  - cbv; discriminate.
  - reflexivity.
  - exists db'. split; [reflexivity|]. split; [exact (Hnew 3000)|].
    apply (Hold (str "secret1") 3000).
    vm_compute in Hh; injection Hh as <-. reflexivity.
Defined.

(** Bob asks for Alice's book 1 with his own valid token. *)
Lemma routes_hide_books_of_other_users_witness :
  let token_alice : Toy.Token :=
    (Claims.mk (Some (str "alice")) (Some 1600), Toy.SECRET_KEY, HS256) in
  let token_bob : Toy.Token :=
    (Claims.mk (Some (str "bobby")) (Some 1600), Toy.SECRET_KEY, HS256) in
  jws_contract Toy.sign Toy.verify Toy.SECRET_KEY
  /\ db_wf Sample.db
  /\ run_request (GET_book Toy.verify Toy.SECRET_KEY token_alice 1200 1)
                 Sample.db
     = (Returns (BookResponse.from_orm Sample.dune), Sample.db)
  /\ run_request (GET_book Toy.verify Toy.SECRET_KEY token_bob 1200 1)
                 Sample.db
     = (Raises (HTTPException 404 "Book not found"), Sample.db).
Proof.
  intros token_alice token_bob.
  split; [exact Toy_jws_contract|]. split; [exact Sample_db_wf|].
  refine (let H := @routes_hide_books_of_other_users Toy.Token Toy.sign
                     Toy.verify Toy.SECRET_KEY Sample.db Sample.alice
                     Sample.bob Sample.dune 1000 1200 token_alice token_bob
                     Toy_jws_contract Sample_db_wf _ _ _ _ _ eq_refl eq_refl
                     _ eq_refl _ in
          conj (proj1 H) (proj1 (proj2 H))).
  - left; reflexivity.
  - right; left; reflexivity.
  - discriminate.
  - cbv; discriminate.
  - cbv; discriminate.
  - left; reflexivity.
  - lia.
Defined.

(** Alice posts a book without a title. *)
Lemma book_routes_validate_the_body_witness :
  let token : Toy.Token :=
    (Claims.mk (Some (str "alice")) (Some 1600), Toy.SECRET_KEY, HS256) in
  let body := BookCreate.mk [] (str "Lem") None None in
  jws_contract Toy.sign Toy.verify Toy.SECRET_KEY
  /\ NoDup (map User.username (users Sample.db))
  /\ run_request (POST_books Toy.verify Toy.SECRET_KEY token body 1200)
                 Sample.db
     = (Raises RequestValidationError, Sample.db).
Proof.
  intros token body.
  assert (ND : NoDup (map User.username (users Sample.db)))
    by nodup_concrete.
  split; [exact Toy_jws_contract|]. split; [exact ND|].
  refine (proj1 (proj1 (@book_routes_validate_the_body Toy.Token Toy.sign
                          Toy.verify Toy.SECRET_KEY Sample.db Sample.alice
                          1000 1200 token body Toy_jws_contract ND
                          (or_introl eq_refl) _ eq_refl _) _)).
  - cbv; discriminate.
  - lia.
  - left; cbv; reflexivity.
Defined.
